(** * Dashboard serializers of spotnet: a shallow embedding

    The development follows [web_app/api/serializers/dashboard.py]:

    - Python values of a raw payload ([pyval]) and the exceptions the
      serializers can raise ([exn], [outcome]);
    - the part of Python's [decimal] module that
      [Position.convert_total_balances] uses: the constructor on strings,
      integers and floats, true division in the default context (28
      significant digits, round-half-even, Emax 999999, Emin -999999, traps
      on InvalidOperation, DivisionByZero and Overflow) and [str];
    - the two field validators, [convert_total_balances] and
      [convert_products], the latter over a store of mutable dictionaries;
    - the pydantic models [Data], [TotalBalances], [Position], [Product],
      [ZkLendPositionResponse] and [DashboardResponse].

    Strings are sequences of ASCII characters.  Validation errors are
    modelled by their kind; the location paths of pydantic's error reports
    are not part of the model. *)

From Stdlib Require Import ZArith NArith List String Ascii Bool Lia QArith.
Import ListNotations.

Set Warnings "-register-all".

Local Open Scope string_scope.
Local Open Scope list_scope.
Local Open Scope Z_scope.

(** * Python values *)

(** A finite or special binary float, as [float] holds it. *)
Inductive pyfloat : Type :=
| FZero (neg : bool)
| FInf (neg : bool)
| FNaN
| FFinite (neg : bool) (m : positive) (e : Z).   (* (-1)^neg * m * 2^e *)

(** The values a raw payload is built from.  A dictionary keeps its
    insertion order; its keys are strings. *)
Inductive pyval : Type :=
| PNone
| PBool (b : bool)
| PInt (z : Z)
| PFloat (f : pyfloat)
| PStr (s : string)
| PList (l : list pyval)
| PDict (d : list (string * pyval)).

Definition pydict : Type := list (string * pyval).

(** [type(v).__name__] *)
Definition py_type_name (v : pyval) : string :=
  match v with
  | PNone => "NoneType"
  | PBool _ => "bool"
  | PInt _ => "int"
  | PFloat _ => "float"
  | PStr _ => "str"
  | PList _ => "list"
  | PDict _ => "dict"
  end.

(** ** Dictionaries *)

Module Dict.

Section WithValue.
Context {V : Type}.

(** [d.get(k)] *)
Fixpoint get (k : string) (d : list (string * V)) : option V :=
  match d with
  | [] => None
  | (k', v) :: r => if String.eqb k k' then Some v else get k r
  end.

(** [d[k] = v]: an existing key keeps its place, a new one goes last. *)
Fixpoint set (k : string) (v : V) (d : list (string * V)) : list (string * V) :=
  match d with
  | [] => [(k, v)]
  | (k', v') :: r =>
      if String.eqb k k' then (k', v) :: r else (k', v') :: set k v r
  end.

(** The dictionary left by [d.pop(k, default)]. *)
Fixpoint remove (k : string) (d : list (string * V)) : list (string * V) :=
  match d with
  | [] => []
  | (k', v') :: r =>
      if String.eqb k k' then remove k r else (k', v') :: remove k r
  end.

Definition keys (d : list (string * V)) : list string := map fst d.

End WithValue.

End Dict.

(** * Exceptions and outcomes *)

Inductive exc_class : Type :=
| ValueError
| AssertionError
| AttributeError
| TypeError
| InvalidOperation      (* decimal.InvalidOperation, an ArithmeticError *)
| DecimalOverflow       (* decimal.Overflow, an ArithmeticError *)
| DivisionByZero        (* decimal.DivisionByZero *)
| OtherError.           (* a class that is not any of the above, and neither
                           a ValueError nor an AssertionError *)

(** An exception: its class and [str(e)]. *)
Inductive exn : Type := Exn (c : exc_class) (msg : string).

Definition exn_class (e : exn) : exc_class := let 'Exn c _ := e in c.
Definition exn_str (e : exn) : string := let 'Exn _ m := e in m.

(** [isinstance(e, ValueError)] *)
Definition is_ValueError (e : exn) : bool :=
  match exn_class e with ValueError => true | _ => false end.

(** The kinds of entries of a pydantic [ValidationError]. *)
Inductive verror : Type :=
| E_missing (field : string)
| E_model_type
| E_dict_type
| E_list_type
| E_string_type
| E_bool_type
| E_bool_parsing
| E_int_type
| E_int_parsing
| E_int_from_float
| E_int_parsing_size
| E_finite_number
| E_datetime
| E_value_error (msg : string)        (* a ValueError raised by a validator *)
| E_assertion_error (msg : string).   (* an AssertionError raised by a validator *)

(** What running a piece of the serializers ends in: a value, a pydantic
    [ValidationError], or another exception that propagates. *)
Inductive outcome (A : Type) : Type :=
| Ok (a : A)
| Invalid (errs : list verror)
| Raised (e : exn).

Arguments Ok {A} a.
Arguments Invalid {A} errs.
Arguments Raised {A} e.

Definition bind {A B : Type} (m : outcome A) (k : A -> outcome B) : outcome B :=
  match m with
  | Ok a => k a
  | Invalid errs => Invalid errs
  | Raised e => Raised e
  end.

Notation "x <- m ;; k" := (bind m (fun x => k))
  (at level 61, m at next level, right associativity).

Definition succeeded {A : Type} (m : outcome A) : bool :=
  match m with Ok _ => true | _ => false end.

(** * Decimal digits *)

Module Digits.

Local Open Scope N_scope.

Definition digit_char (n : N) : ascii := ascii_of_N (48 + n mod 10).

Definition is_digit (c : ascii) : bool :=
  let n := N_of_ascii c in (48 <=? n) && (n <=? 57).

Definition digit_val (c : ascii) : N := N_of_ascii c - 48.

Fixpoint digits_fuel (fuel : nat) (n : N) : list ascii :=
  match fuel with
  | O => []
  | S f =>
      if n <? 10 then [digit_char n]
      else digits_fuel f (n / 10) ++ [digit_char n]
  end.

(** [str(n)] for a natural number [n]. *)
Definition digits_of (n : N) : list ascii :=
  digits_fuel (S (N.to_nat (N.log2 n))) n.

(** [int(s)] for a string of digits ([0] for the empty string). *)
Definition digits_value (cs : list ascii) : N :=
  fold_left (fun acc c => 10 * acc + digit_val c) cs 0.

(** [len(str(n))] *)
Definition ndigits (n : N) : Z := Z.of_nat (List.length (digits_of n)).

(** The longest prefix of digits, and what follows it. *)
Fixpoint span_digits (cs : list ascii) : list ascii * list ascii :=
  match cs with
  | [] => ([], [])
  | c :: r =>
      if is_digit c then let (ds, rest) := span_digits r in (c :: ds, rest)
      else ([], cs)
  end.

End Digits.

(** * Python's [decimal.Decimal] *)

Module PyDecimal.

Import Digits.

(** A decimal: a finite number [(-1)^neg * coeff * 10^exp], an infinity
    or a NaN with its diagnostic payload ([0] when it has none). *)
Inductive decimal : Type :=
| Finite (neg : bool) (coeff : N) (exp : Z)
| Infinity (neg : bool)
| NaN (neg : bool) (signaling : bool) (payload : N).

(** ** The default context *)

Definition prec : Z := 28.
Definition Emax : Z := 999999.
Definition Emin : Z := -999999.
Definition Etiny : Z := Emin - prec + 1.
Definition Etop : Z := Emax - prec + 1.

(** The limits of the exact conversion of a string. *)
Definition MAX_EMAX : Z := 999999999999999999.
Definition MAX_PREC : Z := 999999999999999999.
Definition MIN_ETINY : Z := - MAX_EMAX - (MAX_PREC - 1).

Definition pow10 (k : Z) : N := (10 ^ Z.to_N k)%N.

Definition raise_InvalidOperation {A : Type} : outcome A :=
  Raised (Exn InvalidOperation "[<class 'decimal.InvalidOperation'>]").
Definition raise_ConversionSyntax {A : Type} : outcome A :=
  Raised (Exn InvalidOperation "[<class 'decimal.ConversionSyntax'>]").
Definition raise_Overflow {A : Type} : outcome A :=
  Raised (Exn DecimalOverflow "[<class 'decimal.Overflow'>]").
Definition raise_DivisionByZero {A : Type} : outcome A :=
  Raised (Exn DivisionByZero "[<class 'decimal.DivisionByZero'>]").
Definition raise_DivisionUndefined {A : Type} : outcome A :=
  Raised (Exn InvalidOperation "[<class 'decimal.DivisionUndefined'>]").

(** ** [Decimal(str)] *)

(** [str.isspace] on an ASCII character. *)
Definition is_space (c : ascii) : bool :=
  let n := N_of_ascii c in
  ((9 <=? n) && (n <=? 13) || (28 <=? n) && (n <=? 32))%N.

Fixpoint lstrip (cs : list ascii) : list ascii :=
  match cs with
  | [] => []
  | c :: r => if is_space c then lstrip r else cs
  end.

(** [s.strip()] *)
Definition strip (cs : list ascii) : list ascii :=
  rev (lstrip (rev (lstrip cs))).

(** [s.replace("_", "")] *)
Definition remove_underscores (cs : list ascii) : list ascii :=
  filter (fun c => negb (Ascii.eqb c "_")) cs.

Definition lower (c : ascii) : ascii :=
  let n := N_of_ascii c in
  if ((65 <=? n) && (n <=? 90))%N then ascii_of_N (n + 32) else c.

(** [[-+]?] *)
Definition split_sign (cs : list ascii) : bool * list ascii :=
  match cs with
  | "-"%char :: r => (true, r)
  | "+"%char :: r => (false, r)
  | _ => (false, cs)
  end.

Definition signed (neg : bool) (n : N) : Z :=
  if neg then - Z.of_N n else Z.of_N n.

(** An optional exponent, [E], an optional sign and one digit or more,
    up to the end of the string; [0] when there is none. *)
Definition parse_exponent (cs : list ascii) : option Z :=
  match cs with
  | [] => Some 0
  | c :: r =>
      if Ascii.eqb (lower c) "e" then
        let (neg, r1) := split_sign r in
        let (ds, r2) := span_digits r1 in
        match ds, r2 with
        | _ :: _, [] => Some (signed neg (digits_value ds))
        | _, _ => None
        end
      else None
  end.

(** A numeric string: digits, an optional point followed by digits, and
    an optional exponent, with a digit at the start or right after a
    leading point; nothing may follow.  The result is the integer part,
    the fractional part and the exponent. *)
Definition parse_number (cs : list ascii)
  : option (list ascii * list ascii * Z) :=
  let (ip, r1) := span_digits cs in
  let '(fp, r2) :=
    match r1 with
    | "."%char :: r => span_digits r
    | _ => ([], r1)
    end in
  match ip, r1 with
  | [], "."%char :: c :: _ =>
      if is_digit c then option_map (fun e => (ip, fp, e)) (parse_exponent r2)
      else None
  | [], _ => None
  | _ :: _, _ => option_map (fun e => (ip, fp, e)) (parse_exponent r2)
  end.

Definition all_digits (cs : list ascii) : bool := forallb is_digit cs.

(** [Inf], [Infinity], [NaN] or [sNaN], a NaN with optional diagnostic
    digits, up to the end of the string and whatever the case. *)
Definition parse_special (neg : bool) (cs : list ascii) : option decimal :=
  let l := map lower cs in
  let s := string_of_list_ascii l in
  if String.eqb s "inf" || String.eqb s "infinity" then Some (Infinity neg)
  else
    match l with
    | "n"%char :: "a"%char :: "n"%char :: r =>
        if all_digits r then Some (NaN neg false (digits_value r)) else None
    | "s"%char :: "n"%char :: "a"%char :: "n"%char :: r =>
        if all_digits r then Some (NaN neg true (digits_value r)) else None
    | _ => None
    end.

(** The decimal a string denotes, when it is a numeric string. *)
Definition parse (s : string) : option decimal :=
  let cs := remove_underscores (strip (list_ascii_of_string s)) in
  let (neg, body) := split_sign cs in
  match parse_number body with
  | Some (ip, fp, e) =>
      Some (Finite neg (digits_value (ip ++ fp)) (e - Z.of_nat (List.length fp)))
  | None => parse_special neg body
  end.

(** The conversion is exact: a number outside the largest context is
    refused. *)
Definition exact_in_max_context (d : decimal) : bool :=
  match d with
  | Finite _ c e =>
      (MIN_ETINY <=? e) && (ndigits c <=? MAX_PREC)
      && (if (c =? 0)%N then e <=? MAX_EMAX else e + ndigits c - 1 <=? MAX_EMAX)
  | _ => true
  end.

Definition of_str (s : string) : outcome decimal :=
  match parse s with
  | None => raise_ConversionSyntax
  | Some d => if exact_in_max_context d then Ok d else raise_InvalidOperation
  end.

(** ** [Decimal(int)] and [Decimal(float)] *)

Definition of_int (z : Z) : decimal := Finite (z <? 0) (Z.abs_N z) 0.

(** The number of trailing zero bits. *)
Fixpoint ctz (p : positive) : Z :=
  match p with
  | xO q => 1 + ctz q
  | _ => 0
  end.

(** [Decimal(float)]: the exact value of the float, from its ratio in
    lowest terms [n / 2^k] as [n * 5^k * 10^-k]. *)
Definition of_float (f : pyfloat) : decimal :=
  match f with
  | FZero neg => Finite neg 0 0
  | FInf neg => Infinity neg
  | FNaN => NaN false false 0
  | FFinite neg m e =>
      if 0 <=? e then Finite neg (Npos m * 2 ^ Z.to_N e) 0
      else
        let r := Z.min (ctz m) (- e) in
        let n := (Npos m / 2 ^ Z.to_N r)%N in
        let k := - e - r in
        Finite neg (n * 5 ^ Z.to_N k) (- k)
  end.

(** ** Rounding to the context: [_fix] *)

(** [_fix] on a finite number, rounding half to even. *)
Definition fix_finite (neg : bool) (c : N) (e : Z) : outcome decimal :=
  if (c =? 0)%N then Ok (Finite neg 0 (Z.min (Z.max e Etiny) Emax))
  else
    let exp_min0 := ndigits c + e - prec in
    if Etop <? exp_min0 then raise_Overflow
    else
      let exp_min := if exp_min0 <? Etiny then Etiny else exp_min0 in
      if e <? exp_min then
        let '(c', e') :=
          if ndigits c + e - exp_min <? 0 then (1%N, exp_min - 1) else (c, e) in
        let drop := exp_min - e' in
        let kept := (c' / pow10 drop)%N in
        let rem := (c' mod pow10 drop)%N in
        let half := (5 * pow10 (drop - 1))%N in
        let up := ((half <? rem) || (half =? rem) && N.odd kept)%N in
        let '(coeff, exp_min') :=
          if up then
            if prec <? ndigits (kept + 1) then (((kept + 1) / 10)%N, exp_min + 1)
            else ((kept + 1)%N, exp_min)
          else (kept, exp_min) in
        if Etop <? exp_min' then raise_Overflow
        else Ok (Finite neg coeff exp_min')
      else Ok (Finite neg c e).

(** [_fix_nan]: a payload keeps its last [prec] digits. *)
Definition fix_nan (neg : bool) (payload : N) : decimal :=
  NaN neg false (payload mod pow10 prec).

(** ** [a / b] *)

(** [while exp < ideal_exp and coeff % 10 == 0: coeff //= 10; exp += 1] *)
Fixpoint strip_zeros (fuel : nat) (coeff : N) (exp ideal : Z) : N * Z :=
  match fuel with
  | O => (coeff, exp)
  | S f =>
      if (exp <? ideal) && (coeff mod 10 =? 0)%N
      then strip_zeros f (coeff / 10)%N (exp + 1) ideal
      else (coeff, exp)
  end.

Definition truediv (a b : decimal) : outcome decimal :=
  match a, b with
  | NaN _ true _, _ => raise_InvalidOperation
  | _, NaN _ true _ => raise_InvalidOperation
  | NaN neg false p, _ => Ok (fix_nan neg p)
  | _, NaN neg false p => Ok (fix_nan neg p)
  | Infinity _, Infinity _ => raise_InvalidOperation
  | Infinity s1, Finite s2 _ _ => Ok (Infinity (xorb s1 s2))
  | Finite s1 _ _, Infinity s2 => Ok (Finite (xorb s1 s2) 0 Etiny)
  | Finite s1 c1 e1, Finite s2 c2 e2 =>
      let sign := xorb s1 s2 in
      if (c2 =? 0)%N then
        if (c1 =? 0)%N then raise_DivisionUndefined else raise_DivisionByZero
      else if (c1 =? 0)%N then fix_finite sign 0 (e1 - e2)
      else
        let shift := ndigits c2 - ndigits c1 + prec + 1 in
        let exp := e1 - e2 - shift in
        let '(coeff, remainder) :=
          if 0 <=? shift
          then (((c1 * pow10 shift) / c2)%N, ((c1 * pow10 shift) mod c2)%N)
          else ((c1 / (c2 * pow10 (- shift)))%N,
                (c1 mod (c2 * pow10 (- shift)))%N) in
        let '(coeff', exp') :=
          if (remainder =? 0)%N
          then strip_zeros (List.length (digits_of coeff)) coeff exp (e1 - e2)
          else ((if (coeff mod 5 =? 0)%N then coeff + 1 else coeff)%N, exp) in
        fix_finite sign coeff' exp'
  end.

(** ** [str(d)] *)

Definition sign_chars (neg : bool) : list ascii :=
  if neg then ["-"%char] else [].

(** ["%+d" % z] *)
Definition signed_digits (z : Z) : list ascii :=
  (if z <? 0 then "-"%char else "+"%char) :: digits_of (Z.abs_N z).

Definition to_chars (d : decimal) : list ascii :=
  match d with
  | Infinity neg => sign_chars neg ++ list_ascii_of_string "Infinity"
  | NaN neg sig p =>
      sign_chars neg
      ++ list_ascii_of_string (if sig then "sNaN" else "NaN")
      ++ (if (p =? 0)%N then [] else digits_of p)
  | Finite neg c e =>
      let ds := digits_of c in
      let len := Z.of_nat (List.length ds) in
      let leftdigits := e + len in
      let dotplace :=
        if (e <=? 0) && (-6 <? leftdigits) then leftdigits else 1 in
      let '(intpart, fracpart) :=
        if dotplace <=? 0 then
          (["0"%char], "."%char :: repeat "0"%char (Z.to_nat (- dotplace)) ++ ds)
        else if len <=? dotplace then
          (ds ++ repeat "0"%char (Z.to_nat (dotplace - len)), [])
        else
          (firstn (Z.to_nat dotplace) ds,
           "."%char :: skipn (Z.to_nat dotplace) ds) in
      let exp :=
        if leftdigits =? dotplace then []
        else "E"%char :: signed_digits (leftdigits - dotplace) in
      sign_chars neg ++ intpart ++ fracpart ++ exp
  end.

Definition to_str (d : decimal) : string := string_of_list_ascii (to_chars d).

(** ** The number a finite decimal denotes *)

Definition magnitude (c : N) (e : Z) : Q :=
  if 0 <=? e then inject_Z (Z.of_N (c * pow10 e))
  else (inject_Z (Z.of_N c) / inject_Z (Z.of_N (pow10 (- e))))%Q.

Definition value (d : decimal) : option Q :=
  match d with
  | Finite neg c e => Some (if neg then (- magnitude c e)%Q else magnitude c e)
  | _ => None
  end.

(** ** Notions used to reason about decimals *)

(** [c * 10^e] is the number [m * 10^x], written with a smaller or equal
    exponent. *)
Definition represents (m : N) (x : Z) (c : N) (e : Z) : Prop :=
  e <= x /\ c = (m * pow10 (x - e))%N.

(** A character that [strip] and the removal of underscores leave alone. *)
Definition plain (c : ascii) : bool :=
  negb (is_space c) && negb (Ascii.eqb c "_").

(** The fractional part and the exponent as [str] writes them. *)
Definition frac_chars (fp : option (list ascii)) : list ascii :=
  match fp with None => [] | Some f => "."%char :: f end.

Definition exp_chars (x : option Z) : list ascii :=
  match x with None => [] | Some x => "E"%char :: signed_digits x end.

End PyDecimal.

(** * pydantic: leaf validators and the accumulation of errors *)

Module Pydantic.

(** Two fields validated one after the other: validation errors
    accumulate, any other exception stops the validation where it is
    raised. *)
Definition both {A B C : Type} (f : A -> B -> C)
    (ma : outcome A) (mb : outcome B) : outcome C :=
  match ma with
  | Raised e => Raised e
  | Ok a =>
      match mb with
      | Ok b => Ok (f a b)
      | Invalid errs => Invalid errs
      | Raised e => Raised e
      end
  | Invalid errs1 =>
      match mb with
      | Ok _ => Invalid errs1
      | Invalid errs2 => Invalid (errs1 ++ errs2)
      | Raised e => Raised e
      end
  end.

(** A required field, looked up under its name. *)
Definition required {A : Type} (field : string) (d : pydict)
    (validate : pyval -> outcome A) : outcome A :=
  match Dict.get field d with
  | None => Invalid [E_missing field]
  | Some v => validate v
  end.

(** The value of a field with an alias under [populate_by_name]: the
    alias is looked up first, the field name second. *)
Definition get_aliased (alias name : string) (d : pydict) : option pyval :=
  match Dict.get alias d with
  | Some v => Some v
  | None => Dict.get name d
  end.

(** What a [mode="before"] field validator hands back to pydantic: a
    [ValueError] or [AssertionError] it raises becomes an entry of the
    validation error, a [ValidationError] raised inside it keeps its
    entries, and any other exception propagates unchanged. *)
Definition run_validator {A : Type} (r : outcome A) : outcome A :=
  match r with
  | Ok a => Ok a
  | Invalid errs => Invalid errs
  | Raised (Exn ValueError msg) => Invalid [E_value_error msg]
  | Raised (Exn AssertionError msg) => Invalid [E_assertion_error msg]
  | Raised e => Raised e
  end.

(** [str] *)
Definition validate_str (v : pyval) : outcome string :=
  match v with
  | PStr s => Ok s
  | _ => Invalid [E_string_type]
  end.

(** [Optional[str]] *)
Definition validate_optional_str (v : pyval) : outcome (option string) :=
  match v with
  | PNone => Ok None
  | _ => s <- validate_str v ;; Ok (Some s)
  end.

(** An integer read from a float is kept when it lies strictly between
    the least and the greatest 64-bit integers, as floats. *)
Definition float_in_i64 (z : Z) : outcome Z :=
  if (- 2 ^ 63 <? z) && (z <? 2 ^ 63) then Ok z
  else Invalid [E_int_parsing_size].

(** The integer a float holds, when it holds one: the float is finite, has
    no fractional part and is within the 64-bit range. *)
Definition float_as_int (f : pyfloat) : outcome Z :=
  match f with
  | FZero _ => Ok 0
  | FInf _ | FNaN => Invalid [E_finite_number]
  | FFinite neg m e =>
      let sign := if neg then -1 else 1 in
      if 0 <=? e then float_in_i64 (sign * (Zpos m * 2 ^ e))
      else if Zpos m mod 2 ^ (- e) =? 0
      then float_in_i64 (sign * (Zpos m / 2 ^ (- e)))
      else Invalid [E_int_from_float]
  end.

Definition lower_string (s : string) : string :=
  string_of_list_ascii (map PyDecimal.lower (list_ascii_of_string s)).

Definition str_as_bool (s : string) : outcome bool :=
  let l := lower_string s in
  if existsb (String.eqb l) ["0"; "off"; "f"; "false"; "n"; "no"] then Ok false
  else if existsb (String.eqb l) ["1"; "on"; "t"; "true"; "y"; "yes"] then Ok true
  else Invalid [E_bool_parsing].

(** [0] and [1] as booleans. *)
Definition int_as_bool (z : Z) : outcome bool :=
  match z with
  | 0 => Ok false
  | 1 => Ok true
  | _ => Invalid [E_bool_parsing]
  end.

(** [bool], in lax mode: a string, an integer of 64 bits or a float that
    holds an integer is read as a boolean; anything else is not of the
    type. *)
Definition validate_bool (v : pyval) : outcome bool :=
  match v with
  | PBool b => Ok b
  | PInt z =>
      if (- 2 ^ 63 <=? z) && (z <? 2 ^ 63) then int_as_bool z
      else Invalid [E_bool_type]
  | PFloat f =>
      match float_as_int f with
      | Ok z => int_as_bool z
      | _ => Invalid [E_bool_type]
      end
  | PStr s => str_as_bool s
  | _ => Invalid [E_bool_type]
  end.

Section Leaves.

(** pydantic's reading of a string as an integer. *)
Variable int_from_str : string -> option Z.

(** [int], in lax mode. *)
Definition validate_int (v : pyval) : outcome Z :=
  match v with
  | PInt z => Ok z
  | PBool b => Ok (if b then 1 else 0)
  | PFloat f => float_as_int f
  | PStr s =>
      match int_from_str s with
      | Some z => Ok z
      | None => Invalid [E_int_parsing]
      end
  | _ => Invalid [E_int_type]
  end.

(** [int | None] *)
Definition validate_optional_int (v : pyval) : outcome (option Z) :=
  match v with
  | PNone => Ok None
  | _ => z <- validate_int v ;; Ok (Some z)
  end.

End Leaves.

(** [List[T]]: every item is validated, in order. *)
Fixpoint validate_items {A : Type} (validate : pyval -> outcome A)
    (l : list pyval) : outcome (list A) :=
  match l with
  | [] => Ok []
  | v :: r => both cons (validate v) (validate_items validate r)
  end.

Definition validate_list {A : Type} (validate : pyval -> outcome A)
    (v : pyval) : outcome (list A) :=
  match v with
  | PList l => validate_items validate l
  | _ => Invalid [E_list_type]
  end.

(** [Dict[str, T]]: every value is validated, in order. *)
Fixpoint validate_entries {A : Type} (validate : pyval -> outcome A)
    (d : pydict) : outcome (list (string * A)) :=
  match d with
  | [] => Ok []
  | (k, v) :: r =>
      both cons (a <- validate v ;; Ok (k, a)) (validate_entries validate r)
  end.

Definition validate_dict {A : Type} (validate : pyval -> outcome A)
    (v : pyval) : outcome (list (string * A)) :=
  match v with
  | PDict d => validate_entries validate d
  | _ => Invalid [E_dict_type]
  end.

(** [Any] *)
Definition validate_any (v : pyval) : outcome pyval := Ok v.

End Pydantic.

(** * The serializers of [dashboard.py] *)

(** A [datetime] object. *)
Record datetime : Type := mk_datetime {
  dt_year : Z; dt_month : Z; dt_day : Z;
  dt_hour : Z; dt_minute : Z; dt_second : Z; dt_microsecond : Z;
  dt_utcoffset : option Z
}.

(** [class Data(BaseModel)] *)
Record Data : Type := mk_Data {
  collateral : bool;
  debt : bool
}.

(** [class TotalBalances(RootModel)], with [root: Dict[str, str]] *)
Definition TotalBalances : Type := list (string * string).

(** [class Position(BaseModel)] *)
Record Position : Type := mk_Position {
  data : Data;
  token_address : option string;
  total_balances : TotalBalances
}.

(** [class Product(BaseModel)] *)
Record Product : Type := mk_Product {
  name : string;
  health_ratio : string;
  positions : list Position
}.

(** [class ZkLendPositionResponse(BaseModel)] *)
Record ZkLendPositionResponse : Type := mk_ZkLendPositionResponse {
  products : list Product
}.

(** [class DashboardResponse(BaseModel)] *)
Record DashboardResponse : Type := mk_DashboardResponse {
  balances : pydict;
  multipliers : list (string * option Z);
  start_dates : list (string * option datetime);
  zklend_position : ZkLendPositionResponse
}.

(** The objects a list of raw products refers to, by position. *)
Definition store : Type := list pyval.

Module Store.

(** The object at a location; a location outside the store does not
    occur, the products of a payload being live objects. *)
Definition read (h : store) (l : nat) : pyval := nth l h PNone.

Fixpoint write (h : store) (l : nat) (v : pyval) : store :=
  match h, l with
  | [], _ => []
  | _ :: r, O => v :: r
  | x :: r, S l' => x :: write r l' v
  end.

End Store.

Section Serializers.

Import Pydantic.

(** Modelled from the spec: [TokenParams.get_token_decimals] of
    [web_app.contract_tools.constants], which is not among the sources.
    Given a token address it returns the token's decimal precision, an
    integer that is at least 0, or raises when the token is unknown. *)
Variable get_token_decimals : string -> exn + N.

(** [Decimal(value)] on a list, a corner of the [decimal] module that is
    left open. *)
Variable Decimal_from_sequence : list pyval -> outcome PyDecimal.decimal.

(** pydantic's reading of a string as an integer and of a value as a
    [datetime]. *)
Variable int_from_str : string -> option Z.
Variable datetime_from : pyval -> option datetime.

(** ** [Position.convert_total_balances] *)

(** [Decimal(balance)] *)
Definition Decimal (balance : pyval) : outcome PyDecimal.decimal :=
  match balance with
  | PStr s => PyDecimal.of_str s
  | PInt z => Ok (PyDecimal.of_int z)
  | PBool b => Ok (PyDecimal.of_int (if b then 1 else 0))
  | PFloat f => Ok (PyDecimal.of_float f)
  | PList l => Decimal_from_sequence l
  | PNone | PDict _ =>
      Raised (Exn TypeError
        ("conversion from " ++ py_type_name balance
         ++ " to Decimal is not supported")%string)
  end.

(** The body of the [try]: the lookup of the decimals, then
    [str(Decimal(balance) / Decimal(10**decimals))]. *)
Definition convert_balance (token_address : string) (balance : pyval)
    : outcome string :=
  match get_token_decimals token_address with
  | inl e => Raised e
  | inr decimals =>
      b <- Decimal balance ;;
      q <- PyDecimal.truediv b (PyDecimal.of_int (10 ^ Z.of_N decimals)) ;;
      Ok (PyDecimal.to_str q)
  end.

(** [except ValueError as e: raise ValueError(f"Error in balance
    conversion: {str(e)}")] *)
Definition reraise_ValueError {A : Type} (r : outcome A) : outcome A :=
  match r with
  | Raised e =>
      if is_ValueError e
      then Raised (Exn ValueError
             ("Error in balance conversion: " ++ exn_str e)%string)
      else Raised e
  | _ => r
  end.

(** The loop over [balances.items()], filling [converted_balances]. *)
Fixpoint convert_items (items : pydict) (converted_balances : TotalBalances)
    : outcome TotalBalances :=
  match items with
  | [] => Ok converted_balances
  | (token_address, balance) :: rest =>
      s <- reraise_ValueError (convert_balance token_address balance) ;;
      convert_items rest (Dict.set token_address s converted_balances)
  end.

Definition convert_total_balances (balances : pyval) : outcome TotalBalances :=
  match balances with
  | PDict items => convert_items items []
  | _ =>
      Raised (Exn AttributeError
        ("'" ++ py_type_name balances
         ++ "' object has no attribute 'items'")%string)
  end.

(** ** The models [Data] and [Position] *)

Definition validate_Data (v : pyval) : outcome Data :=
  match v with
  | PDict d =>
      both mk_Data
        (required "collateral" d validate_bool)
        (required "debt" d validate_bool)
  | _ => Invalid [E_model_type]
  end.

(** The field [total_balances]: the validator runs before the value is
    validated as a [TotalBalances], which a dictionary of strings is. *)
Definition validate_total_balances (v : pyval) : outcome TotalBalances :=
  run_validator (convert_total_balances v).

Definition validate_Position (v : pyval) : outcome Position :=
  match v with
  | PDict d =>
      both (fun dt '(ta, tb) => mk_Position dt ta tb)
        (required "data" d validate_Data)
        (both pair
           (match get_aliased "tokenAddress" "token_address" d with
            | None => Ok None
            | Some a => validate_optional_str a
            end)
           (match get_aliased "totalBalances" "total_balances" d with
            | None => Invalid [E_missing "totalBalances"]
            | Some b => validate_total_balances b
            end))
  | _ => Invalid [E_model_type]
  end.

(** ** The model [Product] *)

(** The construction of a [Product] from the dictionary [product], given
    as keyword arguments. *)
Definition validate_Product (product : pydict) : outcome Product :=
  both (fun n '(h, ps) => mk_Product n h ps)
    (required "name" product validate_str)
    (both pair
       (required "health_ratio" product validate_str)
       (required "positions" product (validate_list validate_Position))).

(** ** [ZkLendPositionResponse.convert_products] *)

Definition no_attribute {A : Type} (v : pyval) (attr : string) : outcome A :=
  Raised (Exn AttributeError
    ("'" ++ py_type_name v ++ "' object has no attribute '" ++ attr ++ "'")%string).

(** [v.get(key, default)] *)
Definition py_get (v : pyval) (key : string) (default : pyval) : outcome pyval :=
  match v with
  | PDict d =>
      Ok (match Dict.get key d with Some x => x | None => default end)
  | _ => no_attribute v "get"
  end.

(** One turn of the loop on the object at location [l]: the store it
    leaves and the product it appends. *)
Definition convert_product (h : store) (l : nat) : store * outcome Product :=
  match Store.read h l with
  | PDict product =>
      (* groups = product.pop("groups", None) *)
      let groups :=
        match Dict.get "groups" product with Some g => g | None => PNone end in
      let product1 := Dict.remove "groups" product in
      let h1 := Store.write h l (PDict product1) in
      (* product["health_ratio"] = groups.get("1", {}).get("healthRatio") *)
      match py_get groups "1" (PDict []) with
      | Ok group1 =>
          match py_get group1 "healthRatio" PNone with
          | Ok ratio =>
              let product2 := Dict.set "health_ratio" ratio product1 in
              (Store.write h1 l (PDict product2), validate_Product product2)
          | Invalid errs => (h1, Invalid errs)
          | Raised e => (h1, Raised e)
          end
      | Invalid errs => (h1, Invalid errs)
      | Raised e => (h1, Raised e)
      end
  | PList _ =>
      (h, Raised (Exn TypeError "pop expected at most 1 argument, got 2"))
  | v => (h, no_attribute v "pop")
  end.

(** The loop over [products], filling [converted_products]. *)
Fixpoint convert_products_loop (h : store) (products : list nat)
    (converted_products : list Product) : store * outcome (list Product) :=
  match products with
  | [] => (h, Ok converted_products)
  | l :: rest =>
      match convert_product h l with
      | (h1, Ok p) => convert_products_loop h1 rest (converted_products ++ [p])
      | (h1, Invalid errs) => (h1, Invalid errs)
      | (h1, Raised e) => (h1, Raised e)
      end
  end.

(** [convert_products] on a list of objects of the store [h]. *)
Definition convert_products (h : store) (products : list nat)
    : store * outcome (list Product) :=
  convert_products_loop h products [].

(** ** The models [ZkLendPositionResponse] and [DashboardResponse] *)

(** What [for product in products] goes through. *)
Definition py_iter (v : pyval) : outcome (list pyval) :=
  match v with
  | PList l => Ok l
  | PDict d => Ok (map PStr (Dict.keys d))
  | PStr s =>
      Ok (map (fun c => PStr (String c EmptyString)) (list_ascii_of_string s))
  | _ =>
      Raised (Exn TypeError
        ("'" ++ py_type_name v ++ "' object is not iterable")%string)
  end.

(** The field [products]: the validator runs on the raw value, whose
    items are the objects of the store; the list of [Product] it returns
    is valid as it is. *)
Definition validate_products (v : pyval) : outcome (list Product) :=
  run_validator
    (items <- py_iter v ;;
     snd (convert_products items (seq 0 (List.length items)))).

Definition validate_ZkLendPositionResponse (v : pyval)
    : outcome ZkLendPositionResponse :=
  match v with
  | PDict d =>
      match Dict.get "products" d with
      | None => Ok (mk_ZkLendPositionResponse [])
      | Some ps =>
          l <- validate_products ps ;; Ok (mk_ZkLendPositionResponse l)
      end
  | _ => Invalid [E_model_type]
  end.

(** [datetime | None] *)
Definition validate_optional_datetime (v : pyval) : outcome (option datetime) :=
  match v with
  | PNone => Ok None
  | _ =>
      match datetime_from v with
      | Some t => Ok (Some t)
      | None => Invalid [E_datetime]
      end
  end.

(** [DashboardResponse.model_validate(payload)] *)
Definition validate (payload : pyval) : outcome DashboardResponse :=
  match payload with
  | PDict d =>
      both (fun b '(m, (s, z)) => mk_DashboardResponse b m s z)
        (required "balances" d (validate_dict validate_any))
        (both pair
           (required "multipliers" d
              (validate_dict (validate_optional_int int_from_str)))
           (both pair
              (required "start_dates" d
                 (validate_dict validate_optional_datetime))
              (required "zklend_position" d
                 validate_ZkLendPositionResponse)))
  | _ => Invalid [E_model_type]
  end.

End Serializers.

(** * Notions the statements use *)

(** The integer a string writes in decimal: an optional sign and one digit
    or more. *)
Definition integer_string (s : string) : option Z :=
  let (neg, ds) := PyDecimal.split_sign (list_ascii_of_string s) in
  match ds with
  | [] => None
  | _ :: _ =>
      if PyDecimal.all_digits ds
      then Some (PyDecimal.signed neg (Digits.digits_value ds))
      else None
  end.

(** An integer with at most 28 significant digits. *)
Definition within_precision (z : Z) : Prop :=
  exists m k : N, Z.abs_N z = (m * 10 ^ k)%N /\ (m < 10 ^ 28)%N.

(** [z / 10^d], as a rational number. *)
Definition quotient (z : Z) (d : N) : Q :=
  (inject_Z z / inject_Z (10 ^ Z.of_N d))%Q.

(** The raw product after [groups] is popped and [health_ratio] is set. *)
Definition extracted (product : pydict) (ratio : pyval) : pydict :=
  Dict.set "health_ratio" ratio (Dict.remove "groups" product).

(** A dictionary with the key [old] spelled [new]. *)
Definition rename_key (old new : string) (d : pydict) : pydict :=
  map (fun kv => (if String.eqb (fst kv) old then new else fst kv, snd kv)) d.

(** A raw position with its internal field names spelled as on the wire. *)
Definition wire_position (d : pydict) : pydict :=
  rename_key "total_balances" "totalBalances"
    (rename_key "token_address" "tokenAddress" d).

(** A raw dashboard payload with its internal top-level field names spelled
    as on the wire. *)
Definition wire_payload (d : pydict) : pydict :=
  rename_key "zklend_position" "zklendPosition"
    (rename_key "start_dates" "startDates" d).

(** ** An instance of the collaborators, and sample payloads *)

Module Sample.

(** A token table with two tokens, ["0xTOK"] of 6 decimals and ["0xETH"]
    of 18. *)
Definition get_token_decimals (token_address : string) : exn + N :=
  if String.eqb token_address "0xTOK" then inr 6%N
  else if String.eqb token_address "0xETH" then inr 18%N
  else inl (Exn ValueError
              ("Token with address " ++ token_address ++ " not found")%string).

(** [Decimal] on a list, as it answers a list that is not of length 3;
    no balance of the samples is a list of length 3. *)
Definition Decimal_from_sequence (l : list pyval)
    : outcome PyDecimal.decimal :=
  Raised (Exn ValueError "argument must be a sequence of length 3").

(** The reading of a string as an integer, on the strings of an optional
    sign and digits; the samples hold no other string for an integer. *)
Definition int_from_str (s : string) : option Z := integer_string s.

Definition new_year_2024 : datetime := mk_datetime 2024 1 1 0 0 0 0 None.

Definition datetime_from (v : pyval) : option datetime :=
  match v with
  | PStr s =>
      if String.eqb s "2024-01-01T00:00:00" then Some new_year_2024 else None
  | _ => None
  end.

Definition validate : pyval -> outcome DashboardResponse :=
  validate get_token_decimals Decimal_from_sequence int_from_str datetime_from.

Definition convert_total_balances : pyval -> outcome TotalBalances :=
  convert_total_balances get_token_decimals Decimal_from_sequence.

Definition validate_total_balances : pyval -> outcome TotalBalances :=
  validate_total_balances get_token_decimals Decimal_from_sequence.

Definition validate_Position : pyval -> outcome Position :=
  validate_Position get_token_decimals Decimal_from_sequence.

Definition convert_product : store -> nat -> store * outcome Product :=
  convert_product get_token_decimals Decimal_from_sequence.

Definition convert_products
    : store -> list nat -> store * outcome (list Product) :=
  convert_products get_token_decimals Decimal_from_sequence.

(** The balances, the position, the product and the payload of the
    end-to-end example. *)
Definition one_balance : pydict := [("0xTOK", PStr "1000000")].

Definition position : pydict :=
  [("data", PDict [("collateral", PBool true); ("debt", PBool false)]);
   ("tokenAddress", PStr "0xTOK");
   ("totalBalances", PDict one_balance)].

Definition product : pydict :=
  [("name", PStr "P1");
   ("groups", PDict [("1", PDict [("healthRatio", PStr "2.0")])]);
   ("positions", PList [PDict position])].

Definition zklend : pyval := PDict [("products", PList [PDict product])].

(** The payload under the names the spec gives it. *)
Definition payload_wire : pydict :=
  [("balances", PDict [("ETH", PFloat (FFinite false 5 0))]);
   ("multipliers", PDict [("ETH", PInt 2)]);
   ("startDates", PDict [("ETH", PStr "2024-01-01T00:00:00")]);
   ("zklendPosition", zklend)].

(** The same payload under the field names of [DashboardResponse]. *)
Definition payload : pydict :=
  [("balances", PDict [("ETH", PFloat (FFinite false 5 0))]);
   ("multipliers", PDict [("ETH", PInt 2)]);
   ("start_dates", PDict [("ETH", PStr "2024-01-01T00:00:00")]);
   ("zklend_position", zklend)].

(** What the position and the product are validated to. *)
Definition valid_position : Position :=
  mk_Position (mk_Data true false) (Some "0xTOK") [("0xTOK", "1")].

Definition valid_product : Product := mk_Product "P1" "2.0" [valid_position].

(** The position under the field names of [Position]. *)
Definition position_internal : pydict :=
  [("data", PDict [("collateral", PBool true); ("debt", PBool false)]);
   ("token_address", PStr "0xTOK");
   ("total_balances", PDict one_balance)].

(** A raw balance of 29 significant digits. *)
Definition long_balance : string := "12345678901234567890123456789".

(** A raw product without [groups], and one whose [groups] is empty. *)
Definition product_without_groups : pydict :=
  [("name", PStr "P1"); ("positions", PList [])].

Definition product_with_empty_groups : pydict :=
  [("name", PStr "P1"); ("groups", PDict []); ("positions", PList [])].

(** The product of the spec with a second group. *)
Definition group_1 : pydict := [("healthRatio", PStr "1.5")].

Definition two_groups : pydict :=
  [("1", PDict group_1); ("2", PDict [("healthRatio", PStr "9.9")])].

Definition product_two_groups : pydict :=
  [("name", PStr "P1");
   ("groups", PDict two_groups);
   ("positions", PList [])].

End Sample.

(** ** Further notions *)

(** [isinstance(v, dict)] *)
Definition is_dict (v : pyval) : bool :=
  match v with PDict _ => true | _ => false end.

(** [str(z)] for an integer [z]. *)
Definition int_str (z : Z) : string :=
  string_of_list_ascii
    (PyDecimal.sign_chars (z <? 0) ++ Digits.digits_of (Z.abs_N z)).

(** A rendering in scientific notation is one with the letter [E]. *)
Definition scientific (s : string) : Prop :=
  In "E"%char (list_ascii_of_string s).

(** * The status of a position, of [web_app/db/models.py] *)

Module Db.

(** [class Status(PyEnum)] *)
Inductive Status : Type := PENDING | OPENED | CLOSED.

(** [status.value] *)
Definition value (status : Status) : string :=
  match status with
  | PENDING => "pending"
  | OPENED => "opened"
  | CLOSED => "closed"
  end.

(** The members of the class, in the order of their definition, as the
    iteration over [cls] gives them. *)
Definition members : list Status := [PENDING; OPENED; CLOSED].

(** [Status.choices()]: [[status.value for status in cls]] *)
Definition choices : list string := map value members.

(** [Status(v)]: the member of a value. *)
Definition of_value (v : string) : option Status :=
  find (fun status => String.eqb (value status) v) members.

(** The values of the column [Position.status],
    [values_callable=lambda x: [e.value for e in x]], and its default. *)
Definition status_enum_values : list string := map value members.
Definition status_default : string := "pending".

End Db.

(** * Facts about decimal digits *)

Module DigitsFacts.

Import Digits.
Local Open Scope N_scope.

Lemma digit_char_small n : n < 10 -> N_of_ascii (digit_char n) = 48 + n.
Proof.
  intros H. unfold digit_char. rewrite N.mod_small by assumption.
  rewrite N_ascii_embedding; [reflexivity | lia].
Qed.

Lemma N_of_digit_char n : N_of_ascii (digit_char n) = 48 + n mod 10.
Proof.
  unfold digit_char.
  assert (H : n mod 10 < 10) by (apply N.mod_lt; lia).
  generalize dependent (n mod 10). intros r H.
  rewrite N_ascii_embedding; [reflexivity | lia].
Qed.

Lemma is_digit_digit_char n : is_digit (digit_char n) = true.
Proof.
  unfold is_digit. cbv zeta. rewrite N_of_digit_char.
  assert (H : n mod 10 < 10) by (apply N.mod_lt; lia).
  generalize dependent (n mod 10). intros r H.
  apply andb_true_intro; split; apply N.leb_le; lia.
Qed.

Lemma digit_val_digit_char n : digit_val (digit_char n) = n mod 10.
Proof.
  unfold digit_val. rewrite N_of_digit_char.
  generalize (n mod 10). intros r. lia.
Qed.

Lemma digits_fuel_irrel f : forall g n,
  n < 10 ^ N.of_nat (S f) -> n < 10 ^ N.of_nat (S g) ->
  digits_fuel (S f) n = digits_fuel (S g) n.
Proof.
  induction f as [|f IH]; intros g n Hf Hg.
  - change (10 ^ N.of_nat 1) with 10 in Hf.
    apply N.ltb_lt in Hf. cbn [digits_fuel]. now rewrite Hf.
  - destruct g as [|g].
    + change (10 ^ N.of_nat 1) with 10 in Hg.
      apply N.ltb_lt in Hg. cbn [digits_fuel]. now rewrite Hg.
    + cbn [digits_fuel]. destruct (n <? 10) eqn:E; [reflexivity|].
      change (digits_fuel (S f) (n / 10) ++ [digit_char n]
              = digits_fuel (S g) (n / 10) ++ [digit_char n]).
      f_equal. apply IH.
      * apply N.Div0.div_lt_upper_bound.
        rewrite Nat2N.inj_succ, N.pow_succ_r' in Hf. exact Hf.
      * apply N.Div0.div_lt_upper_bound.
        rewrite Nat2N.inj_succ, N.pow_succ_r' in Hg. exact Hg.
Qed.

Lemma enough_fuel n : n < 10 ^ N.of_nat (S (N.to_nat (N.log2 n))).
Proof.
  rewrite Nat2N.inj_succ, N2Nat.id.
  destruct (N.eq_dec n 0) as [->|Hn]; [reflexivity|].
  destruct (N.log2_spec n) as [_ H]; [lia|].
  eapply N.lt_le_trans; [exact H|].
  apply N.pow_le_mono_l. lia.
Qed.

(** The equation that defines [digits_of]. *)
Lemma digits_of_eq n :
  digits_of n =
    if n <? 10 then [digit_char n] else digits_of (n / 10) ++ [digit_char n].
Proof.
  unfold digits_of at 1. cbn [digits_fuel].
  destruct (n <? 10) eqn:E; [reflexivity|].
  apply N.ltb_ge in E. f_equal.
  assert (Hlog : N.to_nat (N.log2 n) = S (pred (N.to_nat (N.log2 n)))).
  { assert (3 <= N.log2 n).
    { change 3 with (N.log2 8). apply N.log2_le_mono. lia. }
    lia. }
  rewrite Hlog. apply digits_fuel_irrel.
  - rewrite <- Hlog. apply N.Div0.div_lt_upper_bound.
    rewrite <- N.pow_succ_r', <- Nat2N.inj_succ. apply enough_fuel.
  - apply enough_fuel.
Qed.

Lemma digits_of_small n : n < 10 -> digits_of n = [digit_char n].
Proof.
  intros H. rewrite digits_of_eq. apply N.ltb_lt in H. now rewrite H.
Qed.

Lemma digits_of_big n :
  10 <= n -> digits_of n = digits_of (n / 10) ++ [digit_char n].
Proof.
  intros H. rewrite digits_of_eq. apply N.ltb_ge in H. now rewrite H.
Qed.

(** Induction along the digits of a number. *)
Lemma digits_ind (P : N -> Prop) :
  (forall n, n < 10 -> P n) ->
  (forall n, 10 <= n -> P (n / 10) -> P n) ->
  forall n, P n.
Proof.
  intros Hs Hb n. induction n as [n IH] using (well_founded_induction N.lt_wf_0).
  destruct (N.lt_ge_cases n 10) as [H|H]; [now apply Hs|].
  apply Hb; [exact H|]. apply IH. apply N.div_lt; lia.
Qed.

Lemma digits_of_all_digits n : forallb is_digit (digits_of n) = true.
Proof.
  induction n as [n H|n H IH] using digits_ind.
  - rewrite digits_of_small by assumption. cbn. now rewrite is_digit_digit_char.
  - rewrite digits_of_big by assumption. rewrite forallb_app, IH. cbn.
    now rewrite is_digit_digit_char.
Qed.

Lemma digits_value_snoc l c :
  digits_value (l ++ [c]) = 10 * digits_value l + digit_val c.
Proof. unfold digits_value. now rewrite fold_left_app. Qed.

Lemma digits_value_of n : digits_value (digits_of n) = n.
Proof.
  induction n as [n H|n H IH] using digits_ind.
  - rewrite digits_of_small by assumption. cbn.
    rewrite digit_val_digit_char. now apply N.mod_small.
  - rewrite digits_of_big by assumption.
    rewrite digits_value_snoc, IH, digit_val_digit_char.
    symmetry. apply N.div_mod. lia.
Qed.

Lemma digits_of_nonempty n : digits_of n <> [].
Proof.
  rewrite digits_of_eq. destruct (n <? 10); [discriminate|].
  intros H. apply app_eq_nil in H. destruct H; discriminate.
Qed.

Lemma ndigits_small n : n < 10 -> ndigits n = 1%Z.
Proof. intros H. unfold ndigits. now rewrite digits_of_small. Qed.

Lemma ndigits_big n : 10 <= n -> ndigits n = (ndigits (n / 10) + 1)%Z.
Proof.
  intros H. unfold ndigits. rewrite digits_of_big by assumption.
  rewrite length_app. cbn [List.length]. lia.
Qed.

Lemma ndigits_pos n : (1 <= ndigits n)%Z.
Proof.
  induction n as [n H|n H IH] using digits_ind.
  - rewrite ndigits_small by assumption. lia.
  - rewrite ndigits_big by assumption. lia.
Qed.

(** A number is below the power of ten of its length... *)
Lemma ndigits_upper n : n < 10 ^ Z.to_N (ndigits n).
Proof.
  induction n as [n H|n H IH] using digits_ind.
  - rewrite ndigits_small by assumption. exact H.
  - rewrite ndigits_big by assumption.
    pose proof (ndigits_pos (n / 10)).
    rewrite Z2N.inj_add by lia. change (Z.to_N 1) with 1.
    rewrite N.add_1_r, N.pow_succ_r'.
    pose proof (N.div_mod n 10 ltac:(lia)).
    pose proof (N.mod_lt n 10 ltac:(lia)). lia.
Qed.

(** ... and, unless it is zero, not below the previous one. *)
Lemma ndigits_lower n : 0 < n -> 10 ^ Z.to_N (ndigits n - 1) <= n.
Proof.
  induction n as [n H|n H IH] using digits_ind; intros Hn.
  - rewrite ndigits_small by assumption. cbn. lia.
  - rewrite ndigits_big by assumption.
    pose proof (ndigits_pos (n / 10)).
    replace (ndigits (n / 10) + 1 - 1)%Z with (ndigits (n / 10) - 1 + 1)%Z by lia.
    rewrite Z2N.inj_add by lia. change (Z.to_N 1) with 1.
    rewrite N.add_1_r, N.pow_succ_r'.
    assert (0 < n / 10) by (apply N.div_str_pos; lia).
    specialize (IH ltac:(assumption)).
    pose proof (N.div_mod n 10 ltac:(lia)) as E.
    revert IH E. generalize (10 ^ Z.to_N (ndigits (n / 10) - 1)).
    generalize (n mod 10) (n / 10). intros r q p IH E. lia.
Qed.

(** The length of a number is the only [k] with [10^(k-1) <= n < 10^k]. *)
Lemma ndigits_unique n k :
  (1 <= k)%Z -> 10 ^ Z.to_N (k - 1) <= n -> n < 10 ^ Z.to_N k ->
  ndigits n = k.
Proof.
  intros Hk Hlo Hhi.
  assert (Hn : 0 < n).
  { eapply N.lt_le_trans; [|exact Hlo].
    apply N.neq_0_lt_0, N.pow_nonzero. lia. }
  pose proof (ndigits_pos n) as Hp.
  pose proof (ndigits_upper n) as Hu.
  pose proof (ndigits_lower n Hn) as Hl.
  destruct (Z.lt_trichotomy (ndigits n) k) as [Hlt|[Heq|Hgt]]; [|exact Heq|].
  - exfalso.
    assert (10 ^ Z.to_N (ndigits n) <= 10 ^ Z.to_N (k - 1)).
    { apply N.pow_le_mono_r; lia. }
    lia.
  - exfalso.
    assert (10 ^ Z.to_N k <= 10 ^ Z.to_N (ndigits n - 1)).
    { apply N.pow_le_mono_r; lia. }
    lia.
Qed.

Lemma ndigits_mul_pow10 m k :
  0 < m -> ndigits (m * 10 ^ k) = (ndigits m + Z.of_N k)%Z.
Proof.
  intros Hm.
  pose proof (ndigits_pos m) as Hp.
  pose proof (ndigits_upper m) as Hu.
  pose proof (ndigits_lower m Hm) as Hl.
  assert (H10 : 0 < 10 ^ k) by (apply N.neq_0_lt_0, N.pow_nonzero; lia).
  apply ndigits_unique; [lia| |].
  - replace (Z.to_N (ndigits m + Z.of_N k - 1)) with (Z.to_N (ndigits m - 1) + k) by lia.
    rewrite N.pow_add_r. apply N.mul_le_mono_r. exact Hl.
  - replace (Z.to_N (ndigits m + Z.of_N k)) with (Z.to_N (ndigits m) + k) by lia.
    rewrite N.pow_add_r. apply N.mul_lt_mono_pos_r; assumption.
Qed.

Lemma ndigits_pow10 k : ndigits (10 ^ k) = (Z.of_N k + 1)%Z.
Proof.
  rewrite <- (N.mul_1_l (10 ^ k)), ndigits_mul_pow10 by lia.
  rewrite ndigits_small by lia. lia.
Qed.

Lemma ndigits_le_iff n k : (1 <= k)%Z -> (ndigits n <= k)%Z <-> n < 10 ^ Z.to_N k.
Proof.
  intros Hk. split; intros H.
  - eapply N.lt_le_trans; [apply ndigits_upper|].
    apply N.pow_le_mono_r; [lia|]. pose proof (ndigits_pos n). lia.
  - destruct (N.eq_dec n 0) as [->|Hn].
    + rewrite ndigits_small by lia. exact Hk.
    + pose proof (ndigits_lower n ltac:(lia)) as Hl.
      destruct (Z.le_gt_cases (ndigits n) k) as [Hle|Hgt]; [exact Hle|exfalso].
      assert (10 ^ Z.to_N k <= 10 ^ Z.to_N (ndigits n - 1)).
      { apply N.pow_le_mono_r; lia. }
      lia.
Qed.

(** ** Reading digits back *)

Lemma span_digits_all ds rest :
  forallb is_digit ds = true ->
  match rest with [] => True | c :: _ => is_digit c = false end ->
  span_digits (ds ++ rest) = (ds, rest).
Proof.
  intros Hds Hrest. induction ds as [|d ds IH]; cbn [app span_digits].
  - destruct rest as [|c r]; [reflexivity|].
    cbn [span_digits]. now rewrite Hrest.
  - cbn in Hds. apply andb_prop in Hds. destruct Hds as [Hd Hds].
    rewrite Hd, (IH Hds). reflexivity.
Qed.

Lemma span_digits_only ds :
  forallb is_digit ds = true -> span_digits ds = (ds, []).
Proof.
  intros H. rewrite <- (app_nil_r ds) at 1. now apply span_digits_all.
Qed.

Lemma digits_value_app l1 l2 :
  digits_value (l1 ++ l2)
  = digits_value l1 * 10 ^ N.of_nat (List.length l2) + digits_value l2.
Proof.
  revert l1. induction l2 as [|c l2 IH] using rev_ind; intros l1.
  - rewrite app_nil_r. cbn. lia.
  - rewrite app_assoc, !digits_value_snoc, IH, length_app. cbn [List.length].
    rewrite Nat2N.inj_add. change (N.of_nat 1) with 1.
    rewrite N.add_1_r, N.pow_succ_r'. lia.
Qed.

Lemma digits_value_zeros k : digits_value (repeat "0"%char k) = 0.
Proof.
  induction k as [|k IH]; [reflexivity|].
  change (repeat "0"%char (S k)) with (["0"%char] ++ repeat "0"%char k).
  rewrite digits_value_app, IH. reflexivity.
Qed.

Lemma is_digit_zero : is_digit "0" = true.
Proof. reflexivity. Qed.

Lemma all_digits_zeros k : forallb is_digit (repeat "0"%char k) = true.
Proof. induction k; [reflexivity|]. cbn [repeat forallb]. now rewrite IHk. Qed.

End DigitsFacts.

(** * Facts about decimals: exact quotients *)

Module PyDecimalFacts.

Import Digits DigitsFacts PyDecimal.

Lemma pow10_pos a : (0 < pow10 a)%N.
Proof. unfold pow10. apply N.neq_0_lt_0, N.pow_nonzero. lia. Qed.

Lemma pow10_add a b :
  0 <= a -> 0 <= b -> pow10 (a + b) = (pow10 a * pow10 b)%N.
Proof.
  intros Ha Hb. unfold pow10. rewrite Z2N.inj_add by assumption.
  apply N.pow_add_r.
Qed.

Lemma pow10_0 : pow10 0 = 1%N.
Proof. reflexivity. Qed.

Lemma pow10_1 : pow10 1 = 10%N.
Proof. reflexivity. Qed.

Lemma pow10_of_N k : pow10 (Z.of_N k) = (10 ^ k)%N.
Proof. unfold pow10. now rewrite N2Z.id. Qed.

Lemma ndigits_mul_pow10' m a :
  (0 < m)%N -> 0 <= a -> ndigits (m * pow10 a) = ndigits m + a.
Proof.
  intros Hm Ha. unfold pow10. rewrite ndigits_mul_pow10 by assumption.
  rewrite Z2N.id by assumption. reflexivity.
Qed.

Lemma represents_pos m x c e : (0 < m)%N -> represents m x c e -> (0 < c)%N.
Proof.
  intros Hm [_ ->]. pose proof (pow10_pos (x - e)).
  apply N.mul_pos_pos; assumption.
Qed.

Lemma mul_pow10_div m a b :
  0 <= a -> 0 <= b ->
  ((m * pow10 (a + b)) / pow10 b = m * pow10 a)%N
  /\ ((m * pow10 (a + b)) mod pow10 b = 0)%N.
Proof.
  intros Ha Hb. rewrite pow10_add by assumption.
  pose proof (pow10_pos b) as Hp.
  rewrite N.mul_assoc. split.
  - apply N.div_mul. lia.
  - apply N.Div0.mod_mul.
Qed.

Lemma strip_zeros_represents m x fuel : forall c e ideal,
  (m mod 10 <> 0)%N -> represents m x c e ->
  represents m x (fst (strip_zeros fuel c e ideal))
                 (snd (strip_zeros fuel c e ideal)).
Proof.
  induction fuel as [|fuel IH]; intros c e ideal Hm Hr; [exact Hr|].
  cbn [strip_zeros].
  destruct ((e <? ideal) && (c mod 10 =? 0)%N) eqn:E; [|exact Hr].
  apply andb_prop in E. destruct E as [_ E]. apply N.eqb_eq in E.
  apply IH; [exact Hm|].
  destruct Hr as [Hle Hc].
  assert (Hlt : e < x).
  { destruct (Z.eq_dec e x) as [->|]; [|lia].
    exfalso. apply Hm. rewrite Z.sub_diag, pow10_0, N.mul_1_r in Hc.
    now subst c. }
  split; [lia|].
  replace (x - e) with ((x - (e + 1)) + 1) in Hc by lia.
  destruct (mul_pow10_div m (x - (e + 1)) 1 ltac:(lia) ltac:(lia)) as [Hd _].
  rewrite pow10_1 in Hd. rewrite Hc. exact Hd.
Qed.

Lemma strip_zeros_exp_le fuel : forall c e ideal,
  e <= snd (strip_zeros fuel c e ideal).
Proof.
  induction fuel as [|fuel IH]; intros c e ideal; cbn [strip_zeros snd]; [lia|].
  destruct ((e <? ideal) && (c mod 10 =? 0)%N); cbn [snd]; [|lia].
  specialize (IH (c / 10)%N (e + 1) ideal). lia.
Qed.

(** Rounding to the context leaves a number alone when it has at most 28
    significant digits and lies within the range of exponents. *)
Lemma fix_finite_exact neg m x c e :
  (0 < m)%N -> ndigits m <= prec -> Etiny <= x -> ndigits m + x - 1 <= Emax ->
  represents m x c e ->
  exists c' e',
    fix_finite neg c e = Ok (Finite neg c' e') /\ represents m x c' e'
    /\ e <= e'.
Proof.
  intros Hm Hprec Hx Hmax Hr.
  pose proof (represents_pos _ _ _ _ Hm Hr) as Hc.
  destruct Hr as [Hle Hceq].
  assert (Hlen : ndigits c = ndigits m + (x - e)).
  { rewrite Hceq. apply ndigits_mul_pow10'; [assumption|lia]. }
  unfold fix_finite.
  assert (E0 : (c =? 0)%N = false) by (apply N.eqb_neq; lia).
  rewrite E0, Hlen.
  unfold Etiny, Etop, Emin, Emax, prec in *.
  assert (E1 : (999999 - 28 + 1 <? ndigits m + (x - e) + e - 28) = false)
    by (apply Z.ltb_ge; lia).
  rewrite E1.
  set (exp_min := if ndigits m + (x - e) + e - 28 <? -999999 - 28 + 1
                  then -999999 - 28 + 1 else ndigits m + (x - e) + e - 28).
  assert (Hexp : exp_min <= x /\ exp_min <= 999999 - 28 + 1
                 /\ ndigits m + x - 28 <= exp_min).
  { subst exp_min.
    destruct (ndigits m + (x - e) + e - 28 <? -999999 - 28 + 1) eqn:E;
      [apply Z.ltb_lt in E|apply Z.ltb_ge in E]; lia. }
  destruct Hexp as (Hex & Het & Hel).
  destruct (e <? exp_min) eqn:E2; [apply Z.ltb_lt in E2|apply Z.ltb_ge in E2].
  - pose proof (ndigits_pos m) as Hp.
    assert (E3 : (ndigits m + (x - e) + e - exp_min <? 0) = false)
      by (apply Z.ltb_ge; lia).
    rewrite E3.
    destruct (mul_pow10_div m (x - exp_min) (exp_min - e) ltac:(lia) ltac:(lia))
      as [Hd Hmod].
    replace (x - exp_min + (exp_min - e)) with (x - e) in Hd, Hmod by lia.
    rewrite <- Hceq in Hd, Hmod. rewrite Hd, Hmod.
    assert (Hhalf : (0 < 5 * pow10 (exp_min - e - 1))%N).
    { pose proof (pow10_pos (exp_min - e - 1)). lia. }
    assert (E4 : (5 * pow10 (exp_min - e - 1) <? 0)%N = false)
      by (apply N.ltb_ge; lia).
    assert (E5 : (5 * pow10 (exp_min - e - 1) =? 0)%N = false)
      by (apply N.eqb_neq; lia).
    rewrite E4, E5. cbn [orb andb].
    assert (E6 : (999999 - 28 + 1 <? exp_min) = false) by (apply Z.ltb_ge; lia).
    rewrite E6.
    exists (m * pow10 (x - exp_min))%N, exp_min. split; [reflexivity|].
    split; [split; [exact Hex|reflexivity]|lia].
  - exists c, e. split; [reflexivity|]. split; [split; assumption|lia].
Qed.

(** The quotient of a natural number with at most 28 significant digits by
    a power of ten is exact. *)
Lemma truediv_pow10_exact neg m k d :
  (0 < m)%N -> (m mod 10 <> 0)%N -> ndigits m <= prec ->
  Etiny <= Z.of_N k - Z.of_N d ->
  ndigits m + (Z.of_N k - Z.of_N d) - 1 <= Emax ->
  exists c' e',
    truediv (Finite neg (m * 10 ^ k) 0) (of_int (10 ^ Z.of_N d))
    = Ok (Finite neg c' e')
    /\ represents m (Z.of_N k - Z.of_N d) c' e'
    /\ Z.of_N k - Z.of_N d - 30 <= e'.
Proof.
  intros Hm Hm10 Hprec Hx Hmax.
  set (x := Z.of_N k - Z.of_N d) in *.
  pose proof (ndigits_pos m) as Hp.
  assert (H10k : (0 < 10 ^ k)%N) by (apply N.neq_0_lt_0, N.pow_nonzero; lia).
  assert (H10d : (0 < 10 ^ d)%N) by (apply N.neq_0_lt_0, N.pow_nonzero; lia).
  assert (Hof : of_int (10 ^ Z.of_N d) = Finite false (10 ^ d) 0).
  { unfold of_int.
    assert (0 < 10 ^ Z.of_N d) by (apply Z.pow_pos_nonneg; lia).
    replace (10 ^ Z.of_N d <? 0) with false by (symmetry; apply Z.ltb_ge; lia).
    f_equal. apply N2Z.inj. rewrite N2Z.inj_abs_N, Z.abs_eq by lia.
    rewrite N2Z.inj_pow. reflexivity. }
  rewrite Hof. unfold truediv.
  assert (E0 : (10 ^ d =? 0)%N = false) by (apply N.eqb_neq; lia).
  assert (E1 : (m * 10 ^ k =? 0)%N = false) by (apply N.eqb_neq; lia).
  rewrite E0, E1, xorb_false_r.
  rewrite ndigits_pow10, ndigits_mul_pow10 by assumption.
  unfold prec in *.
  set (a := 30 - ndigits m).
  assert (Ha : 2 <= a) by (subst a; lia).
  set (shift := Z.of_N d + 1 - (ndigits m + Z.of_N k) + 28 + 1).
  assert (Hshift : shift = Z.of_N d + a - Z.of_N k) by (subst shift a; lia).
  assert (Hcoeff :
    (if 0 <=? shift
     then (((m * 10 ^ k * pow10 shift) / 10 ^ d)%N,
           ((m * 10 ^ k * pow10 shift) mod 10 ^ d)%N)
     else (((m * 10 ^ k) / (10 ^ d * pow10 (- shift)))%N,
           ((m * 10 ^ k) mod (10 ^ d * pow10 (- shift)))%N))
    = ((m * pow10 a)%N, 0%N)).
  { destruct (0 <=? shift) eqn:E; [apply Z.leb_le in E|apply Z.leb_gt in E].
    - assert (Heq : (m * 10 ^ k * pow10 shift = m * pow10 (a + Z.of_N d))%N).
      { rewrite <- (pow10_of_N k), <- N.mul_assoc, <- pow10_add by lia.
        f_equal. f_equal. lia. }
      rewrite Heq, <- (pow10_of_N d).
      destruct (mul_pow10_div m a (Z.of_N d) ltac:(lia) ltac:(lia)) as [H1 H2].
      now rewrite H1, H2.
    - assert (Heq1 : (10 ^ d * pow10 (- shift) = pow10 (Z.of_N k - a))%N).
      { rewrite <- (pow10_of_N d), <- pow10_add by lia. f_equal. lia. }
      assert (Heq2 : (m * 10 ^ k = m * pow10 (a + (Z.of_N k - a)))%N).
      { rewrite <- (pow10_of_N k). f_equal. f_equal. lia. }
      rewrite Heq1, Heq2.
      destruct (mul_pow10_div m a (Z.of_N k - a) ltac:(lia) ltac:(lia)) as [H1 H2].
      now rewrite H1, H2. }
  fold shift. rewrite Hcoeff. cbn [N.eqb].
  replace (0 - 0 - shift) with (x - a) by (subst x; lia).
  change (0 - 0) with 0.
  assert (Hr0 : represents m x (m * pow10 a) (x - a)).
  { split; [lia|]. f_equal. f_equal. lia. }
  pose proof (strip_zeros_represents m x
                (List.length (digits_of (m * pow10 a))) _ _ 0 Hm10 Hr0) as Hr1.
  pose proof (strip_zeros_exp_le
                (List.length (digits_of (m * pow10 a))) (m * pow10 a)
                (x - a) 0) as Hle1.
  destruct (strip_zeros (List.length (digits_of (m * pow10 a)))
              (m * pow10 a) (x - a) 0) as [c1 e1].
  cbn [fst snd] in Hr1, Hle1.
  destruct (fix_finite_exact neg m x c1 e1 Hm Hprec Hx Hmax Hr1)
    as (c' & e' & Hfix & Hr' & Hle').
  exists c', e'. split; [exact Hfix|]. split; [exact Hr'|]. subst a. lia.
Qed.

(** ** Reading a rendered decimal back *)

Lemma lstrip_plain l : forallb plain l = true -> lstrip l = l.
Proof.
  destruct l as [|c l]; [reflexivity|]. cbn [forallb lstrip].
  intros H. apply andb_prop in H. destruct H as [H _].
  unfold plain in H. apply andb_prop in H. destruct H as [H _].
  apply negb_true_iff in H. now rewrite H.
Qed.

Lemma strip_plain l : forallb plain l = true -> strip l = l.
Proof.
  intros H. unfold strip. rewrite (lstrip_plain l H).
  rewrite lstrip_plain; [apply rev_involutive|].
  apply forallb_forall. intros c Hc. apply in_rev in Hc.
  revert c Hc. now apply forallb_forall.
Qed.

Lemma remove_underscores_plain l :
  forallb plain l = true -> remove_underscores l = l.
Proof.
  induction l as [|c l IH]; [reflexivity|]. cbn [forallb remove_underscores filter].
  intros H. apply andb_prop in H. destruct H as [Hc Hl].
  unfold plain in Hc. apply andb_prop in Hc. destruct Hc as [_ Hc].
  unfold remove_underscores in IH. now rewrite Hc, IH.
Qed.

Lemma is_digit_plain c : is_digit c = true -> plain c = true.
Proof.
  destruct c as [[] [] [] [] [] [] [] []];
    intros H; try discriminate H; reflexivity.
Qed.

Lemma all_digits_plain l : forallb is_digit l = true -> forallb plain l = true.
Proof.
  intros H. apply forallb_forall. intros c Hc. apply is_digit_plain.
  revert c Hc. now apply forallb_forall.
Qed.

Lemma signed_abs z : signed (z <? 0) (Z.abs_N z) = z.
Proof.
  unfold signed. rewrite N2Z.inj_abs_N.
  destruct (z <? 0) eqn:E; [apply Z.ltb_lt in E|apply Z.ltb_ge in E]; lia.
Qed.

Lemma parse_exponent_chars xo :
  parse_exponent (exp_chars xo)
  = Some (match xo with None => 0 | Some x => x end).
Proof.
  destruct xo as [x|]; [|reflexivity].
  cbn [exp_chars parse_exponent]. change (Ascii.eqb (lower "E") "e") with true.
  cbv iota. unfold signed_digits.
  assert (Hsplit :
    split_sign ((if x <? 0 then "-"%char else "+"%char) :: digits_of (Z.abs_N x))
    = (x <? 0, digits_of (Z.abs_N x))).
  { destruct (x <? 0); reflexivity. }
  rewrite Hsplit.
  rewrite (span_digits_only _ (digits_of_all_digits _)).
  destruct (digits_of (Z.abs_N x)) eqn:E; [now apply digits_of_nonempty in E|].
  rewrite <- E, digits_value_of, signed_abs. reflexivity.
Qed.

Lemma head_not_digit_exp xo :
  match exp_chars xo with [] => True | c :: _ => is_digit c = false end.
Proof. destruct xo; [reflexivity|exact I]. Qed.

Lemma head_not_digit_frac fo xo :
  match frac_chars fo ++ exp_chars xo with
  | [] => True
  | c :: _ => is_digit c = false
  end.
Proof. destruct fo; [reflexivity|apply head_not_digit_exp]. Qed.

(** A numeric string of the shape [str] writes is read back part by
    part. *)
Lemma parse_number_shape ip fo xo :
  ip <> [] -> forallb is_digit ip = true ->
  forallb is_digit (match fo with None => [] | Some f => f end) = true ->
  parse_number (ip ++ frac_chars fo ++ exp_chars xo)
  = Some (ip, match fo with None => [] | Some f => f end,
          match xo with None => 0 | Some x => x end).
Proof.
  intros Hne Hip Hfp. unfold parse_number.
  rewrite (span_digits_all ip _ Hip (head_not_digit_frac fo xo)).
  destruct fo as [f|].
  - cbn [frac_chars app].
    rewrite (span_digits_all f _ Hfp (head_not_digit_exp xo)).
    destruct ip as [|c ip]; [contradiction|].
    rewrite parse_exponent_chars. reflexivity.
  - cbn [frac_chars app].
    assert (Hr :
      match exp_chars xo with
      | "."%char :: r => span_digits r
      | _ => ([], exp_chars xo)
      end = ([], exp_chars xo)).
    { destruct xo; reflexivity. }
    rewrite Hr. destruct ip as [|c ip]; [contradiction|].
    rewrite parse_exponent_chars. reflexivity.
Qed.

(** The digits, the point and the exponent that [str] writes for a finite
    decimal, after its sign. *)
Lemma to_chars_shape neg c e :
  exists ip fo xo,
    to_chars (Finite neg c e)
    = sign_chars neg ++ ip ++ frac_chars fo ++ exp_chars xo
    /\ ip <> [] /\ forallb is_digit ip = true
    /\ forallb is_digit (match fo with None => [] | Some f => f end) = true
    /\ digits_value (ip ++ match fo with None => [] | Some f => f end) = c
    /\ match xo with None => 0 | Some x => x end
       - Z.of_nat (List.length (match fo with None => [] | Some f => f end))
       = e.
Proof.
  pose proof (digits_of_all_digits c) as Hall.
  pose proof (digits_value_of c) as Hval.
  pose proof (digits_of_nonempty c) as Hne.
  unfold to_chars.
  set (ds := digits_of c) in *.
  set (len := Z.of_nat (List.length ds)).
  assert (Hlen : 1 <= len).
  { subst len. destruct ds; [contradiction|]. cbn [List.length]. lia. }
  assert (Hsplit : forall n, forallb is_digit (firstn n ds) = true
                             /\ forallb is_digit (skipn n ds) = true).
  { intros n. rewrite <- (firstn_skipn n ds) in Hall.
    rewrite forallb_app in Hall. now apply andb_prop in Hall. }
  destruct ((e <=? 0) && (-6 <? e + len)) eqn:Eplain.
  - (* no exponent *)
    apply andb_prop in Eplain. destruct Eplain as [He Hl].
    apply Z.leb_le in He. apply Z.ltb_lt in Hl.
    rewrite Z.eqb_refl.
    destruct (e + len <=? 0) eqn:E1; [apply Z.leb_le in E1|apply Z.leb_gt in E1].
    + exists ["0"%char], (Some (repeat "0"%char (Z.to_nat (- (e + len))) ++ ds)), None.
      cbn [frac_chars exp_chars]. rewrite app_nil_r.
      split; [reflexivity|]. split; [discriminate|]. split; [reflexivity|].
      split; [rewrite forallb_app, all_digits_zeros, Hall; reflexivity|].
      split.
      * change (["0"%char] ++ repeat "0"%char (Z.to_nat (- (e + len))) ++ ds)
          with (repeat "0"%char (S (Z.to_nat (- (e + len)))) ++ ds).
        rewrite digits_value_app, digits_value_zeros. exact Hval.
      * rewrite length_app, repeat_length. subst len. lia.
    + destruct (len <=? e + len) eqn:E2;
        [apply Z.leb_le in E2|apply Z.leb_gt in E2].
      * exists ds, None, None.
        cbn [frac_chars exp_chars].
        replace (e + len - len) with 0 by lia. cbn [Z.to_nat repeat].
        rewrite !app_nil_r.
        split; [reflexivity|]. split; [exact Hne|]. split; [exact Hall|].
        split; [reflexivity|]. split; [exact Hval|]. cbn [List.length]. lia.
      * exists (firstn (Z.to_nat (e + len)) ds),
               (Some (skipn (Z.to_nat (e + len)) ds)), None.
        cbn [frac_chars exp_chars]. rewrite app_nil_r.
        split; [reflexivity|].
        split.
        { intros H. apply (f_equal (@List.length ascii)) in H.
          rewrite length_firstn in H. cbn [List.length] in H. subst len. lia. }
        split; [apply Hsplit|]. split; [apply Hsplit|].
        split; [rewrite firstn_skipn; exact Hval|].
        rewrite length_skipn. subst len. lia.
  - (* scientific notation *)
    assert (Hsci : 0 < e \/ e + len <= -6).
    { apply andb_false_iff in Eplain. destruct Eplain as [H|H];
        [apply Z.leb_gt in H|apply Z.ltb_ge in H]; lia. }
    change (1 <=? 0) with false. cbv iota.
    assert (E1 : (e + len =? 1) = false) by (apply Z.eqb_neq; lia).
    rewrite E1.
    destruct (len <=? 1) eqn:E2; [apply Z.leb_le in E2|apply Z.leb_gt in E2].
    + exists ds, None, (Some (e + len - 1)).
      cbn [frac_chars exp_chars].
      replace (1 - len) with 0 by lia. cbn [Z.to_nat repeat app].
      rewrite !app_nil_r.
      split; [reflexivity|]. split; [exact Hne|]. split; [exact Hall|].
      split; [reflexivity|]. split; [exact Hval|]. cbn [List.length]. lia.
    + exists (firstn (Z.to_nat 1) ds), (Some (skipn (Z.to_nat 1) ds)),
             (Some (e + len - 1)).
      cbn [frac_chars exp_chars].
      split; [reflexivity|].
      split.
      { intros H. apply (f_equal (@List.length ascii)) in H.
        rewrite length_firstn in H. cbn [List.length] in H. subst len. lia. }
      split; [apply Hsplit|]. split; [apply Hsplit|].
      split; [rewrite firstn_skipn; exact Hval|].
      rewrite length_skipn. subst len. lia.
Qed.

Lemma split_sign_digit neg l :
  match l with [] => False | c :: _ => is_digit c = true end ->
  split_sign (sign_chars neg ++ l) = (neg, l).
Proof.
  destruct neg; [reflexivity|]. cbn [sign_chars app].
  destruct l as [|c l]; [contradiction|]. intros H.
  destruct c as [[] [] [] [] [] [] [] []]; try discriminate H; reflexivity.
Qed.

Lemma plain_exp_chars xo : forallb plain (exp_chars xo) = true.
Proof.
  destruct xo as [x|]; [|reflexivity].
  cbn [exp_chars forallb]. unfold signed_digits. cbn [forallb].
  rewrite (all_digits_plain _ (digits_of_all_digits _)).
  destruct (x <? 0); reflexivity.
Qed.

(** [Decimal(str(d))] reads a finite [d] back. *)
Lemma parse_to_str neg c e :
  parse (to_str (Finite neg c e)) = Some (Finite neg c e).
Proof.
  destruct (to_chars_shape neg c e)
    as (ip & fo & xo & Hshape & Hne & Hip & Hfp & Hval & Hexp).
  unfold parse, to_str. rewrite list_ascii_of_string_of_list_ascii, Hshape.
  assert (Hplain :
    forallb plain (sign_chars neg ++ ip ++ frac_chars fo ++ exp_chars xo) = true).
  { rewrite !forallb_app, (all_digits_plain _ Hip), plain_exp_chars.
    assert (forallb plain (sign_chars neg) = true) as -> by (destruct neg; reflexivity).
    destruct fo as [f|]; [|reflexivity].
    cbn [frac_chars forallb]. now rewrite (all_digits_plain _ Hfp). }
  rewrite (strip_plain _ Hplain), (remove_underscores_plain _ Hplain).
  rewrite split_sign_digit.
  - rewrite (parse_number_shape ip fo xo Hne Hip Hfp), Hval, Hexp. reflexivity.
  - destruct ip as [|c0 ip]; [contradiction|]. cbn [app].
    cbn [forallb] in Hip. now apply andb_prop in Hip.
Qed.

(** ** Integer strings *)

Lemma parse_digits neg ds :
  ds <> [] -> forallb is_digit ds = true ->
  parse_number ds = Some (ds, [], 0)
  /\ forallb plain (sign_chars neg ++ ds) = true.
Proof.
  intros Hne Hds. split.
  - pose proof (parse_number_shape ds None None Hne Hds eq_refl) as H.
    cbn [frac_chars exp_chars] in H. now rewrite !app_nil_r in H.
  - rewrite forallb_app, (all_digits_plain _ Hds). now destruct neg.
Qed.

End PyDecimalFacts.

(** * Facts about the conversion of balances *)

Module BalanceFacts.

Import Digits DigitsFacts PyDecimal PyDecimalFacts.

Lemma Qdiv_cross a b c d :
  0 < b -> 0 < d -> a * d = c * b ->
  (inject_Z a / inject_Z b == inject_Z c / inject_Z d)%Q.
Proof.
  intros Hb Hd H.
  destruct b as [|pb|pb]; try lia. destruct d as [|pd|pd]; try lia.
  unfold Qeq, Qdiv, Qmult, Qinv, inject_Z. cbn.
  rewrite !Z.mul_1_r. exact H.
Qed.

Lemma Qdiv_exact a d :
  0 < d -> (inject_Z a == inject_Z (a * d) / inject_Z d)%Q.
Proof.
  intros Hd. destruct d as [|pd|pd]; try lia.
  unfold Qeq, Qdiv, Qmult, Qinv, inject_Z. cbn.
  rewrite !Z.mul_1_r. reflexivity.
Qed.

Lemma Qdiv_opp a d :
  0 < d -> (- (inject_Z a / inject_Z d) == inject_Z (- a) / inject_Z d)%Q.
Proof.
  intros Hd. destruct d as [|pd|pd]; try lia.
  unfold Qeq, Qdiv, Qmult, Qinv, Qopp, inject_Z. cbn.
  rewrite !Z.mul_1_r. reflexivity.
Qed.

Lemma pow10_Z a : 0 <= a -> Z.of_N (pow10 a) = 10 ^ a.
Proof.
  intros Ha. unfold pow10. rewrite N2Z.inj_pow, Z2N.id by assumption.
  reflexivity.
Qed.

(** The number a representation of [m * 10^(k-d)] denotes. *)
Lemma magnitude_represents m k d c e :
  represents m (Z.of_N k - Z.of_N d) c e ->
  (magnitude c e
   == inject_Z (Z.of_N (m * 10 ^ k)) / inject_Z (10 ^ Z.of_N d))%Q.
Proof.
  intros [Hle Hc]. unfold magnitude.
  assert (Hd : 0 < 10 ^ Z.of_N d) by (apply Z.pow_pos_nonneg; lia).
  destruct (0 <=? e) eqn:E; [apply Z.leb_le in E|apply Z.leb_gt in E].
  - replace (Z.of_N (m * 10 ^ k))
      with (Z.of_N (c * pow10 e) * 10 ^ Z.of_N d).
    + now apply Qdiv_exact.
    + rewrite Hc, !N2Z.inj_mul, !pow10_Z, N2Z.inj_pow by lia.
      change (Z.of_N 10) with 10.
      rewrite <- !Z.mul_assoc, <- !Z.pow_add_r by lia.
      f_equal. f_equal. lia.
  - assert (Hp : 0 < Z.of_N (pow10 (- e))).
    { pose proof (pow10_pos (- e)). lia. }
    apply Qdiv_cross; [exact Hp|exact Hd|].
    rewrite Hc, !N2Z.inj_mul, !pow10_Z, N2Z.inj_pow by lia.
    change (Z.of_N 10) with 10.
    rewrite <- !Z.mul_assoc, <- !Z.pow_add_r by lia.
    f_equal. f_equal. lia.
Qed.

(** Every positive number is a number that 10 does not divide, times a
    power of ten. *)
Lemma canonical m :
  (0 < m)%N ->
  exists m' j, (m = m' * 10 ^ j /\ m' mod 10 <> 0 /\ 0 < m' /\ m' <= m)%N.
Proof.
  induction m as [m IH] using (well_founded_induction N.lt_wf_0). intros Hm.
  destruct (N.eq_dec (m mod 10) 0) as [E|E].
  - pose proof (N.div_mod m 10 ltac:(lia)) as Hdm. rewrite E, N.add_0_r in Hdm.
    assert (Hq : (0 < m / 10)%N).
    { destruct (N.eq_dec (m / 10) 0) as [Z0|]; [|lia].
      rewrite Z0 in Hdm. lia. }
    destruct (IH (m / 10)%N) as (m' & j & H1 & H2 & H3 & H4).
    + revert Hdm Hq. generalize (m / 10)%N. intros q Hdm Hq. lia.
    + exact Hq.
    + exists m', (j + 1)%N. split; [|split; [exact H2|split; [exact H3|]]].
      * rewrite N.pow_add_r, N.pow_1_r, N.mul_assoc, <- H1. lia.
      * revert Hdm H4. generalize (m / 10)%N. intros q Hdm H4. lia.
  - exists m, 0%N. rewrite N.pow_0_r, N.mul_1_r.
    split; [reflexivity|]. split; [exact E|]. split; [exact Hm|]. lia.
Qed.

(** The quotient of an integer with at most 28 significant digits by a
    power of ten: the division is exact, and its result is read back
    from its rendering. *)
Lemma truediv_integer neg c d :
  (exists m k : N, c = m * 10 ^ k /\ m < 10 ^ 28)%N ->
  ndigits c <= 1000000 -> (d <= 1000026)%N ->
  exists r,
    truediv (Finite neg c 0) (of_int (10 ^ Z.of_N d)) = Ok r
    /\ of_str (to_str r) = Ok r
    /\ exists c' e',
         r = Finite neg c' e'
         /\ (magnitude c' e'
             == inject_Z (Z.of_N c) / inject_Z (10 ^ Z.of_N d))%Q.
Proof.
  intros (m & k & Hc & Hm) Hlen Hd.
  assert (H10d : 0 < 10 ^ Z.of_N d) by (apply Z.pow_pos_nonneg; lia).
  destruct (N.eq_dec c 0) as [Hc0|Hc0].
  - (* zero *)
    subst c. rewrite Hc0.
    assert (Hof : of_int (10 ^ Z.of_N d) = Finite false (Z.abs_N (10 ^ Z.of_N d)) 0).
    { unfold of_int.
      replace (10 ^ Z.of_N d <? 0) with false by (symmetry; apply Z.ltb_ge; lia).
      reflexivity. }
    rewrite Hof. unfold truediv.
    assert (E : (Z.abs_N (10 ^ Z.of_N d) =? 0)%N = false)
      by (apply N.eqb_neq; lia).
    rewrite E. cbn [N.eqb]. rewrite xorb_false_r.
    exists (Finite neg 0 0). split; [reflexivity|].
    split.
    + unfold of_str. rewrite parse_to_str. reflexivity.
    + exists 0%N, 0. split; [reflexivity|].
      unfold magnitude. cbn. unfold Qeq, Qdiv, Qmult. cbn. reflexivity.
  - (* a positive number *)
    assert (Hmpos : (0 < m)%N).
    { destruct (N.eq_dec m 0) as [->|]; [|lia]. rewrite N.mul_0_l in Hc. lia. }
    destruct (canonical m Hmpos) as (m' & j & Hm' & Hm10 & Hm'pos & Hle).
    assert (Hc' : c = (m' * 10 ^ (j + k))%N).
    { rewrite Hc, Hm', N.pow_add_r, N.mul_assoc. reflexivity. }
    assert (Hprec : ndigits m' <= prec).
    { apply ndigits_le_iff; [unfold prec; lia|]. unfold prec.
      change (Z.to_N 28) with 28%N. lia. }
    assert (Hlen' : ndigits c = ndigits m' + Z.of_N (j + k)).
    { rewrite Hc'. now apply ndigits_mul_pow10. }
    pose proof (ndigits_pos m') as Hp.
    destruct (truediv_pow10_exact neg m' (j + k) d Hm'pos Hm10 Hprec)
      as (c1 & e1 & Hdiv & Hr & Hlo).
    + unfold Etiny, Emin, prec. lia.
    + unfold Emax. lia.
    + rewrite <- Hc' in Hdiv.
      exists (Finite neg c1 e1). split; [exact Hdiv|].
      split.
      * unfold of_str. rewrite parse_to_str.
        assert (Hex : exact_in_max_context (Finite neg c1 e1) = true).
        { pose proof (represents_pos _ _ _ _ Hm'pos Hr) as Hc1.
          destruct Hr as [Hle1 Hceq].
          assert (Hl1 : ndigits c1
                        = ndigits m' + (Z.of_N (j + k) - Z.of_N d - e1)).
          { rewrite Hceq. apply ndigits_mul_pow10'; [assumption|lia]. }
          unfold exact_in_max_context, MIN_ETINY, MAX_EMAX, MAX_PREC.
          unfold prec in Hprec.
          replace (c1 =? 0)%N with false by (symmetry; apply N.eqb_neq; lia).
          rewrite Hl1.
          apply andb_true_intro. split; [apply andb_true_intro; split|];
            apply Z.leb_le; lia. }
        now rewrite Hex.
      * exists c1, e1. split; [reflexivity|].
        rewrite Hc'. now apply magnitude_represents.
Qed.

(** Reading an integer string. *)
Lemma of_str_integer_string s z :
  integer_string s = Some z -> ndigits (Z.abs_N z) <= 1000000 ->
  exists neg,
    of_str s = Ok (Finite neg (Z.abs_N z) 0)
    /\ z = signed neg (Z.abs_N z).
Proof.
  unfold integer_string. intros H Hlen.
  destruct (split_sign (list_ascii_of_string s)) as [neg ds] eqn:Esplit.
  destruct ds as [|c0 ds0] eqn:Eds; [discriminate|]. rewrite <- Eds in *.
  destruct (all_digits ds) eqn:Hall; [|discriminate].
  injection H as <-.
  assert (Hne : ds <> []) by (rewrite Eds; discriminate).
  assert (Habs : Z.abs_N (signed neg (digits_value ds)) = digits_value ds).
  { unfold signed. destruct neg; lia. }
  rewrite Habs in *.
  exists neg. split; [|reflexivity].
  destruct (parse_digits neg ds Hne Hall) as [Hnum Hplain].
  assert (Hcs : list_ascii_of_string s = sign_chars neg ++ ds
                \/ (neg = false /\ list_ascii_of_string s = "+"%char :: ds)).
  { unfold split_sign in Esplit.
    destruct (list_ascii_of_string s) as [|a l]; [inversion Esplit; subst; now left|].
    destruct a as [[] [] [] [] [] [] [] []]; inversion Esplit; subst;
      (now left) || (now right). }
  assert (Hparse : parse s = Some (Finite neg (digits_value ds) 0)).
  { unfold parse.
    assert (Hstrip : remove_underscores (strip (list_ascii_of_string s))
                     = list_ascii_of_string s).
    { assert (Hp : forallb plain (list_ascii_of_string s) = true).
      { destruct Hcs as [->|[_ ->]]; [exact Hplain|].
        cbn [forallb]. rewrite (all_digits_plain _ Hall). reflexivity. }
      now rewrite (strip_plain _ Hp), (remove_underscores_plain _ Hp). }
    rewrite Hstrip, Esplit, Hnum, app_nil_r. reflexivity. }
  unfold of_str. rewrite Hparse.
  assert (Hex : exact_in_max_context (Finite neg (digits_value ds) 0) = true).
  { unfold exact_in_max_context, MIN_ETINY, MAX_EMAX, MAX_PREC.
    pose proof (ndigits_pos (digits_value ds)).
    apply andb_true_intro. split; [apply andb_true_intro; split|].
    - reflexivity.
    - apply Z.leb_le. lia.
    - destruct (digits_value ds =? 0)%N; apply Z.leb_le; lia. }
  now rewrite Hex.
Qed.

End BalanceFacts.

(** * Facts about dictionaries *)

Module DictFacts.

Section WithValue.
Context {V : Type}.
Implicit Types (d : list (string * V)) (k : string) (v : V).

Lemma get_In_keys k d : Dict.get k d <> None <-> In k (Dict.keys d).
Proof.
  induction d as [|[k' v'] d IH]; cbn [Dict.get Dict.keys map fst].
  - split; [congruence|intros []].
  - destruct (String.eqb_spec k k') as [->|Hne].
    + split; [now left|discriminate].
    + rewrite IH. split; [now right|].
      intros [H|H]; [now elim Hne|exact H].
Qed.

Lemma get_None_keys k d : Dict.get k d = None <-> ~ In k (Dict.keys d).
Proof.
  rewrite <- get_In_keys. destruct (Dict.get k d) as [v|].
  - split; [discriminate|]. intros H. exfalso. apply H. discriminate.
  - split; [|reflexivity]. intros _ H. now apply H.
Qed.

Lemma get_set_same k v d : Dict.get k (Dict.set k v d) = Some v.
Proof.
  induction d as [|[k' v'] d IH]; cbn [Dict.set Dict.get].
  - now rewrite String.eqb_refl.
  - destruct (String.eqb k k') eqn:E; cbn [Dict.get]; rewrite E; [reflexivity|exact IH].
Qed.

Lemma get_set_other k k' v d :
  k' <> k -> Dict.get k' (Dict.set k v d) = Dict.get k' d.
Proof.
  intros Hne. induction d as [|[k0 v0] d IH]; cbn [Dict.set Dict.get].
  - destruct (String.eqb_spec k' k); [contradiction|reflexivity].
  - destruct (String.eqb_spec k k0) as [->|Hk]; cbn [Dict.get].
    + destruct (String.eqb_spec k' k0); [contradiction|reflexivity].
    + now rewrite IH.
Qed.

Lemma get_remove_same k d : Dict.get k (Dict.remove k d) = None.
Proof.
  induction d as [|[k' v'] d IH]; cbn [Dict.remove]; [reflexivity|].
  destruct (String.eqb k k') eqn:E; [exact IH|].
  cbn [Dict.get]. now rewrite E.
Qed.

Lemma get_remove_other k k' d :
  k' <> k -> Dict.get k' (Dict.remove k d) = Dict.get k' d.
Proof.
  intros Hne. induction d as [|[k0 v0] d IH]; cbn [Dict.remove]; [reflexivity|].
  destruct (String.eqb_spec k k0) as [->|Hk]; cbn [Dict.get].
  - rewrite IH. destruct (String.eqb_spec k' k0); [contradiction|reflexivity].
  - now rewrite IH.
Qed.

Lemma set_fresh k v d : ~ In k (Dict.keys d) -> Dict.set k v d = d ++ [(k, v)].
Proof.
  induction d as [|[k' v'] d IH]; cbn [Dict.set Dict.keys map fst app];
    intros H; [reflexivity|].
  destruct (String.eqb_spec k k') as [->|Hne].
  - exfalso. apply H. now left.
  - rewrite IH; [reflexivity|]. intros Hin. apply H. now right.
Qed.

Lemma get_app_l k d1 d2 :
  In k (Dict.keys d1) -> Dict.get k (d1 ++ d2) = Dict.get k d1.
Proof.
  induction d1 as [|[k' v'] d1 IH]; cbn [Dict.keys map fst app Dict.get];
    intros H; [contradiction|].
  destruct (String.eqb_spec k k') as [->|Hne]; [reflexivity|].
  apply IH. destruct H as [H|H]; [now elim Hne|exact H].
Qed.

Lemma get_app_r k d1 d2 :
  ~ In k (Dict.keys d1) -> Dict.get k (d1 ++ d2) = Dict.get k d2.
Proof.
  induction d1 as [|[k' v'] d1 IH]; cbn [Dict.keys map fst app Dict.get];
    intros H; [reflexivity|].
  destruct (String.eqb_spec k k') as [->|Hne].
  - exfalso. apply H. now left.
  - apply IH. intros Hin. apply H. now right.
Qed.

Lemma keys_app d1 d2 : Dict.keys (d1 ++ d2) = Dict.keys d1 ++ Dict.keys d2.
Proof. apply map_app. Qed.

Lemma get_In k v d :
  NoDup (Dict.keys d) -> In (k, v) d -> Dict.get k d = Some v.
Proof.
  induction d as [|[k' v'] d IH]; cbn [Dict.keys map fst Dict.get];
    intros Hnd Hin; [contradiction|].
  inversion Hnd as [|? ? Hnotin Hnd']; subst.
  destruct Hin as [Heq|Hin].
  - injection Heq as -> ->. now rewrite String.eqb_refl.
  - destruct (String.eqb_spec k k') as [->|Hne].
    + exfalso. apply Hnotin. change k' with (fst (k', v)). now apply in_map.
    + now apply IH.
Qed.

End WithValue.

Lemma get_rename_new old new (d : pydict) :
  ~ In new (Dict.keys d) ->
  Dict.get new (rename_key old new d) = Dict.get old d.
Proof.
  induction d as [|[k v] d IH]; cbn [rename_key map Dict.get Dict.keys fst snd];
    intros H; [reflexivity|].
  assert (Hk : new <> k) by (intros ->; apply H; now left).
  assert (Hd : ~ In new (Dict.keys d)) by (intros Hin; apply H; now right).
  specialize (IH Hd). unfold rename_key in IH.
  destruct (String.eqb_spec k old) as [->|Hne].
  - now rewrite !String.eqb_refl.
  - destruct (String.eqb_spec new k); [contradiction|].
    destruct (String.eqb_spec old k) as [E|_]; [now elim Hne|]. exact IH.
Qed.

Lemma get_rename_old old new (d : pydict) :
  old <> new -> Dict.get old (rename_key old new d) = None.
Proof.
  intros Hne. induction d as [|[k v] d IH];
    cbn [rename_key map Dict.get fst snd]; [reflexivity|].
  unfold rename_key in IH.
  destruct (String.eqb_spec k old) as [->|Hk].
  - destruct (String.eqb_spec old new); [contradiction|]. exact IH.
  - destruct (String.eqb_spec old k) as [E|_]; [now elim Hk|]. exact IH.
Qed.

Lemma get_rename_other old new k (d : pydict) :
  k <> old -> k <> new ->
  Dict.get k (rename_key old new d) = Dict.get k d.
Proof.
  intros Ho Hn. induction d as [|[k0 v] d IH];
    cbn [rename_key map Dict.get fst snd]; [reflexivity|].
  unfold rename_key in IH.
  destruct (String.eqb_spec k0 old) as [->|Hk].
  - destruct (String.eqb_spec k new); [contradiction|].
    destruct (String.eqb_spec k old); [contradiction|]. exact IH.
  - destruct (String.eqb_spec k k0); [reflexivity|]. exact IH.
Qed.

Lemma keys_rename_other old new k (d : pydict) :
  k <> new -> ~ In k (Dict.keys d) -> ~ In k (Dict.keys (rename_key old new d)).
Proof.
  intros Hn Hnot Hin. apply get_In_keys in Hin. apply Hin.
  destruct (String.eqb_spec k old) as [->|Ho].
  - destruct (String.eqb_spec old new) as [->|Hon]; [contradiction|].
    now apply get_rename_old.
  - rewrite get_rename_other by assumption. now apply get_None_keys.
Qed.

End DictFacts.

(** * Facts about the accumulation of errors *)

Module PydanticFacts.

Import Pydantic.

Lemma both_Ok_inv {A B C : Type} (f : A -> B -> C) ma mb c :
  both f ma mb = Ok c -> exists a b, ma = Ok a /\ mb = Ok b /\ c = f a b.
Proof.
  destruct ma as [a|e1|x1]; destruct mb as [b|e2|x2]; cbn; try discriminate.
  intros H. injection H as <-. now exists a, b.
Qed.

Lemma both_not_Ok_l {A B C : Type} (f : A -> B -> C) ma mb :
  (forall a, ma <> Ok a) -> forall c, both f ma mb <> Ok c.
Proof.
  intros H c Hc. apply both_Ok_inv in Hc. destruct Hc as (a & _ & Ha & _).
  now apply (H a).
Qed.

Lemma both_not_Ok_r {A B C : Type} (f : A -> B -> C) ma mb :
  (forall b, mb <> Ok b) -> forall c, both f ma mb <> Ok c.
Proof.
  intros H c Hc. apply both_Ok_inv in Hc. destruct Hc as (_ & b & _ & Hb & _).
  now apply (H b).
Qed.

Lemma required_missing {A : Type} field d (validate : pyval -> outcome A) :
  Dict.get field d = None -> forall a, required field d validate <> Ok a.
Proof. intros H a. unfold required. now rewrite H. Qed.

Lemma run_validator_Ok_inv {A : Type} (r : outcome A) a :
  run_validator r = Ok a -> r = Ok a.
Proof.
  destruct r as [a'|errs|[[] msg]]; cbn; intros H; try discriminate; exact H.
Qed.

End PydanticFacts.

(** * The serializers: balance normalization *)

Section Normalization.

Import Digits DigitsFacts PyDecimal PyDecimalFacts BalanceFacts DictFacts.
Import Pydantic PydanticFacts.

Variable get_token_decimals : string -> exn + N.
Variable Decimal_from_sequence : list pyval -> outcome decimal.

Local Abbreviation balance_of :=
  (convert_balance get_token_decimals Decimal_from_sequence).
Local Abbreviation items_of :=
  (convert_items get_token_decimals Decimal_from_sequence).

Lemma reraise_not_Ok {A : Type} (r : outcome A) :
  (forall a, r <> Ok a) -> forall a, reraise_ValueError r <> Ok a.
Proof.
  intros H a. destruct r as [a'|errs|e]; cbn.
  - now elim (H a').
  - discriminate.
  - destruct (is_ValueError e); discriminate.
Qed.

(** One balance that does not convert makes the whole conversion fail:
    nothing is returned for the other keys. *)
Lemma convert_items_failure items : forall acc k v,
  In (k, v) items -> (forall s, balance_of k v <> Ok s) ->
  forall out, items_of items acc <> Ok out.
Proof.
  induction items as [|[k0 v0] items IH]; intros acc k v Hin Hfail out;
    [contradiction|].
  cbn [convert_items].
  destruct Hin as [Heq|Hin].
  - injection Heq as -> ->.
    pose proof (reraise_not_Ok _ Hfail) as Hr.
    destruct (reraise_ValueError (balance_of k v)) as [s|errs|e];
      cbn [bind]; [now elim (Hr s)|discriminate|discriminate].
  - destruct (reraise_ValueError (balance_of k0 v0)) as [s|errs|e];
      cbn [bind]; [|discriminate|discriminate].
    now apply (IH _ k v).
Qed.

(** When every balance converts, the result has the keys of the input, in
    the same order, each with its converted balance. *)
Lemma convert_items_all_Ok items : forall acc,
  NoDup (Dict.keys items) ->
  (forall k, In k (Dict.keys items) -> ~ In k (Dict.keys acc)) ->
  (forall k v, In (k, v) items -> exists s, balance_of k v = Ok s) ->
  exists out,
    items_of items acc = Ok out
    /\ Dict.keys out = Dict.keys acc ++ Dict.keys items
    /\ (forall k, In k (Dict.keys acc) -> Dict.get k out = Dict.get k acc)
    /\ (forall k v, In (k, v) items ->
          exists s, balance_of k v = Ok s /\ Dict.get k out = Some s).
Proof.
  induction items as [|[k0 v0] items IH]; intros acc Hnd Hfresh Hok.
  - exists acc. cbn. rewrite app_nil_r.
    split; [reflexivity|]. split; [reflexivity|].
    split; [reflexivity|]. intros k v [].
  - cbn [Dict.keys map fst] in Hnd, Hfresh.
    inversion Hnd as [|? ? Hnotin Hnd']; subst.
    destruct (Hok k0 v0 (or_introl eq_refl)) as [s0 Hs0].
    cbn [convert_items]. rewrite Hs0. cbn [reraise_ValueError bind].
    assert (Hset : Dict.set k0 s0 acc = acc ++ [(k0, s0)]).
    { apply set_fresh. apply Hfresh. now left. }
    rewrite Hset.
    destruct (IH (acc ++ [(k0, s0)]) Hnd') as (out & Hout & Hkeys & Hacc & Hitems).
    + intros k Hk Hin. rewrite keys_app in Hin. apply in_app_or in Hin.
      destruct Hin as [Hin|[Heq|[]]].
      * apply (Hfresh k); [now right|exact Hin].
      * cbn in Heq. subst k. now apply Hnotin.
    + intros k v Hin. apply Hok. now right.
    + exists out. split; [exact Hout|].
      split.
      { rewrite Hkeys, keys_app. cbn [Dict.keys map fst].
        now rewrite <- app_assoc. }
      split.
      { intros k Hk. rewrite Hacc.
        - now apply get_app_l.
        - rewrite keys_app. apply in_or_app. now left. }
      intros k v [Heq|Hin].
      * injection Heq as -> ->. exists s0. split; [exact Hs0|].
        rewrite Hacc.
        -- rewrite get_app_r by (apply Hfresh; now left).
           cbn. now rewrite String.eqb_refl.
        -- rewrite keys_app. apply in_or_app. right. now left.
      * now apply Hitems.
Qed.

(** The conversion of an integer string with at most 28 significant
    digits. *)
Lemma convert_balance_integer k s z d :
  get_token_decimals k = inr d -> integer_string s = Some z ->
  within_precision z -> ndigits (Z.abs_N z) <= 1000000 -> (d <= 1000026)%N ->
  exists r q,
    balance_of k (PStr s) = Ok (to_str r)
    /\ of_str (to_str r) = Ok r
    /\ value r = Some q /\ (q == quotient z d)%Q.
Proof.
  intros Hdec Hint Hprec Hlen Hd.
  destruct (of_str_integer_string s z Hint Hlen) as (neg & Hof & Hz).
  destruct (truediv_integer neg (Z.abs_N z) d Hprec Hlen Hd)
    as (r & Hdiv & Hback & c' & e' & -> & Hmag).
  clear Hprec Hlen Hint. revert Hof Hz Hdiv Hmag.
  generalize (Z.abs_N z). intros c Hof Hz Hdiv Hmag.
  exists (Finite neg c' e').
  exists (if neg then (- magnitude c' e')%Q else magnitude c' e').
  split.
  { unfold convert_balance. rewrite Hdec. cbn [Decimal].
    rewrite Hof. cbn [bind]. rewrite Hdiv. reflexivity. }
  split; [exact Hback|]. split; [reflexivity|].
  unfold quotient.
  assert (H10 : 0 < 10 ^ Z.of_N d) by (apply Z.pow_pos_nonneg; lia).
  rewrite Hz. unfold signed.
  destruct neg; rewrite Hmag; [now apply Qdiv_opp|reflexivity].
Qed.

(** A [ValueError] of the lookup is raised again as a [ValueError] that
    carries its message, and pydantic reports it as a validation error. *)
Lemma lookup_ValueError_wrapped k v rest msg :
  get_token_decimals k = inl (Exn ValueError msg) ->
  convert_total_balances get_token_decimals Decimal_from_sequence
    (PDict ((k, v) :: rest))
  = Raised (Exn ValueError ("Error in balance conversion: " ++ msg)%string)
  /\ validate_total_balances get_token_decimals Decimal_from_sequence
       (PDict ((k, v) :: rest))
     = Invalid [E_value_error ("Error in balance conversion: " ++ msg)%string].
Proof.
  intros H.
  assert (Hc : convert_total_balances get_token_decimals Decimal_from_sequence
                 (PDict ((k, v) :: rest))
               = Raised (Exn ValueError
                           ("Error in balance conversion: " ++ msg)%string)).
  { cbn [convert_total_balances convert_items]. unfold convert_balance.
    rewrite H. reflexivity. }
  split; [exact Hc|]. unfold validate_total_balances. now rewrite Hc.
Qed.

(** The balances that convert before the first that does not are gone
    through, and the loop goes on with the rest. *)
Lemma convert_items_app_Ok pre : forall acc rest,
  (forall k v, In (k, v) pre -> exists s, balance_of k v = Ok s) ->
  exists acc', items_of (pre ++ rest) acc = items_of rest acc'.
Proof.
  induction pre as [|[k0 v0] pre IH]; intros acc rest Hpre.
  - now exists acc.
  - destruct (Hpre k0 v0 (or_introl eq_refl)) as [s0 Hs0].
    cbn [app convert_items]. rewrite Hs0. cbn [reraise_ValueError bind].
    apply IH. intros k v Hin. apply Hpre. now right.
Qed.

(** A balance that is not a numeric string makes the conversion fail,
    whatever the lookup of the decimals gives. *)
Lemma non_numeric_balance_fails k s :
  parse s = None -> forall out, balance_of k (PStr s) <> Ok out.
Proof.
  intros Hparse out. unfold convert_balance.
  destruct (get_token_decimals k) as [e|d]; [discriminate|].
  cbn [Decimal]. unfold of_str. rewrite Hparse. discriminate.
Qed.

(** C2 (the code at the failing input).  When the first balance that does
    not convert belongs to a token whose decimals are found and is not a
    numeric string, the conversion raises [decimal.InvalidOperation]:
    [except ValueError] does not catch it, so it is not raised again with
    the message of the conversion, and pydantic, which reports only
    [ValueError] and [AssertionError], lets it propagate instead of
    reporting a validation error. *)
Theorem C2_parse_failure_escapes_except_ValueError pre k d s post :
  (forall k' v', In (k', v') pre -> exists s', balance_of k' v' = Ok s') ->
  get_token_decimals k = inr d -> parse s = None ->
  convert_total_balances get_token_decimals Decimal_from_sequence
    (PDict (pre ++ (k, PStr s) :: post))
  = Raised (Exn InvalidOperation "[<class 'decimal.ConversionSyntax'>]")
  /\ validate_total_balances get_token_decimals Decimal_from_sequence
       (PDict (pre ++ (k, PStr s) :: post))
     = Raised (Exn InvalidOperation "[<class 'decimal.ConversionSyntax'>]").
Proof.
  intros Hpre Hdec Hparse.
  assert (Hc : convert_total_balances get_token_decimals Decimal_from_sequence
                 (PDict (pre ++ (k, PStr s) :: post))
               = Raised (Exn InvalidOperation
                           "[<class 'decimal.ConversionSyntax'>]")).
  { cbn [convert_total_balances].
    destruct (convert_items_app_Ok pre [] ((k, PStr s) :: post) Hpre)
      as [acc' ->].
    cbn [convert_items]. unfold convert_balance.
    rewrite Hdec. cbn [Decimal]. unfold of_str. rewrite Hparse. reflexivity. }
  split; [exact Hc|]. unfold validate_total_balances. now rewrite Hc.
Qed.

(** C3 (amended).  For a mapping from token addresses to integer strings
    with at most 28 significant digits (and at most 1000000 digits), and
    decimals of at most 1000026 for each key, the normalization returns a
    mapping with the same keys in the same order; the value at a key is
    the rendering of a decimal that is exactly [raw / 10^decimals], and
    [Decimal] reads that rendering back as the same decimal. *)
Theorem C3_normalization_exact_within_precision (items : pydict) :
  NoDup (Dict.keys items) ->
  (forall k v, In (k, v) items ->
     exists s z d,
       v = PStr s /\ integer_string s = Some z /\ within_precision z
       /\ ndigits (Z.abs_N z) <= 1000000
       /\ get_token_decimals k = inr d /\ (d <= 1000026)%N) ->
  exists out,
    convert_total_balances get_token_decimals Decimal_from_sequence
      (PDict items) = Ok out
    /\ Dict.keys out = Dict.keys items
    /\ forall k s z d,
         In (k, PStr s) items -> integer_string s = Some z ->
         get_token_decimals k = inr d ->
         exists r q,
           Dict.get k out = Some (to_str r)
           /\ of_str (to_str r) = Ok r
           /\ value r = Some q /\ (q == quotient z d)%Q.
Proof.
  intros Hnd Hitems.
  destruct (convert_items_all_Ok items [] Hnd) as (out & Hout & Hkeys & _ & Hget).
  - intros k _ [].
  - intros k v Hin.
    destruct (Hitems k v Hin) as (s & z & d & -> & Hint & Hprec & Hlen & Hdec & Hd).
    destruct (convert_balance_integer k s z d Hdec Hint Hprec Hlen Hd)
      as (r & q & Hconv & _).
    now exists (to_str r).
  - exists out. split; [exact Hout|]. split; [exact Hkeys|].
    intros k s z d Hin Hint Hdec.
    destruct (Hitems k _ Hin) as (s' & z' & d' & Hs & Hint' & Hprec & Hlen & Hdec' & Hd).
    injection Hs as <-.
    rewrite Hint in Hint'. injection Hint' as <-.
    rewrite Hdec in Hdec'. injection Hdec' as <-.
    destruct (convert_balance_integer k s z d Hdec Hint Hprec Hlen Hd)
      as (r & q & Hconv & Hback & Hval & Hq).
    destruct (Hget k _ Hin) as (s1 & Hs1 & Hg).
    rewrite Hconv in Hs1. injection Hs1 as <-.
    exists r, q. repeat split; assumption.
Qed.

End Normalization.

(** * Facts about the store *)

Module StoreFacts.

Lemma read_in_range (h : store) l : Store.read h l <> PNone -> (l < List.length h)%nat.
Proof.
  unfold Store.read. revert l. induction h as [|x h IH]; intros [|l] H; cbn in *;
    try congruence; try lia.
  specialize (IH l H). lia.
Qed.

Lemma read_write_same (h : store) l v :
  (l < List.length h)%nat -> Store.read (Store.write h l v) l = v.
Proof.
  unfold Store.read. revert l. induction h as [|x h IH]; intros [|l] H; cbn in *;
    try lia; [reflexivity|].
  apply IH. lia.
Qed.

Lemma read_write_other (h : store) l l' v :
  l' <> l -> Store.read (Store.write h l v) l' = Store.read h l'.
Proof.
  unfold Store.read. revert l l'.
  induction h as [|x h IH]; intros [|l] [|l'] H; cbn; try reflexivity;
    try congruence.
  apply IH. congruence.
Qed.

Lemma write_write (h : store) l v w :
  Store.write (Store.write h l v) l w = Store.write h l w.
Proof.
  revert l. induction h as [|x h IH]; intros [|l]; cbn; try reflexivity.
  now rewrite IH.
Qed.

Lemma length_write (h : store) l v :
  List.length (Store.write h l v) = List.length h.
Proof.
  revert l. induction h as [|x h IH]; intros [|l]; cbn; try reflexivity.
  now rewrite IH.
Qed.

End StoreFacts.

(** * The serializers: products and the dashboard response *)

Section Models.

Import DictFacts Pydantic PydanticFacts StoreFacts.

Variable get_token_decimals : string -> exn + N.
Variable Decimal_from_sequence : list pyval -> outcome PyDecimal.decimal.
Variable int_from_str : string -> option Z.
Variable datetime_from : pyval -> option datetime.

Local Abbreviation position_of :=
  (validate_Position get_token_decimals Decimal_from_sequence).
Local Abbreviation product_of :=
  (validate_Product get_token_decimals Decimal_from_sequence).
Local Abbreviation turn :=
  (convert_product get_token_decimals Decimal_from_sequence).
Local Abbreviation loop :=
  (convert_products_loop get_token_decimals Decimal_from_sequence).
Local Abbreviation dashboard_of :=
  (validate get_token_decimals Decimal_from_sequence int_from_str datetime_from).

Lemma validate_str_Ok_inv v s : validate_str v = Ok s -> v = PStr s.
Proof. destruct v; cbn; intros H; try discriminate. now injection H as ->. Qed.

(** A product is built only from a string [name] and a string
    [health_ratio]. *)
Lemma validate_Product_Ok_inv product p :
  product_of product = Ok p ->
  Dict.get "name" product = Some (PStr (name p))
  /\ Dict.get "health_ratio" product = Some (PStr (health_ratio p)).
Proof.
  unfold validate_Product. intros H.
  apply both_Ok_inv in H. destruct H as (n & [hr ps] & Hn & H & ->).
  apply both_Ok_inv in H. destruct H as (hr' & ps' & Hh & _ & Heq).
  injection Heq as <- <-. cbn [name health_ratio].
  unfold required in Hn, Hh.
  destruct (Dict.get "name" product) as [vn|]; [|discriminate].
  destruct (Dict.get "health_ratio" product) as [vh|]; [|discriminate].
  apply validate_str_Ok_inv in Hn. apply validate_str_Ok_inv in Hh.
  now subst.
Qed.

Lemma get_extracted_groups product ratio :
  Dict.get "groups" (extracted product ratio) = None.
Proof.
  unfold extracted. rewrite get_set_other by discriminate.
  apply get_remove_same.
Qed.

Lemma get_extracted_ratio product ratio :
  Dict.get "health_ratio" (extracted product ratio) = Some ratio.
Proof. apply get_set_same. Qed.

Lemma get_extracted_other k product ratio :
  k <> "groups" -> k <> "health_ratio" ->
  Dict.get k (extracted product ratio) = Dict.get k product.
Proof.
  intros Hg Hh. unfold extracted.
  rewrite get_set_other by assumption. now apply get_remove_other.
Qed.

(** One turn of the loop on a dictionary whose [groups] is a dictionary. *)
Lemma convert_product_groups h l product groups :
  Store.read h l = PDict product ->
  Dict.get "groups" product = Some (PDict groups) ->
  forall group1,
    match Dict.get "1" groups with Some g => g | None => PDict [] end
    = PDict group1 ->
    let ratio :=
      match Dict.get "healthRatio" group1 with Some r => r | None => PNone end in
    turn h l = (Store.write h l (PDict (extracted product ratio)),
                product_of (extracted product ratio)).
Proof.
  intros Hread Hgroups group1 Hg1 ratio.
  unfold convert_product. rewrite Hread, Hgroups. cbn [py_get].
  rewrite Hg1. cbn [py_get]. rewrite write_write. reflexivity.
Qed.

(** A turn that appends a product has found a dictionary with [groups] at
    its location, and leaves it there with [groups] popped and
    [health_ratio] set. *)
Lemma convert_product_Ok_inv h l h1 p :
  turn h l = (h1, Ok p) ->
  exists product ratio,
    Store.read h l = PDict product
    /\ Dict.get "groups" product <> None
    /\ h1 = Store.write h l (PDict (extracted product (PStr ratio)))
    /\ (l < List.length h)%nat.
Proof.
  unfold convert_product. intros H.
  destruct (Store.read h l) as [| | | | | |product] eqn:Hread;
    try (unfold no_attribute in H; discriminate H).
  assert (Hl : (l < List.length h)%nat)
    by (apply read_in_range; rewrite Hread; discriminate).
  destruct (Dict.get "groups" product) as [groups|] eqn:Hgroups;
    [|cbn in H; discriminate H].
  destruct groups as [| | | | | |groups];
    try (cbn in H; discriminate H).
  cbn [py_get] in H.
  destruct (match Dict.get "1" groups with Some x => x | None => PDict [] end)
    as [| | | | | |group1] eqn:Hg1; try (cbn in H; discriminate H).
  cbn [py_get] in H. rewrite write_write in H.
  injection H as <- Hp.
  pose proof (validate_Product_Ok_inv _ _ Hp) as [_ Hh].
  fold (extracted product
          (match Dict.get "healthRatio" group1 with Some x => x | None => PNone end))
    in Hh |- *.
  rewrite get_extracted_ratio in Hh. inversion Hh as [Hratio].
  exists product, (health_ratio p).
  split; [reflexivity|]. split; [rewrite Hgroups; discriminate|].
  split; [now rewrite Hratio|exact Hl].
Qed.

(** A loop that ends well has found, at every location it went through, a
    dictionary with [groups], and leaves it there with [groups] popped and
    [health_ratio] set; the other locations are as they were. *)
Lemma convert_products_loop_Ok products : forall h acc h' ps,
  loop h products acc = (h', Ok ps) ->
  (forall l, ~ In l products -> Store.read h' l = Store.read h l)
  /\ (forall l, In l products ->
        exists product ratio,
          Store.read h l = PDict product
          /\ Dict.get "groups" product <> None
          /\ Store.read h' l = PDict (extracted product (PStr ratio))).
Proof.
  induction products as [|l0 rest IH]; intros h acc h' ps H.
  - cbn in H. injection H as <- _. split; [reflexivity|intros l []].
  - cbn [convert_products_loop] in H.
    destruct (turn h l0) as [h1 [p|errs|e]] eqn:Hturn; try discriminate H.
    destruct (convert_product_Ok_inv _ _ _ _ Hturn)
      as (product & ratio & Hread & Hgroups & -> & Hl).
    destruct (IH _ _ _ _ H) as [Hframe Hdone].
    assert (Hfresh : ~ In l0 rest).
    { intros Hin. destruct (Hdone l0 Hin) as (product' & _ & Hread' & Hg' & _).
      rewrite read_write_same in Hread' by exact Hl.
      injection Hread' as <-. apply Hg'. apply get_extracted_groups. }
    split.
    + intros l Hnot. rewrite Hframe by (intros Hin; apply Hnot; now right).
      apply read_write_other. intros ->. apply Hnot. now left.
    + intros l Hin. destruct (Nat.eq_dec l l0) as [->|Hne].
      * exists product, ratio. split; [exact Hread|]. split; [exact Hgroups|].
        rewrite (Hframe l0 Hfresh). now apply read_write_same.
      * destruct Hin as [Heq|Hin]; [now elim Hne|].
        destruct (Hdone l Hin) as (product' & ratio' & Hread' & Hg' & Hafter).
        rewrite read_write_other in Hread' by exact Hne.
        now exists product', ratio'.
Qed.

(** C1 (the code on a product without [groups], or without group 1).
    When the raw product has no [groups], [pop] returns [None] and the
    call of [get] on it raises [AttributeError].  When [groups] is a
    dictionary without the key ["1"], [health_ratio] is set to [None],
    which the required string field of [Product] refuses: no product is
    built in either case. *)
Theorem C1_missing_groups_or_group_1_fails h l product :
  Store.read h l = PDict product ->
  (Dict.get "groups" product = None ->
   snd (turn h l)
   = Raised (Exn AttributeError "'NoneType' object has no attribute 'get'"))
  /\ (forall groups,
        Dict.get "groups" product = Some (PDict groups) ->
        Dict.get "1" groups = None ->
        Store.read (fst (turn h l)) l = PDict (extracted product PNone)
        /\ forall p, snd (turn h l) <> Ok p).
Proof.
  intros Hread. split.
  - intros Hgroups. unfold convert_product. rewrite Hread, Hgroups. reflexivity.
  - intros groups Hgroups H1.
    rewrite (convert_product_groups h l product groups Hread Hgroups [])
      by (now rewrite H1).
    cbn [Dict.get fst snd]. split.
    + apply read_write_same. apply read_in_range. rewrite Hread. discriminate.
    + intros p Hp. apply validate_Product_Ok_inv in Hp. destruct Hp as [_ Hp].
      rewrite get_extracted_ratio in Hp. discriminate Hp.
Qed.

(** C7.  When [groups] maps ["1"] to a mapping whose [healthRatio] is a
    string, one turn of the loop leaves the raw product without [groups]
    and with that string as [health_ratio], and hands it to [Product]:
    every product built from it has that health ratio, and one is built
    whenever the name is a string and the positions are valid.  The other
    groups play no part. *)
Theorem C7_health_ratio_of_group_1 h l product groups group1 ratio :
  Store.read h l = PDict product ->
  Dict.get "groups" product = Some (PDict groups) ->
  Dict.get "1" groups = Some (PDict group1) ->
  Dict.get "healthRatio" group1 = Some (PStr ratio) ->
  turn h l
  = (Store.write h l (PDict (extracted product (PStr ratio))),
     product_of (extracted product (PStr ratio)))
  /\ Dict.get "groups" (extracted product (PStr ratio)) = None
  /\ (forall p, snd (turn h l) = Ok p -> health_ratio p = ratio)
  /\ (forall n raw_positions ps,
        Dict.get "name" product = Some (PStr n) ->
        Dict.get "positions" product = Some raw_positions ->
        validate_list position_of raw_positions = Ok ps ->
        snd (turn h l) = Ok (mk_Product n ratio ps)).
Proof.
  intros Hread Hgroups H1 Hratio.
  pose proof (convert_product_groups h l product groups Hread Hgroups group1) as Hturn.
  rewrite H1, Hratio in Hturn. specialize (Hturn eq_refl). cbv zeta in Hturn.
  rewrite Hturn. cbn [snd].
  split; [reflexivity|]. split; [apply get_extracted_groups|]. split.
  - intros p Hp. apply validate_Product_Ok_inv in Hp. destruct Hp as [_ Hp].
    rewrite get_extracted_ratio in Hp. now injection Hp as ->.
  - intros n raw_positions ps Hn Hpos Hps.
    unfold validate_Product, required.
    rewrite get_extracted_ratio.
    rewrite !get_extracted_other by discriminate.
    rewrite Hn, Hpos. cbn [validate_str]. rewrite Hps. reflexivity.
Qed.

(** C9.  A raw [ZkLendPositionResponse] without [products] is valid, and
    its products are the empty list. *)
Theorem C9_products_default_to_empty (d : pydict) :
  Dict.get "products" d = None ->
  validate_ZkLendPositionResponse get_token_decimals Decimal_from_sequence
    (PDict d)
  = Ok (mk_ZkLendPositionResponse []).
Proof.
  intros H. unfold validate_ZkLendPositionResponse. now rewrite H.
Qed.

(** C10.  [convert_products] works on the dictionaries of the caller.  A
    turn of the loop that gets as far as building the product leaves the
    raw product, at the same place of the store, with [groups] popped and
    [health_ratio] set, whether the product is then valid or not.  When
    [convert_products] returns, every raw product it went through is in
    that state; [groups] was there before and is not any more. *)
Theorem C10_products_mutated_in_place :
  (forall h l product groups group1 ratio,
     Store.read h l = PDict product ->
     Dict.get "groups" product = Some (PDict groups) ->
     py_get (PDict groups) "1" (PDict []) = Ok (PDict group1) ->
     py_get (PDict group1) "healthRatio" PNone = Ok ratio ->
     Store.read (fst (turn h l)) l = PDict (extracted product ratio))
  /\ (forall h products h' ps,
        convert_products get_token_decimals Decimal_from_sequence h products
        = (h', Ok ps) ->
        forall l, In l products ->
          exists product ratio,
            Store.read h l = PDict product
            /\ Dict.get "groups" product <> None
            /\ Store.read h' l = PDict (extracted product (PStr ratio))
            /\ Dict.get "groups" (extracted product (PStr ratio)) = None
            /\ Dict.get "health_ratio" (extracted product (PStr ratio))
               = Some (PStr ratio)).
Proof.
  split.
  - intros h l product groups group1 ratio Hread Hgroups H1 Hratio.
    cbn [py_get] in H1, Hratio. injection H1 as H1. injection Hratio as Hratio.
    rewrite (convert_product_groups h l product groups Hread Hgroups group1 H1).
    cbn [fst]. rewrite Hratio.
    apply read_write_same. apply read_in_range. rewrite Hread. discriminate.
  - unfold convert_products. intros h products h' ps H l Hin.
    destruct (convert_products_loop_Ok _ _ _ _ _ H) as [_ Hdone].
    destruct (Hdone l Hin) as (product & ratio & Hread & Hgroups & Hafter).
    exists product, ratio. split; [exact Hread|]. split; [exact Hgroups|].
    split; [exact Hafter|].
    split; [apply get_extracted_groups|apply get_extracted_ratio].
Qed.

(** What the lookups of [Position] find in a raw position spelled as on
    the wire is what they find under the internal names. *)
Lemma wire_position_lookups (d : pydict) :
  ~ In "tokenAddress" (Dict.keys d) -> ~ In "totalBalances" (Dict.keys d) ->
  Dict.get "data" (wire_position d) = Dict.get "data" d
  /\ get_aliased "tokenAddress" "token_address" (wire_position d)
     = get_aliased "tokenAddress" "token_address" d
  /\ get_aliased "totalBalances" "total_balances" (wire_position d)
     = get_aliased "totalBalances" "total_balances" d.
Proof.
  intros Hta Htb. unfold wire_position, get_aliased.
  set (d1 := rename_key "token_address" "tokenAddress" d).
  assert (Htb1 : ~ In "totalBalances" (Dict.keys d1)).
  { apply keys_rename_other; [discriminate|exact Htb]. }
  assert (HTA : Dict.get "tokenAddress"
                  (rename_key "total_balances" "totalBalances" d1)
                = Dict.get "token_address" d).
  { rewrite get_rename_other by discriminate. subst d1.
    now apply get_rename_new. }
  assert (Hta' : Dict.get "token_address"
                   (rename_key "total_balances" "totalBalances" d1) = None).
  { rewrite get_rename_other by discriminate. subst d1.
    apply get_rename_old. discriminate. }
  assert (HTB : Dict.get "totalBalances"
                  (rename_key "total_balances" "totalBalances" d1)
                = Dict.get "total_balances" d).
  { rewrite get_rename_new by exact Htb1. subst d1.
    now rewrite get_rename_other by discriminate. }
  assert (Htb' : Dict.get "total_balances"
                   (rename_key "total_balances" "totalBalances" d1) = None).
  { apply get_rename_old. discriminate. }
  rewrite HTA, Hta', HTB, Htb'.
  apply get_None_keys in Hta. apply get_None_keys in Htb. rewrite Hta, Htb.
  split; [subst d1; now rewrite !get_rename_other by discriminate|].
  split; [now destruct (Dict.get "token_address" d)|].
  now destruct (Dict.get "total_balances" d).
Qed.

(** A raw position whose fields are found and valid is accepted, as the
    position of the validated fields. *)
Lemma validate_Position_accepts (d : pydict)
    raw_data dt address ta raw_balances tb :
  Dict.get "data" d = Some raw_data -> validate_Data raw_data = Ok dt ->
  get_aliased "tokenAddress" "token_address" d = Some address ->
  validate_optional_str address = Ok ta ->
  get_aliased "totalBalances" "total_balances" d = Some raw_balances ->
  validate_total_balances get_token_decimals Decimal_from_sequence raw_balances
  = Ok tb ->
  position_of (PDict d) = Ok (mk_Position dt ta tb).
Proof.
  intros Hdata Hdt Haddress Hta Hbalances Htb.
  unfold validate_Position, required.
  now rewrite Hdata, Hdt, Haddress, Hta, Hbalances, Htb.
Qed.

(** C5 (amended).  [Position] accepts [tokenAddress] and [totalBalances]
    under either spelling: a raw position whose data, token address and
    balances are valid is validated to the position of these values,
    whether the token address is found under [tokenAddress] or under
    [token_address], and the balances under [totalBalances] or under
    [total_balances]; and spelling the internal names as on the wire
    leaves the outcome of any raw position as it is (error reports are
    compared by kind).  [DashboardResponse] has no alias: a payload whose
    [start_dates] and [zklend_position] are spelled [startDates] and
    [zklendPosition] is never valid. *)
Theorem C5_aliases_of_Position_only (d : pydict) :
  (forall raw_data dt address ta raw_balances tb,
     Dict.get "data" d = Some raw_data -> validate_Data raw_data = Ok dt ->
     validate_optional_str address = Ok ta ->
     validate_total_balances get_token_decimals Decimal_from_sequence
       raw_balances = Ok tb ->
     (Dict.get "tokenAddress" d = Some address
      \/ Dict.get "tokenAddress" d = None
         /\ Dict.get "token_address" d = Some address) ->
     (Dict.get "totalBalances" d = Some raw_balances
      \/ Dict.get "totalBalances" d = None
         /\ Dict.get "total_balances" d = Some raw_balances) ->
     position_of (PDict d) = Ok (mk_Position dt ta tb))
  /\ (~ In "tokenAddress" (Dict.keys d) -> ~ In "totalBalances" (Dict.keys d) ->
      position_of (PDict (wire_position d)) = position_of (PDict d))
  /\ forall r, dashboard_of (PDict (wire_payload d)) <> Ok r.
Proof.
  split; [|split].
  - intros raw_data dt address ta raw_balances tb
      Hdata Hdt Hta Htb Haddress Hbalances.
    apply (validate_Position_accepts d raw_data dt address ta raw_balances tb);
      try assumption; unfold get_aliased.
    + destruct Haddress as [->|[-> ->]]; reflexivity.
    + destruct Hbalances as [->|[-> ->]]; reflexivity.
  - intros Hta Htb.
    destruct (wire_position_lookups d Hta Htb) as (Hdata & Haddress & Hbalances).
    unfold validate_Position, required.
    now rewrite Hdata, Haddress, Hbalances.
  - assert (Hmissing : Dict.get "start_dates" (wire_payload d) = None).
    { unfold wire_payload. rewrite get_rename_other by discriminate.
      apply get_rename_old. discriminate. }
    unfold validate.
    apply both_not_Ok_r, both_not_Ok_r, both_not_Ok_l.
    now apply required_missing.
Qed.

(** C6.  Two raw positions that differ only in the spelling of
    [tokenAddress] and [totalBalances], the wire one and the internal one,
    are validated to the same outcome: the same position when one is
    valid, the same kinds of errors when it is not.  Both are accepted,
    as the same position, when the data, the token address, if there is
    one, and the balances are valid. *)
Theorem C6_position_spellings_agree (d : pydict) :
  ~ In "tokenAddress" (Dict.keys d) -> ~ In "totalBalances" (Dict.keys d) ->
  position_of (PDict (wire_position d)) = position_of (PDict d)
  /\ forall raw_data dt ta raw_balances tb,
       Dict.get "data" d = Some raw_data -> validate_Data raw_data = Ok dt ->
       match Dict.get "token_address" d with
       | Some address => validate_optional_str address
       | None => Ok None
       end = Ok ta ->
       Dict.get "total_balances" d = Some raw_balances ->
       validate_total_balances get_token_decimals Decimal_from_sequence
         raw_balances = Ok tb ->
       position_of (PDict (wire_position d)) = Ok (mk_Position dt ta tb)
       /\ position_of (PDict d) = Ok (mk_Position dt ta tb).
Proof.
  intros Hta Htb.
  destruct (wire_position_lookups d Hta Htb) as (Hdata & Haddress & Hbalances).
  assert (Hsame : position_of (PDict (wire_position d)) = position_of (PDict d)).
  { unfold validate_Position.
    assert (Hrequired :
      required "data" (wire_position d) validate_Data
      = required "data" d validate_Data).
    { unfold required. now rewrite Hdata. }
    rewrite Hrequired, Haddress, Hbalances.
    reflexivity. }
  split; [exact Hsame|].
  intros raw_data dt ta raw_balances tb Hd Hdt Haddr Hb Htb'.
  assert (Hok : position_of (PDict d) = Ok (mk_Position dt ta tb)).
  { apply get_None_keys in Hta. apply get_None_keys in Htb.
    unfold validate_Position, required, get_aliased.
    rewrite Hd, Hdt, Hta, Htb, Hb, Htb'.
    destruct (Dict.get "token_address" d) as [address|];
      rewrite Haddr; reflexivity. }
  split; [rewrite Hsame|]; exact Hok.
Qed.

(** C8 (amended).  A payload that lacks one of the keys [balances],
    [multipliers], [start_dates] and [zklend_position] is not valid: no
    default stands in for a missing top-level field. *)
Theorem C8_top_level_fields_required (d : pydict) field :
  In field ["balances"; "multipliers"; "start_dates"; "zklend_position"] ->
  Dict.get field d = None ->
  forall r, dashboard_of (PDict d) <> Ok r.
Proof.
  intros Hin Hget. unfold validate.
  destruct Hin as [<-|[<-|[<-|[<-|[]]]]].
  - apply both_not_Ok_l. now apply required_missing.
  - apply both_not_Ok_r, both_not_Ok_l. now apply required_missing.
  - apply both_not_Ok_r, both_not_Ok_r, both_not_Ok_l.
    now apply required_missing.
  - apply both_not_Ok_r, both_not_Ok_r, both_not_Ok_r.
    now apply required_missing.
Qed.

(** C4 (amended).  The end-to-end payload, with its top-level fields under
    the names [start_dates] and [zklend_position], is valid when the
    decimals of ["0xTOK"] are 6: the health ratio of its product is
    ["2.0"] and the balance of its position at ["0xTOK"] is ["1"]. *)
Theorem C4_end_to_end_internal_names t :
  get_token_decimals "0xTOK" = inr 6%N ->
  datetime_from (PStr "2024-01-01T00:00:00") = Some t ->
  dashboard_of (PDict Sample.payload)
  = Ok (mk_DashboardResponse
          [("ETH", PFloat (FFinite false 5 0))]
          [("ETH", Some 2)]
          [("ETH", Some t)]
          (mk_ZkLendPositionResponse
             [mk_Product "P1" "2.0"
                [mk_Position (mk_Data true false) (Some "0xTOK")
                   [("0xTOK", "1")]]])).
Proof.
  intros Hdec Hdate.
  assert (Hbal : convert_total_balances get_token_decimals Decimal_from_sequence
                   (PDict Sample.one_balance)
                 = Ok [("0xTOK", "1")]).
  { unfold Sample.one_balance.
    cbn [convert_total_balances convert_items]. unfold convert_balance.
    rewrite Hdec. vm_compute. reflexivity. }
  assert (Hpos : position_of (PDict Sample.position)
                 = Ok (mk_Position (mk_Data true false) (Some "0xTOK")
                         [("0xTOK", "1")])).
  { unfold validate_Position, Sample.position, validate_total_balances.
    cbn [get_aliased Dict.get String.eqb Ascii.eqb Bool.eqb].
    rewrite Hbal. reflexivity. }
  assert (Hzk : validate_ZkLendPositionResponse get_token_decimals
                  Decimal_from_sequence Sample.zklend
                = Ok (mk_ZkLendPositionResponse
                        [mk_Product "P1" "2.0"
                           [mk_Position (mk_Data true false) (Some "0xTOK")
                              [("0xTOK", "1")]]])).
  { unfold validate_ZkLendPositionResponse, Sample.zklend, validate_products,
      convert_products.
    cbn [Dict.get String.eqb Ascii.eqb Bool.eqb py_iter bind List.length seq
         convert_products_loop].
    unfold convert_product, Sample.product.
    cbn [Store.read nth Dict.get String.eqb Ascii.eqb Bool.eqb py_get
         Dict.remove Dict.set Store.write].
    unfold validate_Product, required.
    cbn [Dict.get String.eqb Ascii.eqb Bool.eqb validate_str validate_list
         validate_items].
    rewrite Hpos. reflexivity. }
  unfold validate, Sample.payload, required.
  cbn [Dict.get String.eqb Ascii.eqb Bool.eqb].
  rewrite Hzk.
  cbn [validate_dict validate_entries validate_optional_datetime].
  rewrite Hdate. reflexivity.
Qed.

End Models.

(** * More on the normalization of balances *)

Section NormalizationMore.

Import Digits DigitsFacts PyDecimal PyDecimalFacts BalanceFacts DictFacts.
Import Pydantic PydanticFacts.

Variable get_token_decimals : string -> exn + N.
Variable Decimal_from_sequence : list pyval -> outcome decimal.

Local Abbreviation balance_of' :=
  (convert_balance get_token_decimals Decimal_from_sequence).
Local Abbreviation items_of' :=
  (convert_items get_token_decimals Decimal_from_sequence).
Local Abbreviation balances_of :=
  (convert_total_balances get_token_decimals Decimal_from_sequence).
Local Abbreviation field_of :=
  (validate_total_balances get_token_decimals Decimal_from_sequence).

Lemma reraise_Ok_inv {A : Type} (r : outcome A) a :
  reraise_ValueError r = Ok a -> r = Ok a.
Proof.
  destruct r as [a'|errs|e]; cbn; intros H; try discriminate; [exact H|].
  destruct (is_ValueError e); discriminate.
Qed.

Lemma convert_items_Ok_inv items : forall acc out,
  items_of' items acc = Ok out ->
  forall k v, In (k, v) items -> exists s, balance_of' k v = Ok s.
Proof.
  induction items as [|[k0 v0] items IH]; intros acc out H k v Hin;
    [contradiction|].
  cbn [convert_items] in H.
  destruct (reraise_ValueError (balance_of' k0 v0)) as [s0|errs|e] eqn:E;
    cbn [bind] in H; try discriminate.
  destruct Hin as [Heq|Hin].
  - injection Heq as <- <-. exists s0. now apply reraise_Ok_inv.
  - now apply (IH _ _ H).
Qed.

(** X1.  The conversion is all or nothing: when one balance of the mapping
    does not convert, whatever the reason and wherever it stands,
    [convert_total_balances] returns no mapping and the field is not
    valid. *)
Theorem X1_conversion_all_or_nothing items k v :
  In (k, v) items ->
  (forall s,
     convert_balance get_token_decimals Decimal_from_sequence k v <> Ok s) ->
  (forall out,
     convert_total_balances get_token_decimals Decimal_from_sequence
       (PDict items) <> Ok out)
  /\ (forall out,
        validate_total_balances get_token_decimals Decimal_from_sequence
          (PDict items) <> Ok out).
Proof.
  intros Hin Hfail.
  assert (H : forall out, balances_of (PDict items) <> Ok out).
  { intros out. cbn [convert_total_balances].
    now apply (convert_items_failure get_token_decimals Decimal_from_sequence
                 items [] k v). }
  split; [exact H|].
  intros out Hout. apply run_validator_Ok_inv in Hout. now apply (H out).
Qed.

(** X2.  [except ValueError]: when the first balance that does not convert
    raises a [ValueError], from the lookup of the decimals or from
    [Decimal], the validator raises a [ValueError] whose message is
    ["Error in balance conversion: "] followed by the message of the
    first, and pydantic reports it as a value error of the field. *)
Theorem X2_ValueError_is_wrapped pre k v post e :
  (forall k' v', In (k', v') pre -> exists s', balance_of' k' v' = Ok s') ->
  balance_of' k v = Raised e -> is_ValueError e = true ->
  balances_of (PDict (pre ++ (k, v) :: post))
  = Raised (Exn ValueError ("Error in balance conversion: " ++ exn_str e)%string)
  /\ field_of (PDict (pre ++ (k, v) :: post))
     = Invalid [E_value_error
                  ("Error in balance conversion: " ++ exn_str e)%string].
Proof.
  intros Hpre Hraise Hvalue.
  assert (Hc : balances_of (PDict (pre ++ (k, v) :: post))
               = Raised (Exn ValueError
                           ("Error in balance conversion: " ++ exn_str e)%string)).
  { cbn [convert_total_balances].
    destruct (convert_items_app_Ok get_token_decimals Decimal_from_sequence
                pre [] ((k, v) :: post) Hpre)
      as [acc' ->].
    cbn [convert_items]. rewrite Hraise. cbn [reraise_ValueError].
    now rewrite Hvalue. }
  split; [exact Hc|]. unfold validate_total_balances. now rewrite Hc.
Qed.

(** X3.  Any other exception passes through the [try] as it is: when the
    first balance that does not convert raises an exception that is not a
    [ValueError], the validator raises that very exception, and unless it
    is an [AssertionError] pydantic lets it out of the validation. *)
Theorem X3_other_exceptions_pass_through pre k v post e :
  (forall k' v', In (k', v') pre -> exists s', balance_of' k' v' = Ok s') ->
  balance_of' k v = Raised e -> is_ValueError e = false ->
  balances_of (PDict (pre ++ (k, v) :: post)) = Raised e
  /\ (exn_class e <> AssertionError ->
      field_of (PDict (pre ++ (k, v) :: post)) = Raised e).
Proof.
  intros Hpre Hraise Hvalue.
  assert (Hc : balances_of (PDict (pre ++ (k, v) :: post)) = Raised e).
  { cbn [convert_total_balances].
    destruct (convert_items_app_Ok get_token_decimals Decimal_from_sequence
                pre [] ((k, v) :: post) Hpre)
      as [acc' ->].
    cbn [convert_items]. rewrite Hraise. cbn [reraise_ValueError].
    now rewrite Hvalue. }
  split; [exact Hc|]. intros Hassert.
  unfold validate_total_balances. rewrite Hc.
  destruct e as [[] msg]; cbn in *; try reflexivity;
    [discriminate Hvalue|now elim Hassert].
Qed.

(** X4.  When the conversion returns, the mapping it returns has the keys
    of the raw mapping in the same order, and under each key the converted
    balance of that key. *)
Theorem X4_converted_keys_and_values items out :
  NoDup (Dict.keys items) ->
  balances_of (PDict items) = Ok out ->
  Dict.keys out = Dict.keys items
  /\ forall k v, In (k, v) items ->
       exists s, balance_of' k v = Ok s /\ Dict.get k out = Some s.
Proof.
  intros Hnd Hout. cbn [convert_total_balances] in Hout.
  destruct (convert_items_all_Ok get_token_decimals Decimal_from_sequence
              items [] Hnd)
    as (out' & Hout' & Hkeys & _ & Hget).
  - intros k _ [].
  - now apply (convert_items_Ok_inv items [] out).
  - rewrite Hout in Hout'. injection Hout' as <-. split; assumption.
Qed.

End NormalizationMore.

(** * More on decimals: the form of a quotient and of its rendering *)

Module RenderingFacts.

Import Digits DigitsFacts PyDecimal PyDecimalFacts BalanceFacts.

(** The loop that drops zeros runs down to the exponent 0, or to the last
    digit that is not a zero. *)
Lemma strip_zeros_run m x fuel : forall c e,
  (m mod 10 <> 0)%N -> represents m x c e ->
  e <= Z.min x 0 -> Z.min x 0 - e <= Z.of_nat fuel ->
  strip_zeros fuel c e 0 = ((m * pow10 (x - Z.min x 0))%N, Z.min x 0).
Proof.
  induction fuel as [|fuel IH]; intros c e Hm Hr Hle Hfuel.
  - assert (e = Z.min x 0) by lia. subst e.
    destruct Hr as [_ ->]. reflexivity.
  - cbn [strip_zeros]. destruct Hr as [Hex Hc].
    destruct (Z.eq_dec e (Z.min x 0)) as [Heq|Hne].
    + assert (Hstop : (e <? 0) && (c mod 10 =? 0)%N = false).
      { destruct (Z.eq_dec e 0) as [->|He]; [reflexivity|].
        assert (Hx : x - e = 0) by lia.
        rewrite Hx, pow10_0, N.mul_1_r in Hc. rewrite Hc.
        apply andb_false_intro2. now apply N.eqb_neq. }
      rewrite Hstop, Hc, Heq. reflexivity.
    + assert (Hlt : e < 0 /\ e < x) by lia. destruct Hlt as [He0 Hex'].
      destruct (mul_pow10_div m (x - (e + 1)) 1 ltac:(lia) ltac:(lia))
        as [Hd Hmod].
      rewrite pow10_1 in Hd, Hmod.
      replace (x - (e + 1) + 1) with (x - e) in Hd, Hmod by lia.
      rewrite <- Hc in Hd, Hmod.
      assert (Hgo : (e <? 0) && (c mod 10 =? 0)%N = true).
      { apply andb_true_intro. split; [now apply Z.ltb_lt|].
        now apply N.eqb_eq. }
      rewrite Hgo. apply IH; [exact Hm| |lia|lia].
      split; [lia|exact Hd].
Qed.

Lemma fix_finite_unchanged neg c e :
  (0 < c)%N -> ndigits c <= prec -> Etiny <= e -> ndigits c + e - prec <= Etop ->
  fix_finite neg c e = Ok (Finite neg c e).
Proof.
  intros Hc Hp He Htop. unfold fix_finite.
  replace (c =? 0)%N with false by (symmetry; apply N.eqb_neq; lia).
  replace (Etop <? ndigits c + e - prec) with false
    by (symmetry; apply Z.ltb_ge; exact Htop).
  destruct (ndigits c + e - prec <? Etiny);
    [replace (e <? Etiny) with false by (symmetry; apply Z.ltb_ge; lia)
    |replace (e <? ndigits c + e - prec) with false
       by (symmetry; apply Z.ltb_ge; lia)];
    reflexivity.
Qed.

(** The quotient of [m * 10^k] by [10^d], for [m] of at most 28 digits that
    10 does not divide: its digits are those of [m], followed by zeros
    down to the exponent 0 when the quotient is a whole number. *)
Lemma truediv_normal_form neg m k d :
  (0 < m)%N -> (m mod 10 <> 0)%N -> ndigits m <= prec ->
  Etiny <= Z.of_N k - Z.of_N d ->
  ndigits m + (Z.of_N k - Z.of_N d) <= prec ->
  let x := Z.of_N k - Z.of_N d in
  truediv (Finite neg (m * 10 ^ k) 0) (of_int (10 ^ Z.of_N d))
  = Ok (Finite neg (m * pow10 (x - Z.min x 0)) (Z.min x 0)).
Proof.
  intros Hm Hm10 Hprec Hx Hint x. fold x in Hx, Hint.
  pose proof (ndigits_pos m) as Hp.
  assert (H10k : (0 < 10 ^ k)%N) by (apply N.neq_0_lt_0, N.pow_nonzero; lia).
  assert (H10d : (0 < 10 ^ d)%N) by (apply N.neq_0_lt_0, N.pow_nonzero; lia).
  assert (Hof : of_int (10 ^ Z.of_N d) = Finite false (10 ^ d) 0).
  { unfold of_int.
    assert (0 < 10 ^ Z.of_N d) by (apply Z.pow_pos_nonneg; lia).
    replace (10 ^ Z.of_N d <? 0) with false by (symmetry; apply Z.ltb_ge; lia).
    f_equal. apply N2Z.inj. rewrite N2Z.inj_abs_N, Z.abs_eq by lia.
    rewrite N2Z.inj_pow. reflexivity. }
  rewrite Hof. unfold truediv.
  assert (E0 : (10 ^ d =? 0)%N = false) by (apply N.eqb_neq; lia).
  assert (E1 : (m * 10 ^ k =? 0)%N = false) by (apply N.eqb_neq; lia).
  rewrite E0, E1, xorb_false_r.
  rewrite ndigits_pow10, ndigits_mul_pow10 by assumption.
  unfold prec in *.
  set (a := 30 - ndigits m).
  assert (Ha : 2 <= a) by (subst a; lia).
  set (shift := Z.of_N d + 1 - (ndigits m + Z.of_N k) + 28 + 1).
  assert (Hshift : shift = Z.of_N d + a - Z.of_N k) by (subst shift a; lia).
  assert (Hpos : 0 <= shift) by (subst x; lia).
  replace (0 <=? shift) with true by (symmetry; now apply Z.leb_le).
  assert (Heq : (m * 10 ^ k * pow10 shift = m * pow10 (a + Z.of_N d))%N).
  { rewrite <- (pow10_of_N k), <- N.mul_assoc, <- pow10_add by lia.
    f_equal. f_equal. lia. }
  rewrite Heq, <- (pow10_of_N d).
  destruct (mul_pow10_div m a (Z.of_N d) ltac:(lia) ltac:(lia)) as [H1 H2].
  rewrite H1, H2. cbn [N.eqb].
  replace (0 - 0 - shift) with (x - a) by (subst x; lia).
  change (0 - 0) with 0.
  assert (Hr0 : represents m x (m * pow10 a) (x - a)).
  { split; [lia|]. f_equal. f_equal. lia. }
  assert (Hfuel : Z.of_nat (List.length (digits_of (m * pow10 a))) = 30).
  { change (Z.of_nat (List.length (digits_of (m * pow10 a))))
      with (ndigits (m * pow10 a)).
    rewrite ndigits_mul_pow10' by (assumption || lia). subst a. lia. }
  rewrite (strip_zeros_run m x _ _ _ Hm10 Hr0) by lia.
  pose proof (pow10_pos (x - Z.min x 0)).
  apply fix_finite_unchanged.
  - apply N.mul_pos_pos; assumption.
  - rewrite ndigits_mul_pow10' by (assumption || lia). unfold prec. lia.
  - unfold Etiny, Emin, prec in *. lia.
  - rewrite ndigits_mul_pow10' by (assumption || lia).
    unfold Etop, Emax, prec. lia.
Qed.

(** [str] of a whole number with the exponent 0: its sign and digits. *)
Lemma to_chars_integer neg c :
  to_chars (Finite neg c 0) = sign_chars neg ++ digits_of c.
Proof.
  unfold to_chars.
  pose proof (digits_of_nonempty c) as Hne.
  set (ds := digits_of c) in *.
  assert (Hlen : 1 <= Z.of_nat (List.length ds)).
  { destruct ds; [contradiction|]. cbn [List.length]. lia. }
  set (len := Z.of_nat (List.length ds)) in *.
  change (0 <=? 0) with true.
  replace (-6 <? 0 + len) with true by (symmetry; apply Z.ltb_lt; lia).
  cbn [andb].
  replace (0 + len <=? 0) with false by (symmetry; apply Z.leb_gt; lia).
  replace (len <=? 0 + len) with true by (symmetry; apply Z.leb_le; lia).
  rewrite Z.eqb_refl.
  replace (0 + len - len) with 0 by lia. cbn [Z.to_nat repeat].
  now rewrite !app_nil_r.
Qed.

Lemma int_str_to_str z : int_str z = to_str (of_int z).
Proof. unfold int_str, to_str, of_int. now rewrite to_chars_integer. Qed.

(** [Decimal(str(z))] is [Decimal(z)]. *)
Lemma of_str_int_str z :
  ndigits (Z.abs_N z) <= MAX_PREC -> of_str (int_str z) = Ok (of_int z).
Proof.
  intros Hlen. rewrite int_str_to_str. unfold of_str, of_int.
  rewrite parse_to_str.
  assert (Hex : exact_in_max_context (Finite (z <? 0) (Z.abs_N z) 0) = true).
  { unfold exact_in_max_context, MIN_ETINY, MAX_EMAX, MAX_PREC in *.
    pose proof (ndigits_pos (Z.abs_N z)).
    apply andb_true_intro. split; [apply andb_true_intro; split|].
    - reflexivity.
    - apply Z.leb_le. lia.
    - destruct (Z.abs_N z =? 0)%N; apply Z.leb_le; lia. }
  now rewrite Hex.
Qed.

(** Reading an integer string of any length that the conversion takes. *)
Lemma of_str_integer_string_wide s z :
  integer_string s = Some z -> ndigits (Z.abs_N z) <= MAX_PREC ->
  exists neg,
    of_str s = Ok (Finite neg (Z.abs_N z) 0)
    /\ z = signed neg (Z.abs_N z).
Proof.
  unfold integer_string. intros H Hlen.
  destruct (split_sign (list_ascii_of_string s)) as [neg ds] eqn:Esplit.
  destruct ds as [|c0 ds0] eqn:Eds; [discriminate|]. rewrite <- Eds in *.
  destruct (all_digits ds) eqn:Hall; [|discriminate].
  injection H as <-.
  assert (Hne : ds <> []) by (rewrite Eds; discriminate).
  assert (Habs : Z.abs_N (signed neg (digits_value ds)) = digits_value ds).
  { unfold signed. destruct neg; lia. }
  rewrite Habs in *.
  exists neg. split; [|reflexivity].
  destruct (parse_digits neg ds Hne Hall) as [Hnum Hplain].
  assert (Hcs : list_ascii_of_string s = sign_chars neg ++ ds
                \/ (neg = false /\ list_ascii_of_string s = "+"%char :: ds)).
  { unfold split_sign in Esplit.
    destruct (list_ascii_of_string s) as [|a l];
      [inversion Esplit; subst; now left|].
    destruct a as [[] [] [] [] [] [] [] []]; inversion Esplit; subst;
      (now left) || (now right). }
  assert (Hp : forallb plain (list_ascii_of_string s) = true).
  { destruct Hcs as [->|[_ ->]]; [exact Hplain|].
    cbn [forallb]. rewrite (all_digits_plain _ Hall). reflexivity. }
  unfold of_str, parse.
  rewrite (strip_plain _ Hp), (remove_underscores_plain _ Hp).
  rewrite Esplit, Hnum, app_nil_r. cbn [List.length Z.of_nat].
  change (0 - 0) with 0.
  assert (Hex : exact_in_max_context (Finite neg (digits_value ds) 0) = true).
  { unfold exact_in_max_context, MIN_ETINY, MAX_EMAX, MAX_PREC in *.
    pose proof (ndigits_pos (digits_value ds)).
    apply andb_true_intro. split; [apply andb_true_intro; split|].
    - reflexivity.
    - apply Z.leb_le. lia.
    - destruct (digits_value ds =? 0)%N; apply Z.leb_le; lia. }
  now rewrite Hex.
Qed.

Lemma no_E_not_In l :
  forallb (fun c => negb (Ascii.eqb c "E")) l = true -> ~ In "E"%char l.
Proof.
  intros H Hin. rewrite forallb_forall in H. specialize (H _ Hin).
  discriminate H.
Qed.

Lemma no_E_digits l :
  forallb is_digit l = true ->
  forallb (fun c => negb (Ascii.eqb c "E")) l = true.
Proof.
  intros H. apply forallb_forall. intros c Hc.
  rewrite forallb_forall in H. specialize (H c Hc).
  destruct c as [[] [] [] [] [] [] [] []]; try discriminate H; reflexivity.
Qed.

Lemma no_E_zeros n :
  forallb (fun c => negb (Ascii.eqb c "E")) (repeat "0"%char n) = true.
Proof. apply no_E_digits, all_digits_zeros. Qed.

(** [str] of a finite decimal whose exponent is not positive is in
    scientific notation exactly when the number is below [10^-6]. *)
Lemma to_str_scientific neg c e :
  e <= 0 -> scientific (to_str (Finite neg c e)) <-> e + ndigits c <= -6.
Proof.
  intros He. unfold scientific, to_str.
  rewrite list_ascii_of_string_of_list_ascii.
  pose proof (digits_of_all_digits c) as Hall.
  unfold to_chars, ndigits.
  set (ds := digits_of c) in *.
  set (len := Z.of_nat (List.length ds)).
  assert (Hsplit : forall n, forallb is_digit (firstn n ds) = true
                             /\ forallb is_digit (skipn n ds) = true).
  { intros n. rewrite <- (firstn_skipn n ds) in Hall.
    rewrite forallb_app in Hall. now apply andb_prop in Hall. }
  assert (Hsign : forallb (fun c => negb (Ascii.eqb c "E")) (sign_chars neg)
                  = true) by (now destruct neg).
  replace (e <=? 0) with true by (symmetry; now apply Z.leb_le).
  cbn [andb].
  destruct (-6 <? e + len) eqn:Eplain;
    [apply Z.ltb_lt in Eplain|apply Z.ltb_ge in Eplain].
  - split; [|lia]. intros Hin. exfalso. revert Hin. apply no_E_not_In.
    rewrite Z.eqb_refl.
    destruct (e + len <=? 0); [|destruct (len <=? e + len)];
      rewrite !forallb_app; cbn [forallb]; rewrite ?forallb_app, Hsign,
        ?no_E_zeros, ?(no_E_digits _ Hall),
        ?(no_E_digits _ (proj1 (Hsplit _))),
        ?(no_E_digits _ (proj2 (Hsplit _)));
      reflexivity.
  - split; [lia|]. intros _.
    change (1 <=? 0) with false. cbv iota.
    assert (Hne : (e + len =? 1) = false) by (apply Z.eqb_neq; lia).
    rewrite Hne.
    destruct (len <=? 1); rewrite !in_app_iff; right; right; right; now left.
Qed.

End RenderingFacts.

(** * The normalization of balances: renderings *)

Section Renderings.

Import Digits DigitsFacts PyDecimal PyDecimalFacts BalanceFacts RenderingFacts.

Variable get_token_decimals : string -> exn + N.
Variable Decimal_from_sequence : list pyval -> outcome decimal.

Local Abbreviation balance_of'' :=
  (convert_balance get_token_decimals Decimal_from_sequence).

(** X5.  An integer balance, which the validator receives as it is in the
    raw payload, is converted like the string that writes it. *)
Theorem X5_int_balance_like_its_string k z :
  ndigits (Z.abs_N z) <= MAX_PREC ->
  balance_of'' k (PInt z) = balance_of'' k (PStr (int_str z)).
Proof.
  intros Hlen. unfold convert_balance.
  destruct (get_token_decimals k) as [e|d]; [reflexivity|].
  cbn [Decimal]. now rewrite of_str_int_str.
Qed.

(** The result of the division for a nonzero integer balance of at most 28
    digits. *)
Lemma truediv_small_integer neg c d :
  (0 < c)%N -> (c < 10 ^ 28)%N -> (d <= 1000026)%N ->
  exists m k,
    (c = m * 10 ^ k)%N /\ (m mod 10 <> 0)%N /\ (0 < m)%N
    /\ truediv (Finite neg c 0) (of_int (10 ^ Z.of_N d))
       = Ok (Finite neg
               (m * pow10 (Z.of_N k - Z.of_N d - Z.min (Z.of_N k - Z.of_N d) 0))
               (Z.min (Z.of_N k - Z.of_N d) 0))
    /\ Z.min (Z.of_N k - Z.of_N d) 0
       + ndigits (m * pow10 (Z.of_N k - Z.of_N d
                             - Z.min (Z.of_N k - Z.of_N d) 0))
       = ndigits c - Z.of_N d.
Proof.
  intros Hc Hlt Hd.
  destruct (canonical c Hc) as (m & k & Hmk & Hm10 & Hm & Hle).
  assert (Hlen : ndigits c <= 28).
  { apply ndigits_le_iff; [lia|]. exact Hlt. }
  assert (Hlen' : ndigits c = ndigits m + Z.of_N k).
  { rewrite Hmk. now apply ndigits_mul_pow10. }
  pose proof (ndigits_pos m) as Hp.
  exists m, k. split; [exact Hmk|]. split; [exact Hm10|]. split; [exact Hm|].
  split.
  - rewrite Hmk. apply truediv_normal_form; try assumption;
      unfold Etiny, Emin, prec; lia.
  - rewrite ndigits_mul_pow10' by (assumption || lia). lia.
Qed.

(** X6.  A nonzero integer balance of at most 28 digits that is a whole
    number of tokens is rendered as that whole number, without a point
    and without the zeros of the decimals: ["1000000"] with 6 decimals
    gives ["1"], not ["1.000000"]. *)
Theorem X6_whole_number_rendered_plain k s z w d :
  get_token_decimals k = inr d -> integer_string s = Some z ->
  z = w * 10 ^ Z.of_N d -> w <> 0 -> Z.abs w < 10 ^ 28 ->
  (d <= 1000026)%N ->
  balance_of'' k (PStr s) = Ok (int_str w).
Proof.
  intros Hdec Hint Hz Hw Hlt Hd.
  assert (H10 : 0 < 10 ^ Z.of_N d) by (apply Z.pow_pos_nonneg; lia).
  assert (Habs : Z.abs_N z = (Z.abs_N w * 10 ^ d)%N).
  { subst z. rewrite Zabs2N.inj_mul. f_equal.
    apply N2Z.inj. rewrite N2Z.inj_abs_N, Z.abs_eq, N2Z.inj_pow by lia.
    reflexivity. }
  assert (Hwpos : (0 < Z.abs_N w)%N) by lia.
  assert (Hwlt : (Z.abs_N w < 10 ^ 28)%N).
  { apply N2Z.inj_lt. rewrite N2Z.inj_abs_N, N2Z.inj_pow. exact Hlt. }
  assert (Hwlen : ndigits (Z.abs_N w) <= 28).
  { apply ndigits_le_iff; [lia|exact Hwlt]. }
  assert (Hzlen : ndigits (Z.abs_N z) <= MAX_PREC).
  { rewrite Habs, ndigits_mul_pow10 by exact Hwpos. unfold MAX_PREC. lia. }
  destruct (of_str_integer_string_wide s z Hint Hzlen)
    as (neg & Hof & Hsigned).
  assert (Hneg : neg = (w <? 0)).
  { unfold signed in Hsigned. rewrite N2Z.inj_abs_N in Hsigned.
    assert (Hz0 : z <> 0) by (subst z; nia).
    destruct neg, (w <? 0) eqn:E; try reflexivity;
      [apply Z.ltb_ge in E|apply Z.ltb_lt in E]; exfalso; nia. }
  destruct (canonical (Z.abs_N w) Hwpos) as (m & j & Hmj & Hm10 & Hm & Hle).
  assert (Hlen' : ndigits (Z.abs_N w) = ndigits m + Z.of_N j).
  { rewrite Hmj at 1. now apply ndigits_mul_pow10. }
  pose proof (ndigits_pos m) as Hp.
  assert (Hdiv : truediv (Finite neg (Z.abs_N z) 0) (of_int (10 ^ Z.of_N d))
                 = Ok (Finite neg (Z.abs_N w) 0)).
  { rewrite Habs, Hmj, <- N.mul_assoc, <- N.pow_add_r.
    rewrite (truediv_normal_form neg m (j + d) d Hm Hm10);
      try (unfold Etiny, Emin, prec; lia).
    replace (Z.of_N (j + d) - Z.of_N d) with (Z.of_N j) by lia.
    rewrite Z.min_r by lia. rewrite Z.sub_0_r, pow10_of_N. reflexivity. }
  unfold convert_balance. rewrite Hdec. cbn [Decimal]. rewrite Hof.
  cbn [bind]. rewrite Hdiv. cbn [bind].
  rewrite int_str_to_str. unfold of_int. now rewrite Hneg.
Qed.

(** X7.  A nonzero integer balance of at most 28 digits is rendered in
    scientific notation exactly when the decimals exceed its number of
    digits by 6 or more, that is when the quotient is below [10^-6]:
    ["1"] with 7 decimals gives ["1E-7"]. *)
Theorem X7_scientific_below_one_millionth k s z d :
  get_token_decimals k = inr d -> integer_string s = Some z ->
  z <> 0 -> Z.abs z < 10 ^ 28 -> (d <= 1000026)%N ->
  exists out,
    balance_of'' k (PStr s) = Ok out
    /\ (scientific out <-> ndigits (Z.abs_N z) + 6 <= Z.of_N d).
Proof.
  intros Hdec Hint Hz Hlt Hd.
  assert (Hpos : (0 < Z.abs_N z)%N) by lia.
  assert (Hclt : (Z.abs_N z < 10 ^ 28)%N).
  { apply N2Z.inj_lt. rewrite N2Z.inj_abs_N, N2Z.inj_pow. exact Hlt. }
  assert (Hlen : ndigits (Z.abs_N z) <= 28).
  { apply ndigits_le_iff; [lia|exact Hclt]. }
  destruct (of_str_integer_string s z Hint ltac:(lia)) as (neg & Hof & _).
  destruct (truediv_small_integer neg (Z.abs_N z) d Hpos Hclt Hd)
    as (m & j & _ & _ & _ & Hdiv & Hleft).
  eexists. split.
  - unfold convert_balance. rewrite Hdec. cbn [Decimal]. rewrite Hof.
    cbn [bind]. rewrite Hdiv. reflexivity.
  - rewrite to_str_scientific by lia. rewrite Hleft. lia.
Qed.

End Renderings.

(** * More on the conversion of products *)

Section ProductsMore.

Import DictFacts Pydantic PydanticFacts StoreFacts.

Variable get_token_decimals : string -> exn + N.
Variable Decimal_from_sequence : list pyval -> outcome PyDecimal.decimal.

Local Abbreviation product_of' :=
  (validate_Product get_token_decimals Decimal_from_sequence).
Local Abbreviation turn' :=
  (convert_product get_token_decimals Decimal_from_sequence).
Local Abbreviation loop' :=
  (convert_products_loop get_token_decimals Decimal_from_sequence).
Local Abbreviation products_of :=
  (convert_products get_token_decimals Decimal_from_sequence).

(** A turn of the loop writes to its own location only. *)
Lemma convert_product_frame h l h1 r :
  turn' h l = (h1, r) ->
  (forall l', l' <> l -> Store.read h1 l' = Store.read h l')
  /\ List.length h1 = List.length h.
Proof.
  unfold convert_product. intros H.
  assert (Hw : forall v, (forall l', l' <> l ->
                  Store.read (Store.write h l v) l' = Store.read h l')
               /\ List.length (Store.write h l v) = List.length h).
  { intros v. split; [intros l' Hl'; now apply read_write_other|].
    apply length_write. }
  destruct (Store.read h l) as [| | | | | |product];
    try (injection H as <- _; now split).
  destruct (py_get _ "1" (PDict [])) as [group1|errs|e];
    try (injection H as <- _; apply Hw).
  destruct (py_get group1 "healthRatio" PNone) as [ratio|errs|e];
    try (injection H as <- _; apply Hw).
  injection H as <- _. rewrite write_write. apply Hw.
Qed.

(** X8.  [convert_products] touches nothing but the dictionaries of the
    list it is given: whatever way it ends, the other objects of the
    caller are as they were. *)
Theorem X8_other_objects_untouched products : forall h h' r,
  products_of h products = (h', r) ->
  (forall l, ~ In l products -> Store.read h' l = Store.read h l)
  /\ List.length h' = List.length h.
Proof.
  unfold convert_products. generalize (@nil Product).
  induction products as [|l0 rest IH]; intros acc h h' r H.
  - cbn in H. injection H as <- _. now split.
  - cbn [convert_products_loop] in H.
    destruct (turn' h l0) as [h1 r1] eqn:Hturn.
    destruct (convert_product_frame _ _ _ _ Hturn) as [Hframe Hlen].
    assert (Hstop : h' = h1 ->
              (forall l, ~ In l (l0 :: rest) -> Store.read h' l = Store.read h l)
              /\ List.length h' = List.length h).
    { intros ->. split; [|exact Hlen].
      intros l Hnot. apply Hframe. intros ->. apply Hnot. now left. }
    destruct r1 as [p|errs|e];
      try (injection H as <- _; now apply Hstop).
    destruct (IH _ _ _ _ H) as [Hrest Hlen'].
    split; [|lia].
    intros l Hnot. rewrite Hrest by (intros Hin; apply Hnot; now right).
    apply Hframe. intros ->. apply Hnot. now left.
Qed.

(** X9.  A product is built only with the health ratio that the raw
    product holds, as a string, in its group ["1"]: no default stands in
    for a missing group or a missing ratio. *)
Theorem X9_health_ratio_comes_from_group_1 h l h1 p :
  turn' h l = (h1, Ok p) ->
  exists product groups group1,
    Store.read h l = PDict product
    /\ Dict.get "groups" product = Some (PDict groups)
    /\ Dict.get "1" groups = Some (PDict group1)
    /\ Dict.get "healthRatio" group1 = Some (PStr (health_ratio p))
    /\ product_of' (extracted product (PStr (health_ratio p))) = Ok p.
Proof.
  unfold convert_product. intros H.
  destruct (Store.read h l) as [| | | | | |product] eqn:Hread;
    try (unfold no_attribute in H; discriminate H).
  destruct (Dict.get "groups" product) as [groups|] eqn:Hgroups;
    [|cbn in H; discriminate H].
  destruct groups as [| | | | | |groups]; try (cbn in H; discriminate H).
  cbn [py_get] in H.
  destruct (Dict.get "1" groups) as [group1|] eqn:H1.
  - destruct group1 as [| | | | | |group1]; try (cbn in H; discriminate H).
    cbn [py_get] in H. injection H as _ Hp.
    fold (extracted product
            (match Dict.get "healthRatio" group1 with
             | Some x => x | None => PNone end)) in Hp.
    pose proof (validate_Product_Ok_inv _ _ _ _ Hp) as [_ Hh].
    rewrite get_extracted_ratio in Hh. injection Hh as Hratio.
    rewrite Hratio in Hp.
    exists product, groups, group1.
    split; [reflexivity|]. split; [exact Hgroups|]. split; [exact H1|].
    split; [|exact Hp].
    destruct (Dict.get "healthRatio" group1); [now subst|discriminate].
  - cbn [py_get Dict.get] in H. injection H as _ Hp.
    fold (extracted product PNone) in Hp.
    pose proof (validate_Product_Ok_inv _ _ _ _ Hp) as [_ Hh].
    rewrite get_extracted_ratio in Hh. discriminate Hh.
Qed.

(** X10.  When [groups], or its group ["1"], is there but is not a
    mapping, the turn raises [AttributeError] after [groups] is popped:
    the dictionary of the caller has lost [groups] and has gained no
    [health_ratio]. *)
Theorem X10_groups_popped_before_the_failure h l product g :
  Store.read h l = PDict product ->
  Dict.get "health_ratio" product = None ->
  (Dict.get "groups" product = Some g /\ is_dict g = false
   \/ exists groups,
        Dict.get "groups" product = Some (PDict groups)
        /\ Dict.get "1" groups = Some g /\ is_dict g = false) ->
  snd (turn' h l)
  = Raised (Exn AttributeError
              ("'" ++ py_type_name g ++ "' object has no attribute 'get'")%string)
  /\ Store.read (fst (turn' h l)) l = PDict (Dict.remove "groups" product)
  /\ Dict.get "groups" (Dict.remove "groups" product) = None
  /\ Dict.get "health_ratio" (Dict.remove "groups" product) = None.
Proof.
  intros Hread Hratio Hg.
  assert (Hl : (l < List.length h)%nat)
    by (apply read_in_range; rewrite Hread; discriminate).
  assert (Hturn :
    turn' h l
    = (Store.write h l (PDict (Dict.remove "groups" product)),
       Raised (Exn AttributeError
                 ("'" ++ py_type_name g
                  ++ "' object has no attribute 'get'")%string))).
  { unfold convert_product. rewrite Hread.
    destruct Hg as [[Hgroups Hnd]|(groups & Hgroups & H1 & Hnd)];
      rewrite Hgroups.
    - destruct g; try discriminate Hnd; reflexivity.
    - cbn [py_get]. rewrite H1.
      destruct g; try discriminate Hnd; reflexivity. }
  rewrite Hturn. cbn [fst snd].
  split; [reflexivity|]. split; [now apply read_write_same|].
  split; [apply get_remove_same|].
  rewrite get_remove_other by discriminate. exact Hratio.
Qed.

(** The product a turn builds is the one of its dictionary, extracted
    with the health ratio of the product. *)
Lemma convert_product_Ok_product h l h1 p :
  turn' h l = (h1, Ok p) ->
  exists product,
    Store.read h l = PDict product
    /\ product_of' (extracted product (PStr (health_ratio p))) = Ok p.
Proof.
  unfold convert_product. intros H.
  destruct (Store.read h l) as [| | | | | |product];
    try (unfold no_attribute in H; discriminate H).
  destruct (py_get _ "1" (PDict [])) as [group1|errs|e]; try discriminate H.
  destruct (py_get group1 "healthRatio" PNone) as [ratio|errs|e];
    try discriminate H.
  injection H as _ Hp. fold (extracted product ratio) in Hp.
  pose proof (validate_Product_Ok_inv _ _ _ _ Hp) as [_ Hh].
  rewrite get_extracted_ratio in Hh. injection Hh as ->.
  now exists product.
Qed.

(** A loop that ends well does not meet its first dictionary again. *)
Lemma convert_products_loop_fresh l0 rest h acc h' ps :
  loop' h (l0 :: rest) acc = (h', Ok ps) -> ~ In l0 rest.
Proof.
  intros H Hin. cbn [convert_products_loop] in H.
  destruct (turn' h l0) as [h1 [p|errs|e]] eqn:Hturn; try discriminate H.
  destruct (convert_product_Ok_inv _ _ _ _ _ _ Hturn)
    as (product & ratio & Hread & _ & -> & Hl).
  destruct (convert_products_loop_Ok _ _ _ _ _ _ _ H) as [_ Hdone].
  destruct (Hdone l0 Hin) as (product' & _ & Hread' & Hg' & _).
  rewrite read_write_same in Hread' by exact Hl.
  injection Hread' as <-. apply Hg'. apply get_extracted_groups.
Qed.

(** X11.  The products come out in the order of the raw products: when
    [convert_products] returns, its i-th product is the one built from
    the i-th raw product, with [groups] popped and its health ratio
    set. *)
Theorem X11_products_in_input_order h products h' ps :
  products_of h products = (h', Ok ps) ->
  Forall2
    (fun l p =>
       exists product,
         Store.read h l = PDict product
         /\ product_of' (extracted product (PStr (health_ratio p))) = Ok p)
    products ps.
Proof.
  unfold convert_products. intros H.
  assert (Hloop : forall todo h0 acc,
    loop' h0 todo acc = (h', Ok ps) ->
    exists new,
      ps = acc ++ new
      /\ Forall2
           (fun l p =>
              exists product,
                Store.read h0 l = PDict product
                /\ product_of' (extracted product (PStr (health_ratio p)))
                   = Ok p)
           todo new).
  { clear H. clear h products. revert ps.
    intros ps todo. induction todo as [|l0 rest IH]; intros h acc H.
    - cbn in H. injection H as _ <-.
      exists []. rewrite app_nil_r. split; [reflexivity|constructor].
    - pose proof (convert_products_loop_fresh _ _ _ _ _ _ H) as Hfresh.
      cbn [convert_products_loop] in H.
      destruct (turn' h l0) as [h1 [p|errs|e]] eqn:Hturn; try discriminate H.
      destruct (convert_product_frame _ _ _ _ Hturn) as [Hframe _].
      destruct (convert_product_Ok_product _ _ _ _ Hturn)
        as (product & Hread & Hp).
      destruct (IH _ _ H) as (new & -> & Hall).
      exists (p :: new). split; [now rewrite <- app_assoc|].
      constructor; [now exists product|].
      clear - Hall Hframe Hfresh.
      induction Hall as [|l p' rest new (product' & Hr & Hp') _ IHall];
        constructor.
      + exists product'. split; [|exact Hp'].
        rewrite <- Hr. symmetry. apply Hframe.
        intros ->. apply Hfresh. now left.
      + apply IHall. intros Hin. apply Hfresh. now right. }
  destruct (Hloop _ _ _ H) as (new & -> & Hall). exact Hall.
Qed.

(** X12.  A list that holds the same dictionary twice is never converted:
    the second turn finds the dictionary without [groups]. *)
Theorem X12_shared_dictionary_never_converted h products h' ps :
  convert_products get_token_decimals Decimal_from_sequence h products
  = (h', Ok ps) ->
  NoDup products.
Proof.
  unfold convert_products. generalize (@nil Product). revert h.
  induction products as [|l0 rest IH]; intros h acc H; [constructor|].
  constructor; [exact (convert_products_loop_fresh _ _ _ _ _ _ H)|].
  cbn [convert_products_loop] in H.
  destruct (turn' h l0) as [h1 [p|errs|e]]; try discriminate H.
  exact (IH _ _ H).
Qed.

(** X13.  The conversion cannot be run twice on the same raw products:
    after a run that returned, a second run on the dictionaries it left
    raises [AttributeError] at the first product, whose [groups] is
    gone. *)
Theorem X13_second_run_raises h products h' ps :
  convert_products get_token_decimals Decimal_from_sequence h products
  = (h', Ok ps) ->
  products <> [] ->
  snd (convert_products get_token_decimals Decimal_from_sequence h' products)
  = Raised (Exn AttributeError "'NoneType' object has no attribute 'get'").
Proof.
  unfold convert_products. intros H Hne.
  destruct products as [|l0 rest]; [contradiction|].
  destruct (convert_products_loop_Ok _ _ _ _ _ _ _ H) as [_ Hdone].
  destruct (Hdone l0 (or_introl eq_refl))
    as (product & ratio & _ & _ & Hafter).
  cbn [convert_products_loop]. unfold convert_product.
  rewrite Hafter, get_extracted_groups. reflexivity.
Qed.

End ProductsMore.

(** * What escapes the validation, and what passes through it *)

Module EscapeFacts.

Import Pydantic.

Lemma both_not_Raised {A B C : Type} (f : A -> B -> C) ma mb :
  (forall e, ma <> Raised e) -> (forall e, mb <> Raised e) ->
  forall e, both f ma mb <> Raised e.
Proof.
  intros Ha Hb e.
  destruct ma as [a|e1|x1]; [| |now elim (Ha x1)];
    (destruct mb as [b|e2|x2]; [| |now elim (Hb x2)]); cbn; discriminate.
Qed.

Lemma both_Raised_r {A B C : Type} (f : A -> B -> C) ma mb e :
  (forall e', ma <> Raised e') -> mb = Raised e -> both f ma mb = Raised e.
Proof.
  intros Ha ->. destruct ma as [a|e1|x1]; [reflexivity|reflexivity|].
  now elim (Ha x1).
Qed.

Lemma required_not_Raised {A : Type} field d (validate : pyval -> outcome A) :
  (forall v e, validate v <> Raised e) ->
  forall e, required field d validate <> Raised e.
Proof.
  intros H e. unfold required. destruct (Dict.get field d); [apply H|discriminate].
Qed.

Lemma bind_Ok_not_Raised {A B : Type} (m : outcome A) (f : A -> B) :
  (forall e, m <> Raised e) -> forall e, (a <- m ;; Ok (f a)) <> Raised e.
Proof.
  intros H e. destruct m as [a|errs|x]; cbn; try discriminate. now elim (H x).
Qed.

Lemma validate_entries_not_Raised {A : Type} (validate : pyval -> outcome A) d :
  (forall v e, validate v <> Raised e) ->
  forall e, validate_entries validate d <> Raised e.
Proof.
  intros H. induction d as [|[k v] d IH]; cbn [validate_entries]; [discriminate|].
  apply both_not_Raised; [|exact IH].
  apply (bind_Ok_not_Raised (validate v) (fun a => (k, a))). apply H.
Qed.

Lemma validate_dict_not_Raised {A : Type} (validate : pyval -> outcome A) v :
  (forall v e, validate v <> Raised e) ->
  forall e, validate_dict validate v <> Raised e.
Proof.
  intros H e. destruct v; cbn [validate_dict]; try discriminate.
  now apply validate_entries_not_Raised.
Qed.

Lemma float_in_i64_not_Raised z e : float_in_i64 z <> Raised e.
Proof. unfold float_in_i64. destruct (_ && _); discriminate. Qed.

Lemma float_as_int_not_Raised f e : float_as_int f <> Raised e.
Proof.
  destruct f as [neg|neg| |neg m x]; cbn [float_as_int]; try discriminate.
  cbv zeta.
  destruct (0 <=? x); [apply float_in_i64_not_Raised|].
  destruct (Z.pos m mod 2 ^ (- x) =? 0);
    [apply float_in_i64_not_Raised|discriminate].
Qed.

Lemma int_as_bool_not_Raised z e : int_as_bool z <> Raised e.
Proof. destruct z as [|[p|p|]|p]; discriminate. Qed.

Lemma validate_int_not_Raised int_from_str v e :
  validate_int int_from_str v <> Raised e.
Proof.
  destruct v as [|b|z|f|s|l|d]; cbn [validate_int]; try discriminate.
  - apply float_as_int_not_Raised.
  - destruct (int_from_str s); discriminate.
Qed.

Lemma validate_optional_int_not_Raised int_from_str v e :
  validate_optional_int int_from_str v <> Raised e.
Proof.
  destruct v as [|b|z|f|s|l|d]; cbn [validate_optional_int]; try discriminate;
    apply (bind_Ok_not_Raised _ Some); intros e'; apply validate_int_not_Raised.
Qed.

Lemma validate_optional_datetime_not_Raised datetime_from v e :
  validate_optional_datetime datetime_from v <> Raised e.
Proof.
  destruct v as [|b|z|f|s|l|d]; cbn [validate_optional_datetime];
    try discriminate; destruct (datetime_from _); discriminate.
Qed.

Lemma validate_bool_not_Raised v e : validate_bool v <> Raised e.
Proof.
  destruct v as [|b|z|f|s|l|d]; cbn [validate_bool]; try discriminate.
  - destruct (_ && _); [apply int_as_bool_not_Raised|discriminate].
  - destruct (float_as_int f) as [z|errs|x];
      [apply int_as_bool_not_Raised|discriminate|discriminate].
  - unfold str_as_bool. cbv zeta.
    destruct (existsb _ _); [discriminate|].
    destruct (existsb _ _); discriminate.
Qed.

Lemma validate_Data_not_Raised v e : validate_Data v <> Raised e.
Proof.
  destruct v as [|b|z|f|s|l|d]; cbn [validate_Data]; try discriminate.
  apply both_not_Raised; apply required_not_Raised; apply validate_bool_not_Raised.
Qed.

Lemma validate_optional_str_not_Raised v e : validate_optional_str v <> Raised e.
Proof. destruct v; cbn; discriminate. Qed.

Lemma validate_entries_any d : validate_entries validate_any d = Ok d.
Proof.
  induction d as [|[k v] d IH]; cbn [validate_entries]; [reflexivity|].
  rewrite IH. reflexivity.
Qed.

Lemma validate_entries_Ok_inv {A : Type} (validate : pyval -> outcome A) d :
  forall out, validate_entries validate d = Ok out ->
  forall k v, In (k, v) d -> exists a, validate v = Ok a.
Proof.
  induction d as [|[k0 v0] d IH]; intros out H k v Hin; [destruct Hin|].
  cbn [validate_entries] in H. apply PydanticFacts.both_Ok_inv in H.
  destruct H as (a & out' & Ha & Hout & _).
  destruct Hin as [Heq|Hin]; [|exact (IH _ Hout _ _ Hin)].
  injection Heq as <- <-.
  destruct (validate v0) as [a0|errs|x]; try discriminate Ha. now exists a0.
Qed.

End EscapeFacts.

Section Escapes.

Import Pydantic PydanticFacts EscapeFacts.

Variable get_token_decimals : string -> exn + N.
Variable Decimal_from_sequence : list pyval -> outcome PyDecimal.decimal.
Variable int_from_str : string -> option Z.
Variable datetime_from : pyval -> option datetime.

Local Abbreviation balance_of3 :=
  (convert_balance get_token_decimals Decimal_from_sequence).
Local Abbreviation balances_of3 :=
  (convert_total_balances get_token_decimals Decimal_from_sequence).
Local Abbreviation position_of3 :=
  (validate_Position get_token_decimals Decimal_from_sequence).
Local Abbreviation zklend_of :=
  (validate_ZkLendPositionResponse get_token_decimals Decimal_from_sequence).
Local Abbreviation dashboard_of3 :=
  (validate get_token_decimals Decimal_from_sequence int_from_str datetime_from).

(** X14.  An exception of the conversion of the balances that is neither
    a [ValueError] nor an [AssertionError] is not turned into a
    validation error: the validation of the position raises it, whatever
    [data] and the token address hold. *)
Theorem X14_conversion_exception_escapes_Position (d : pydict) b e :
  get_aliased "totalBalances" "total_balances" d = Some b ->
  balances_of3 b = Raised e ->
  exn_class e <> ValueError -> exn_class e <> AssertionError ->
  position_of3 (PDict d) = Raised e.
Proof.
  intros Hb Hraise Hv Ha. cbn [validate_Position]. rewrite Hb.
  assert (Hfield :
    validate_total_balances get_token_decimals Decimal_from_sequence b
    = Raised e).
  { unfold validate_total_balances. rewrite Hraise.
    destruct e as [[] msg]; cbn in *; try reflexivity;
      [now elim Hv|now elim Ha]. }
  apply both_Raised_r.
  - apply required_not_Raised. apply validate_Data_not_Raised.
  - apply both_Raised_r; [|exact Hfield].
    intros e'. destruct (get_aliased "tokenAddress" "token_address" d);
      [apply validate_optional_str_not_Raised|discriminate].
Qed.

(** X15.  The fields [balances], [multipliers] and [start_dates] never
    raise; an exception that the validation of [zklend_position] raises
    is raised by [model_validate], also when the other fields are
    missing or not valid. *)
Theorem X15_zklend_exception_escapes_validate (d : pydict) z e :
  Dict.get "zklend_position" d = Some z ->
  zklend_of z = Raised e ->
  dashboard_of3 (PDict d) = Raised e.
Proof.
  intros Hz Hraise. cbn [validate].
  apply both_Raised_r.
  { apply required_not_Raised. intros v. apply validate_dict_not_Raised.
    intros v' e'. discriminate. }
  apply both_Raised_r.
  { apply required_not_Raised. intros v. apply validate_dict_not_Raised.
    intros v' e'. apply validate_optional_int_not_Raised. }
  apply both_Raised_r.
  { apply required_not_Raised. intros v. apply validate_dict_not_Raised.
    intros v' e'. apply validate_optional_datetime_not_Raised. }
  unfold required. rewrite Hz. exact Hraise.
Qed.

(** X16.  A payload whose first product has no [groups] does not give a
    validation error: [model_validate] raises the [AttributeError] of the
    call of [get] on [None], whatever else the payload holds. *)
Theorem X16_product_without_groups_aborts_validation
    (d zk product : pydict) rest :
  Dict.get "zklend_position" d = Some (PDict zk) ->
  Dict.get "products" zk = Some (PList (PDict product :: rest)) ->
  Dict.get "groups" product = None ->
  dashboard_of3 (PDict d)
  = Raised (Exn AttributeError "'NoneType' object has no attribute 'get'").
Proof.
  intros Hz Hps Hgroups.
  assert (Hzk : zklend_of (PDict zk)
                = Raised (Exn AttributeError
                            "'NoneType' object has no attribute 'get'")).
  { cbn [validate_ZkLendPositionResponse]. rewrite Hps.
    unfold validate_products. cbn [py_iter bind List.length seq].
    unfold convert_products. cbn [convert_products_loop].
    unfold convert_product. cbn [Store.read nth]. rewrite Hgroups.
    reflexivity. }
  cbn [validate].
  apply both_Raised_r.
  { apply required_not_Raised. intros v. apply validate_dict_not_Raised.
    intros v' e'. discriminate. }
  apply both_Raised_r.
  { apply required_not_Raised. intros v. apply validate_dict_not_Raised.
    intros v' e'. apply validate_optional_int_not_Raised. }
  apply both_Raised_r.
  { apply required_not_Raised. intros v. apply validate_dict_not_Raised.
    intros v' e'. apply validate_optional_datetime_not_Raised. }
  unfold required. rewrite Hz. exact Hzk.
Qed.

(** X17.  [products] that cannot be iterated over, [None] or a number,
    make [model_validate] raise the [TypeError] of the [for] loop. *)
Theorem X17_products_not_iterable (d zk : pydict) v e :
  Dict.get "zklend_position" d = Some (PDict zk) ->
  Dict.get "products" zk = Some v ->
  py_iter v = Raised e ->
  exn_class e = TypeError /\ dashboard_of3 (PDict d) = Raised e.
Proof.
  intros Hz Hps Hiter.
  assert (Hclass : exn_class e = TypeError).
  { destruct v; cbn [py_iter] in Hiter; try discriminate Hiter;
      injection Hiter as <-; reflexivity. }
  split; [exact Hclass|].
  assert (Hzk : zklend_of (PDict zk) = Raised e).
  { cbn [validate_ZkLendPositionResponse]. rewrite Hps.
    unfold validate_products. rewrite Hiter. cbn [bind].
    destruct e as [c msg]. cbn in Hclass. subst c. reflexivity. }
  cbn [validate].
  apply both_Raised_r.
  { apply required_not_Raised. intros v0. apply validate_dict_not_Raised.
    intros v' e'. discriminate. }
  apply both_Raised_r.
  { apply required_not_Raised. intros v0. apply validate_dict_not_Raised.
    intros v' e'. apply validate_optional_int_not_Raised. }
  apply both_Raised_r.
  { apply required_not_Raised. intros v0. apply validate_dict_not_Raised.
    intros v' e'. apply validate_optional_datetime_not_Raised. }
  unfold required. rewrite Hz. exact Hzk.
Qed.

(** X18.  The wallet balances are not validated beyond being a
    dictionary: a valid response holds them as the payload gave them. *)
Theorem X18_balances_pass_through (d : pydict) r :
  dashboard_of3 (PDict d) = Ok r ->
  Dict.get "balances" d = Some (PDict (balances r)).
Proof.
  cbn [validate]. intros H.
  apply both_Ok_inv in H. destruct H as (b & [m [s z]] & Hb & _ & ->).
  cbn [balances]. unfold required in Hb.
  destruct (Dict.get "balances" d) as [v|]; [|discriminate Hb].
  destruct v; cbn [validate_dict] in Hb; try discriminate Hb.
  rewrite validate_entries_any in Hb. now injection Hb as ->.
Qed.

(** X19.  A multiplier that is a float with a fractional part, like the
    [1.5] of the example of the field, is refused: the payload is not
    valid. *)
Theorem X19_fractional_multiplier_refused (d ms : pydict) k neg m x :
  Dict.get "multipliers" d = Some (PDict ms) ->
  In (k, PFloat (FFinite neg m x)) ms ->
  x < 0 -> Z.pos m mod 2 ^ (- x) <> 0 ->
  forall r, dashboard_of3 (PDict d) <> Ok r.
Proof.
  intros Hms Hin Hx Hfrac. cbn [validate].
  apply both_not_Ok_r, both_not_Ok_l.
  unfold required. rewrite Hms. cbn [validate_dict].
  intros out Hout.
  destruct (validate_entries_Ok_inv _ _ _ Hout _ _ Hin) as [a Ha].
  cbn [validate_optional_int validate_int float_as_int] in Ha.
  destruct (Z.leb_spec 0 x) as [Hle|_]; [lia|].
  destruct (Z.eqb_spec (Z.pos m mod 2 ^ (- x)) 0) as [Heq|_];
    [now elim Hfrac|discriminate Ha].
Qed.

(** X20.  A balance of zero is rendered ["0"] whatever the decimals of
    the token are, be it given as the integer or as the string. *)
Theorem X20_zero_balance k d :
  get_token_decimals k = inr d ->
  balance_of3 k (PInt 0) = Ok "0" /\ balance_of3 k (PStr "0") = Ok "0".
Proof.
  intros Hdec.
  assert (Hpow : (Z.abs_N (10 ^ Z.of_N d) =? 0)%N = false).
  { apply N.eqb_neq. pose proof (Z.pow_pos_nonneg 10 (Z.of_N d)). lia. }
  assert (Hneg : (10 ^ Z.of_N d <? 0) = false).
  { apply Z.ltb_ge. pose proof (Z.pow_pos_nonneg 10 (Z.of_N d)). lia. }
  assert (Hint : balance_of3 k (PInt 0) = Ok "0").
  { unfold convert_balance. rewrite Hdec. cbn [Decimal bind].
    unfold PyDecimal.of_int. cbn [Z.ltb Z.compare Z.abs_N].
    unfold PyDecimal.truediv. rewrite Hpow, Hneg. reflexivity. }
  split; [exact Hint|].
  rewrite <- Hint. unfold convert_balance. rewrite Hdec. reflexivity.
Qed.

End Escapes.

(** * The status of a position *)

Section StatusFacts.

Import Db.

(** X21.  [Status.choices()] lists the value of every member once, and
    the values are what names a member: the member of a value of the
    list has that value, and no other string is the value of a member. *)
Theorem X21_choices_are_the_values_of_the_members :
  NoDup choices
  /\ (forall status, In (value status) choices
                     /\ of_value (value status) = Some status)
  /\ (forall v, In v choices <-> exists status, of_value v = Some status)
  /\ (forall v status, of_value v = Some status -> value status = v).
Proof.
  assert (Hsound : forall v status, of_value v = Some status -> value status = v).
  { intros v status H. unfold of_value in H. apply find_some in H.
    destruct H as [_ H]. now apply String.eqb_eq in H. }
  split; [|split; [|split; [|exact Hsound]]].
  - unfold choices, members. cbn [map value].
    repeat constructor; cbn [In]; intros H;
      repeat (destruct H as [H|H]; [discriminate H|]); exact H.
  - intros []; split; cbn; auto.
  - intros v. split.
    + unfold choices. intros H. apply in_map_iff in H.
      destruct H as (status & <- & _). exists status. now destruct status.
    + intros [status H]. apply Hsound in H. subst v.
      unfold choices. apply in_map. destruct status; cbn; auto.
Qed.

(** X22.  The default of the column [Position.status] is a value that the
    column admits, the value of [PENDING]. *)
Theorem X22_status_default_is_pending :
  In status_default status_enum_values
  /\ of_value status_default = Some PENDING.
Proof. split; [now left|reflexivity]. Qed.

End StatusFacts.

(** * The claims on the sample payloads *)

(** The products of the sample payloads, as the field [products] of
    [ZkLendPositionResponse] takes them. *)
Example products_without_groups_raise :
  validate_products Sample.get_token_decimals Sample.Decimal_from_sequence
    (PList [PDict Sample.product_without_groups])
  = Raised (Exn AttributeError "'NoneType' object has no attribute 'get'").
Proof. reflexivity. Qed.

Example products_with_empty_groups_are_invalid :
  validate_products Sample.get_token_decimals Sample.Decimal_from_sequence
    (PList [PDict Sample.product_with_empty_groups])
  = Invalid [E_string_type].
Proof. reflexivity. Qed.

Example products_with_two_groups_are_valid :
  validate_products Sample.get_token_decimals Sample.Decimal_from_sequence
    (PList [PDict Sample.product_two_groups])
  = Ok [mk_Product "P1" "1.5" []].
Proof. reflexivity. Qed.

(** The same dictionary twice in [products]: the second turn finds it
    without [groups]. *)
Example shared_product_raises :
  snd (Sample.convert_products [PDict Sample.product_two_groups] [0%nat; 0%nat])
  = Raised (Exn AttributeError "'NoneType' object has no attribute 'get'").
Proof. reflexivity. Qed.

(** Renderings of quotients in the default context. *)
Example balance_renderings :
  map (fun s => Sample.convert_total_balances (PDict [("0xTOK", PStr s)]))
    ["1000000"; "123456789"; "1"; "15"; "-7"; "1.5"; "NaN"]
  = [Ok [("0xTOK", "1")]; Ok [("0xTOK", "123.456789")];
     Ok [("0xTOK", "0.000001")]; Ok [("0xTOK", "0.000015")];
     Ok [("0xTOK", "-0.000007")]; Ok [("0xTOK", "0.0000015")];
     Ok [("0xTOK", "NaN")]].
Proof. vm_compute. reflexivity. Qed.

(** The failing input of C1: a product without [groups]. *)
Lemma C1_witness :
  (Store.read [PDict Sample.product_without_groups] 0
   = PDict Sample.product_without_groups
   /\ Dict.get "groups" Sample.product_without_groups = None
   /\ snd (Sample.convert_product [PDict Sample.product_without_groups] 0)
      = Raised (Exn AttributeError "'NoneType' object has no attribute 'get'"))
  /\ (Store.read [PDict Sample.product_with_empty_groups] 0
      = PDict Sample.product_with_empty_groups
      /\ Dict.get "groups" Sample.product_with_empty_groups = Some (PDict [])
      /\ Dict.get "1" ([] : pydict) = None
      /\ forall p,
           snd (Sample.convert_product [PDict Sample.product_with_empty_groups] 0)
           <> Ok p).
Proof.
  split.
  - split; [reflexivity|]. split; [reflexivity|].
    apply (proj1 (C1_missing_groups_or_group_1_fails
                    Sample.get_token_decimals Sample.Decimal_from_sequence
                    [PDict Sample.product_without_groups] 0%nat
                    Sample.product_without_groups eq_refl)).
    reflexivity.
  - split; [reflexivity|]. split; [reflexivity|]. split; [reflexivity|].
    apply (proj2 (C1_missing_groups_or_group_1_fails
                    Sample.get_token_decimals Sample.Decimal_from_sequence
                    [PDict Sample.product_with_empty_groups] 0%nat
                    Sample.product_with_empty_groups eq_refl) []);
      reflexivity.
Defined.

(** The failing input of C2: the balance ["abc"], after one that
    converts. *)
Lemma C2_witness :
  (forall k' v', In (k', v') Sample.one_balance ->
     exists s',
       convert_balance Sample.get_token_decimals Sample.Decimal_from_sequence
         k' v' = Ok s')
  /\ Sample.get_token_decimals "0xETH" = inr 18%N
  /\ PyDecimal.parse "abc" = None
  /\ Sample.convert_total_balances
       (PDict (Sample.one_balance ++ [("0xETH", PStr "abc")]))
     = Raised (Exn InvalidOperation "[<class 'decimal.ConversionSyntax'>]")
  /\ Sample.validate_total_balances
       (PDict (Sample.one_balance ++ [("0xETH", PStr "abc")]))
     = Raised (Exn InvalidOperation "[<class 'decimal.ConversionSyntax'>]").
Proof.
  assert (Hpre : forall k' v', In (k', v') Sample.one_balance ->
            exists s',
              convert_balance Sample.get_token_decimals
                Sample.Decimal_from_sequence k' v' = Ok s').
  { intros k' v' [H|[]]. injection H as <- <-.
    exists "1". vm_compute. reflexivity. }
  split; [exact Hpre|]. split; [reflexivity|]. split; [reflexivity|].
  exact (C2_parse_failure_escapes_except_ValueError
           Sample.get_token_decimals Sample.Decimal_from_sequence
           Sample.one_balance "0xETH" 18%N "abc" [] Hpre eq_refl eq_refl).
Defined.

(** C3 as it is stated fails on a balance of 29 digits: the quotient is
    rounded to 28 significant digits. *)
Lemma C3_counterexample :
  integer_string Sample.long_balance = Some 12345678901234567890123456789
  /\ Sample.get_token_decimals "0xTOK" = inr 6%N
  /\ Sample.convert_total_balances (PDict [("0xTOK", PStr Sample.long_balance)])
     = Ok [("0xTOK", "12345678901234567890123.45679")]
  /\ exists r q,
       PyDecimal.of_str "12345678901234567890123.45679" = Ok r
       /\ PyDecimal.value r = Some q
       /\ ~ (q == quotient 12345678901234567890123456789 6)%Q.
Proof.
  split; [vm_compute; reflexivity|]. split; [reflexivity|].
  split; [vm_compute; reflexivity|].
  exists (PyDecimal.Finite false 1234567890123456789012345679 (-5)).
  eexists. split; [vm_compute; reflexivity|]. split; [reflexivity|].
  unfold Qeq. vm_compute. intros H. discriminate H.
Qed.

Lemma C3_witness :
  NoDup (Dict.keys Sample.one_balance)
  /\ (forall k v, In (k, v) Sample.one_balance ->
        exists s z d,
          v = PStr s /\ integer_string s = Some z /\ within_precision z
          /\ Digits.ndigits (Z.abs_N z) <= 1000000
          /\ Sample.get_token_decimals k = inr d /\ (d <= 1000026)%N)
  /\ exists out,
       Sample.convert_total_balances (PDict Sample.one_balance) = Ok out
       /\ Dict.keys out = Dict.keys Sample.one_balance
       /\ forall k s z d,
            In (k, PStr s) Sample.one_balance -> integer_string s = Some z ->
            Sample.get_token_decimals k = inr d ->
            exists r q,
              Dict.get k out = Some (PyDecimal.to_str r)
              /\ PyDecimal.of_str (PyDecimal.to_str r) = Ok r
              /\ PyDecimal.value r = Some q /\ (q == quotient z d)%Q.
Proof.
  assert (Hnd : NoDup (Dict.keys Sample.one_balance)).
  { repeat constructor. intros []. }
  assert (Hitems : forall k v, In (k, v) Sample.one_balance ->
            exists s z d,
              v = PStr s /\ integer_string s = Some z /\ within_precision z
              /\ Digits.ndigits (Z.abs_N z) <= 1000000
              /\ Sample.get_token_decimals k = inr d /\ (d <= 1000026)%N).
  { intros k v [H|[]]. injection H as <- <-.
    exists "1000000", 1000000, 6%N.
    split; [reflexivity|]. split; [reflexivity|].
    split; [exists 1%N, 6%N; split; [reflexivity|reflexivity]|].
    split; [vm_compute; discriminate|]. split; [reflexivity|].
    vm_compute; discriminate. }
  split; [exact Hnd|]. split; [exact Hitems|].
  exact (C3_normalization_exact_within_precision
           Sample.get_token_decimals Sample.Decimal_from_sequence
           Sample.one_balance Hnd Hitems).
Defined.

(** C4 as it is stated fails: under the names [startDates] and
    [zklendPosition] two required fields are missing, and under the names
    of the class the balance is rendered ["1"], not ["1.000000"]. *)
Lemma C4_counterexample :
  Sample.get_token_decimals "0xTOK" = inr 6%N
  /\ Sample.validate (PDict Sample.payload_wire)
     = Invalid [E_missing "start_dates"; E_missing "zklend_position"]
  /\ Sample.convert_total_balances (PDict Sample.one_balance)
     = Ok [("0xTOK", "1")].
Proof.
  split; [reflexivity|]. split; vm_compute; reflexivity.
Qed.

Lemma C4_witness :
  Sample.get_token_decimals "0xTOK" = inr 6%N
  /\ Sample.datetime_from (PStr "2024-01-01T00:00:00")
     = Some Sample.new_year_2024
  /\ Sample.validate (PDict Sample.payload)
     = Ok (mk_DashboardResponse
             [("ETH", PFloat (FFinite false 5 0))]
             [("ETH", Some 2)]
             [("ETH", Some Sample.new_year_2024)]
             (mk_ZkLendPositionResponse [Sample.valid_product])).
Proof.
  split; [reflexivity|]. split; [reflexivity|].
  apply (C4_end_to_end_internal_names
           Sample.get_token_decimals Sample.Decimal_from_sequence
           Sample.int_from_str Sample.datetime_from Sample.new_year_2024);
    reflexivity.
Defined.

(** C5 as it is stated fails: the payload is valid under the names of the
    class and is not when they are spelled as on the wire. *)
Lemma C5_counterexample :
  succeeded (Sample.validate (PDict Sample.payload)) = true
  /\ wire_payload Sample.payload = Sample.payload_wire
  /\ Sample.validate (PDict (wire_payload Sample.payload))
     = Invalid [E_missing "start_dates"; E_missing "zklend_position"].
Proof.
  split; [vm_compute; reflexivity|]. split; vm_compute; reflexivity.
Qed.

Lemma C5_witness :
  Sample.validate_Position (PDict Sample.position) = Ok Sample.valid_position
  /\ Sample.validate_Position (PDict Sample.position_internal)
     = Ok Sample.valid_position
  /\ ~ In "tokenAddress" (Dict.keys Sample.position_internal)
  /\ ~ In "totalBalances" (Dict.keys Sample.position_internal)
  /\ Sample.validate_Position (PDict (wire_position Sample.position_internal))
     = Sample.validate_Position (PDict Sample.position_internal)
  /\ forall r, Sample.validate (PDict (wire_payload Sample.payload)) <> Ok r.
Proof.
  assert (H1 : ~ In "tokenAddress" (Dict.keys Sample.position_internal)).
  { cbn. intros [H|[H|[H|[]]]]; discriminate H. }
  assert (H2 : ~ In "totalBalances" (Dict.keys Sample.position_internal)).
  { cbn. intros [H|[H|[H|[]]]]; discriminate H. }
  assert (Hbalances :
    validate_total_balances Sample.get_token_decimals
      Sample.Decimal_from_sequence (PDict Sample.one_balance)
    = Ok [("0xTOK", "1")])
    by (vm_compute; reflexivity).
  split; [|split; [|split; [exact H1|split; [exact H2|split]]]].
  - exact (proj1 (C5_aliases_of_Position_only
                    Sample.get_token_decimals Sample.Decimal_from_sequence
                    Sample.int_from_str Sample.datetime_from
                    Sample.position)
             (PDict [("collateral", PBool true); ("debt", PBool false)])
             (mk_Data true false) (PStr "0xTOK") (Some "0xTOK")
             (PDict Sample.one_balance) [("0xTOK", "1")]
             eq_refl eq_refl eq_refl Hbalances
             (or_introl eq_refl) (or_introl eq_refl)).
  - exact (proj1 (C5_aliases_of_Position_only
                    Sample.get_token_decimals Sample.Decimal_from_sequence
                    Sample.int_from_str Sample.datetime_from
                    Sample.position_internal)
             (PDict [("collateral", PBool true); ("debt", PBool false)])
             (mk_Data true false) (PStr "0xTOK") (Some "0xTOK")
             (PDict Sample.one_balance) [("0xTOK", "1")]
             eq_refl eq_refl eq_refl Hbalances
             (or_intror (conj eq_refl eq_refl))
             (or_intror (conj eq_refl eq_refl))).
  - exact (proj1 (proj2 (C5_aliases_of_Position_only
                           Sample.get_token_decimals
                           Sample.Decimal_from_sequence
                           Sample.int_from_str Sample.datetime_from
                           Sample.position_internal)) H1 H2).
  - exact (proj2 (proj2 (C5_aliases_of_Position_only
                           Sample.get_token_decimals
                           Sample.Decimal_from_sequence
                           Sample.int_from_str Sample.datetime_from
                           Sample.payload))).
Defined.

Lemma C6_witness :
  ~ In "tokenAddress" (Dict.keys Sample.position_internal)
  /\ ~ In "totalBalances" (Dict.keys Sample.position_internal)
  /\ wire_position Sample.position_internal = Sample.position
  /\ Sample.validate_Position (PDict (wire_position Sample.position_internal))
     = Sample.validate_Position (PDict Sample.position_internal)
  /\ Sample.validate_Position (PDict (wire_position Sample.position_internal))
     = Ok Sample.valid_position
  /\ Sample.validate_Position (PDict Sample.position_internal)
     = Ok Sample.valid_position.
Proof.
  assert (H1 : ~ In "tokenAddress" (Dict.keys Sample.position_internal)).
  { cbn. intros [H|[H|[H|[]]]]; discriminate H. }
  assert (H2 : ~ In "totalBalances" (Dict.keys Sample.position_internal)).
  { cbn. intros [H|[H|[H|[]]]]; discriminate H. }
  assert (Hbalances :
    validate_total_balances Sample.get_token_decimals
      Sample.Decimal_from_sequence (PDict Sample.one_balance)
    = Ok [("0xTOK", "1")])
    by (vm_compute; reflexivity).
  split; [exact H1|]. split; [exact H2|]. split; [reflexivity|].
  destruct (C6_position_spellings_agree
              Sample.get_token_decimals Sample.Decimal_from_sequence
              Sample.position_internal H1 H2)
    as [Hsame Haccepted].
  split; [exact Hsame|].
  exact (Haccepted
           (PDict [("collateral", PBool true); ("debt", PBool false)])
           (mk_Data true false) (Some "0xTOK")
           (PDict Sample.one_balance) [("0xTOK", "1")]
           eq_refl eq_refl eq_refl eq_refl Hbalances).
Defined.

Lemma C7_witness :
  Store.read [PDict Sample.product_two_groups] 0
  = PDict Sample.product_two_groups
  /\ Dict.get "groups" Sample.product_two_groups = Some (PDict Sample.two_groups)
  /\ Dict.get "1" Sample.two_groups = Some (PDict Sample.group_1)
  /\ Dict.get "healthRatio" Sample.group_1 = Some (PStr "1.5")
  /\ Dict.get "groups" (extracted Sample.product_two_groups (PStr "1.5")) = None
  /\ snd (Sample.convert_product [PDict Sample.product_two_groups] 0)
     = Ok (mk_Product "P1" "1.5" []).
Proof.
  split; [reflexivity|]. split; [reflexivity|]. split; [reflexivity|].
  split; [reflexivity|].
  destruct (C7_health_ratio_of_group_1
              Sample.get_token_decimals Sample.Decimal_from_sequence
              [PDict Sample.product_two_groups] 0%nat
              Sample.product_two_groups Sample.two_groups Sample.group_1 "1.5"
              eq_refl eq_refl eq_refl eq_refl)
    as (_ & Hgone & _ & Hbuilt).
  split; [exact Hgone|].
  apply (Hbuilt "P1" (PList []) []); reflexivity.
Defined.

(** C8 as it is stated fails: a payload without [startDates] and
    [zklendPosition] is valid when it has [start_dates] and
    [zklend_position]. *)
Lemma C8_counterexample :
  Dict.get "startDates" Sample.payload = None
  /\ Dict.get "zklendPosition" Sample.payload = None
  /\ succeeded (Sample.validate (PDict Sample.payload)) = true.
Proof.
  split; [reflexivity|]. split; [reflexivity|]. vm_compute. reflexivity.
Qed.

Lemma C8_witness :
  In "start_dates" ["balances"; "multipliers"; "start_dates"; "zklend_position"]
  /\ Dict.get "start_dates" Sample.payload_wire = None
  /\ forall r, Sample.validate (PDict Sample.payload_wire) <> Ok r.
Proof.
  assert (Hin : In "start_dates"
                  ["balances"; "multipliers"; "start_dates"; "zklend_position"])
    by (right; right; left; reflexivity).
  split; [exact Hin|]. split; [reflexivity|].
  exact (C8_top_level_fields_required
           Sample.get_token_decimals Sample.Decimal_from_sequence
           Sample.int_from_str Sample.datetime_from
           Sample.payload_wire "start_dates" Hin eq_refl).
Defined.

Lemma C9_witness :
  Dict.get "products" ([] : pydict) = None
  /\ validate_ZkLendPositionResponse
       Sample.get_token_decimals Sample.Decimal_from_sequence (PDict [])
     = Ok (mk_ZkLendPositionResponse []).
Proof.
  split; [reflexivity|].
  exact (C9_products_default_to_empty
           Sample.get_token_decimals Sample.Decimal_from_sequence [] eq_refl).
Defined.

Lemma C10_witness :
  (Store.read [PDict Sample.product_with_empty_groups] 0
   = PDict Sample.product_with_empty_groups
   /\ Dict.get "groups" Sample.product_with_empty_groups = Some (PDict [])
   /\ Store.read
        (fst (Sample.convert_product [PDict Sample.product_with_empty_groups] 0))
        0
      = PDict (extracted Sample.product_with_empty_groups PNone))
  /\ Sample.convert_products [PDict Sample.product] [0%nat]
     = ([PDict (extracted Sample.product (PStr "2.0"))],
        Ok [Sample.valid_product])
  /\ forall l, In l [0%nat] ->
       exists product ratio,
         Store.read [PDict Sample.product] l = PDict product
         /\ Dict.get "groups" product <> None
         /\ Store.read [PDict (extracted Sample.product (PStr "2.0"))] l
            = PDict (extracted product (PStr ratio))
         /\ Dict.get "groups" (extracted product (PStr ratio)) = None
         /\ Dict.get "health_ratio" (extracted product (PStr ratio))
            = Some (PStr ratio).
Proof.
  assert (Hrun : Sample.convert_products [PDict Sample.product] [0%nat]
                 = ([PDict (extracted Sample.product (PStr "2.0"))],
                    Ok [Sample.valid_product]))
    by (vm_compute; reflexivity).
  split; [|split; [exact Hrun|]].
  - split; [reflexivity|]. split; [reflexivity|].
    exact (proj1 (C10_products_mutated_in_place
                    Sample.get_token_decimals Sample.Decimal_from_sequence)
             [PDict Sample.product_with_empty_groups] 0%nat
             Sample.product_with_empty_groups [] [] PNone
             eq_refl eq_refl eq_refl eq_refl).
  - exact (proj2 (C10_products_mutated_in_place
                    Sample.get_token_decimals Sample.Decimal_from_sequence)
             [PDict Sample.product] [0%nat]
             [PDict (extracted Sample.product (PStr "2.0"))]
             [Sample.valid_product] Hrun).
Defined.

(** * The further properties at sample inputs *)

Lemma X1_witness :
  In ("0xETH", PStr "abc") (Sample.one_balance ++ [("0xETH", PStr "abc")])
  /\ (forall s,
        convert_balance Sample.get_token_decimals Sample.Decimal_from_sequence
          "0xETH" (PStr "abc") <> Ok s)
  /\ (forall out,
        Sample.convert_total_balances
          (PDict (Sample.one_balance ++ [("0xETH", PStr "abc")])) <> Ok out)
  /\ (forall out,
        Sample.validate_total_balances
          (PDict (Sample.one_balance ++ [("0xETH", PStr "abc")])) <> Ok out).
Proof.
  assert (Hin : In ("0xETH", PStr "abc")
                  (Sample.one_balance ++ [("0xETH", PStr "abc")]))
    by (right; left; reflexivity).
  assert (Hfail : forall s,
            convert_balance Sample.get_token_decimals
              Sample.Decimal_from_sequence "0xETH" (PStr "abc") <> Ok s)
    by (intros s; vm_compute; discriminate).
  split; [exact Hin|]. split; [exact Hfail|].
  exact (X1_conversion_all_or_nothing
           Sample.get_token_decimals Sample.Decimal_from_sequence
           (Sample.one_balance ++ [("0xETH", PStr "abc")])
           "0xETH" (PStr "abc") Hin Hfail).
Defined.

Lemma X2_witness :
  (forall k' v', In (k', v') Sample.one_balance ->
     exists s',
       convert_balance Sample.get_token_decimals Sample.Decimal_from_sequence
         k' v' = Ok s')
  /\ convert_balance Sample.get_token_decimals Sample.Decimal_from_sequence
       "0xNO" (PStr "5")
     = Raised (Exn ValueError "Token with address 0xNO not found")
  /\ Sample.convert_total_balances
       (PDict (Sample.one_balance ++ [("0xNO", PStr "5")]))
     = Raised (Exn ValueError
                 "Error in balance conversion: Token with address 0xNO not found")
  /\ Sample.validate_total_balances
       (PDict (Sample.one_balance ++ [("0xNO", PStr "5")]))
     = Invalid [E_value_error
                  "Error in balance conversion: Token with address 0xNO not found"].
Proof.
  assert (Hpre : forall k' v', In (k', v') Sample.one_balance ->
            exists s',
              convert_balance Sample.get_token_decimals
                Sample.Decimal_from_sequence k' v' = Ok s').
  { intros k' v' [H|[]]. injection H as <- <-.
    exists "1". vm_compute. reflexivity. }
  split; [exact Hpre|]. split; [reflexivity|].
  exact (X2_ValueError_is_wrapped
           Sample.get_token_decimals Sample.Decimal_from_sequence
           Sample.one_balance "0xNO" (PStr "5") []
           (Exn ValueError "Token with address 0xNO not found")
           Hpre eq_refl eq_refl).
Defined.

Lemma X3_witness :
  (forall k' v', In (k', v') Sample.one_balance ->
     exists s',
       convert_balance Sample.get_token_decimals Sample.Decimal_from_sequence
         k' v' = Ok s')
  /\ convert_balance Sample.get_token_decimals Sample.Decimal_from_sequence
       "0xETH" PNone
     = Raised (Exn TypeError
                 "conversion from NoneType to Decimal is not supported")
  /\ Sample.convert_total_balances
       (PDict (Sample.one_balance ++ [("0xETH", PNone)]))
     = Raised (Exn TypeError
                 "conversion from NoneType to Decimal is not supported")
  /\ Sample.validate_total_balances
       (PDict (Sample.one_balance ++ [("0xETH", PNone)]))
     = Raised (Exn TypeError
                 "conversion from NoneType to Decimal is not supported").
Proof.
  assert (Hpre : forall k' v', In (k', v') Sample.one_balance ->
            exists s',
              convert_balance Sample.get_token_decimals
                Sample.Decimal_from_sequence k' v' = Ok s').
  { intros k' v' [H|[]]. injection H as <- <-.
    exists "1". vm_compute. reflexivity. }
  split; [exact Hpre|]. split; [reflexivity|].
  destruct (X3_other_exceptions_pass_through
              Sample.get_token_decimals Sample.Decimal_from_sequence
              Sample.one_balance "0xETH" PNone []
              (Exn TypeError
                 "conversion from NoneType to Decimal is not supported")
              Hpre eq_refl eq_refl)
    as [Hraw Hfield].
  split; [exact Hraw|]. apply Hfield. discriminate.
Defined.

Lemma X4_witness :
  NoDup (Dict.keys [("0xTOK", PStr "1000000"); ("0xETH", PInt 5)])
  /\ Sample.convert_total_balances
       (PDict [("0xTOK", PStr "1000000"); ("0xETH", PInt 5)])
     = Ok [("0xTOK", "1"); ("0xETH", "5E-18")]
  /\ Dict.keys [("0xTOK", "1"); ("0xETH", "5E-18")]
     = Dict.keys [("0xTOK", PStr "1000000"); ("0xETH", PInt 5)]
  /\ forall k v, In (k, v) [("0xTOK", PStr "1000000"); ("0xETH", PInt 5)] ->
       exists s,
         convert_balance Sample.get_token_decimals Sample.Decimal_from_sequence
           k v = Ok s
         /\ Dict.get k [("0xTOK", "1"); ("0xETH", "5E-18")] = Some s.
Proof.
  assert (Hnd : NoDup (Dict.keys [("0xTOK", PStr "1000000"); ("0xETH", PInt 5)])).
  { cbn. repeat constructor; cbn [In]; intros H;
      repeat (destruct H as [H|H]; [discriminate H|]); exact H. }
  assert (Hrun : Sample.convert_total_balances
                   (PDict [("0xTOK", PStr "1000000"); ("0xETH", PInt 5)])
                 = Ok [("0xTOK", "1"); ("0xETH", "5E-18")])
    by (vm_compute; reflexivity).
  split; [exact Hnd|]. split; [exact Hrun|].
  exact (X4_converted_keys_and_values
           Sample.get_token_decimals Sample.Decimal_from_sequence
           [("0xTOK", PStr "1000000"); ("0xETH", PInt 5)]
           [("0xTOK", "1"); ("0xETH", "5E-18")] Hnd Hrun).
Defined.

Lemma X5_witness :
  Digits.ndigits (Z.abs_N (-1500000)) <= PyDecimal.MAX_PREC
  /\ int_str (-1500000) = "-1500000"
  /\ convert_balance Sample.get_token_decimals Sample.Decimal_from_sequence
       "0xTOK" (PInt (-1500000))
     = convert_balance Sample.get_token_decimals Sample.Decimal_from_sequence
         "0xTOK" (PStr (int_str (-1500000))).
Proof.
  assert (Hlen : Digits.ndigits (Z.abs_N (-1500000)) <= PyDecimal.MAX_PREC)
    by (vm_compute; discriminate).
  split; [exact Hlen|]. split; [reflexivity|].
  exact (X5_int_balance_like_its_string
           Sample.get_token_decimals Sample.Decimal_from_sequence
           "0xTOK" (-1500000) Hlen).
Defined.

Lemma X6_witness :
  Sample.get_token_decimals "0xTOK" = inr 6%N
  /\ integer_string "2000000" = Some 2000000
  /\ 2000000 = 2 * 10 ^ Z.of_N 6
  /\ int_str 2 = "2"
  /\ convert_balance Sample.get_token_decimals Sample.Decimal_from_sequence
       "0xTOK" (PStr "2000000")
     = Ok (int_str 2).
Proof.
  split; [reflexivity|]. split; [reflexivity|]. split; [reflexivity|].
  split; [reflexivity|].
  apply (X6_whole_number_rendered_plain
           Sample.get_token_decimals Sample.Decimal_from_sequence
           "0xTOK" "2000000" 2000000 2 6%N);
    [reflexivity|reflexivity|reflexivity|discriminate|reflexivity
    |vm_compute; discriminate].
Defined.

Lemma X7_witness :
  Sample.get_token_decimals "0xETH" = inr 18%N
  /\ integer_string "1" = Some 1
  /\ exists out,
       convert_balance Sample.get_token_decimals Sample.Decimal_from_sequence
         "0xETH" (PStr "1") = Ok out
       /\ (scientific out <-> Digits.ndigits (Z.abs_N 1) + 6 <= Z.of_N 18).
Proof.
  split; [reflexivity|]. split; [reflexivity|].
  apply (X7_scientific_below_one_millionth
           Sample.get_token_decimals Sample.Decimal_from_sequence
           "0xETH" "1" 1 18%N);
    [reflexivity|reflexivity|discriminate|reflexivity|vm_compute; discriminate].
Defined.

Lemma X8_witness :
  Sample.convert_products
    [PDict Sample.product; PDict Sample.product_with_empty_groups] [1%nat]
  = ([PDict Sample.product;
      PDict (extracted Sample.product_with_empty_groups PNone)],
     Invalid [E_string_type])
  /\ (forall l, ~ In l [1%nat] ->
        Store.read
          [PDict Sample.product;
           PDict (extracted Sample.product_with_empty_groups PNone)] l
        = Store.read
            [PDict Sample.product; PDict Sample.product_with_empty_groups] l)
  /\ List.length
       [PDict Sample.product;
        PDict (extracted Sample.product_with_empty_groups PNone)]
     = List.length
         [PDict Sample.product; PDict Sample.product_with_empty_groups].
Proof.
  assert (Hrun :
    Sample.convert_products
      [PDict Sample.product; PDict Sample.product_with_empty_groups] [1%nat]
    = ([PDict Sample.product;
        PDict (extracted Sample.product_with_empty_groups PNone)],
       Invalid [E_string_type]))
    by (vm_compute; reflexivity).
  split; [exact Hrun|].
  exact (X8_other_objects_untouched
           Sample.get_token_decimals Sample.Decimal_from_sequence
           [1%nat] _ _ _ Hrun).
Defined.

Lemma X9_witness :
  Sample.convert_product [PDict Sample.product_two_groups] 0
  = ([PDict (extracted Sample.product_two_groups (PStr "1.5"))],
     Ok (mk_Product "P1" "1.5" []))
  /\ exists product groups group1,
       Store.read [PDict Sample.product_two_groups] 0 = PDict product
       /\ Dict.get "groups" product = Some (PDict groups)
       /\ Dict.get "1" groups = Some (PDict group1)
       /\ Dict.get "healthRatio" group1 = Some (PStr "1.5")
       /\ validate_Product Sample.get_token_decimals
            Sample.Decimal_from_sequence (extracted product (PStr "1.5"))
          = Ok (mk_Product "P1" "1.5" []).
Proof.
  assert (Hrun :
    Sample.convert_product [PDict Sample.product_two_groups] 0
    = ([PDict (extracted Sample.product_two_groups (PStr "1.5"))],
       Ok (mk_Product "P1" "1.5" [])))
    by (vm_compute; reflexivity).
  split; [exact Hrun|].
  exact (X9_health_ratio_comes_from_group_1
           Sample.get_token_decimals Sample.Decimal_from_sequence
           _ _ _ _ Hrun).
Defined.

Lemma X10_witness :
  Store.read
    [PDict [("name", PStr "P1"); ("groups", PList []); ("positions", PList [])]]
    0
  = PDict [("name", PStr "P1"); ("groups", PList []); ("positions", PList [])]
  /\ Dict.get "health_ratio"
       [("name", PStr "P1"); ("groups", PList []); ("positions", PList [])]
     = None
  /\ is_dict (PList []) = false
  /\ snd (Sample.convert_product
            [PDict [("name", PStr "P1"); ("groups", PList []);
                    ("positions", PList [])]] 0)
     = Raised (Exn AttributeError "'list' object has no attribute 'get'")
  /\ Store.read
       (fst (Sample.convert_product
               [PDict [("name", PStr "P1"); ("groups", PList []);
                       ("positions", PList [])]] 0)) 0
     = PDict [("name", PStr "P1"); ("positions", PList [])].
Proof.
  split; [reflexivity|]. split; [reflexivity|]. split; [reflexivity|].
  destruct (X10_groups_popped_before_the_failure
              Sample.get_token_decimals Sample.Decimal_from_sequence
              [PDict [("name", PStr "P1"); ("groups", PList []);
                      ("positions", PList [])]] 0%nat
              [("name", PStr "P1"); ("groups", PList []);
               ("positions", PList [])]
              (PList []) eq_refl eq_refl (or_introl (conj eq_refl eq_refl)))
    as (Hraise & Hleft & _).
  split; [exact Hraise|exact Hleft].
Defined.

Lemma X11_witness :
  Sample.convert_products
    [PDict Sample.product; PDict Sample.product_two_groups] [1%nat; 0%nat]
  = ([PDict (extracted Sample.product (PStr "2.0"));
      PDict (extracted Sample.product_two_groups (PStr "1.5"))],
     Ok [mk_Product "P1" "1.5" []; Sample.valid_product])
  /\ Forall2
       (fun l p =>
          exists product,
            Store.read
              [PDict Sample.product; PDict Sample.product_two_groups] l
            = PDict product
            /\ validate_Product Sample.get_token_decimals
                 Sample.Decimal_from_sequence
                 (extracted product (PStr (health_ratio p)))
               = Ok p)
       [1%nat; 0%nat] [mk_Product "P1" "1.5" []; Sample.valid_product].
Proof.
  assert (Hrun :
    Sample.convert_products
      [PDict Sample.product; PDict Sample.product_two_groups] [1%nat; 0%nat]
    = ([PDict (extracted Sample.product (PStr "2.0"));
        PDict (extracted Sample.product_two_groups (PStr "1.5"))],
       Ok [mk_Product "P1" "1.5" []; Sample.valid_product]))
    by (vm_compute; reflexivity).
  split; [exact Hrun|].
  exact (X11_products_in_input_order
           Sample.get_token_decimals Sample.Decimal_from_sequence
           _ _ _ _ Hrun).
Defined.

Lemma X12_witness :
  Sample.convert_products
    [PDict Sample.product_two_groups; PDict Sample.product] [0%nat; 1%nat]
  = ([PDict (extracted Sample.product_two_groups (PStr "1.5"));
      PDict (extracted Sample.product (PStr "2.0"))],
     Ok [mk_Product "P1" "1.5" []; Sample.valid_product])
  /\ NoDup [0%nat; 1%nat].
Proof.
  assert (Hrun :
    Sample.convert_products
      [PDict Sample.product_two_groups; PDict Sample.product] [0%nat; 1%nat]
    = ([PDict (extracted Sample.product_two_groups (PStr "1.5"));
        PDict (extracted Sample.product (PStr "2.0"))],
       Ok [mk_Product "P1" "1.5" []; Sample.valid_product]))
    by (vm_compute; reflexivity).
  split; [exact Hrun|].
  exact (X12_shared_dictionary_never_converted
           Sample.get_token_decimals Sample.Decimal_from_sequence
           _ _ _ _ Hrun).
Defined.

Lemma X13_witness :
  Sample.convert_products [PDict Sample.product] [0%nat]
  = ([PDict (extracted Sample.product (PStr "2.0"))], Ok [Sample.valid_product])
  /\ snd (Sample.convert_products
            [PDict (extracted Sample.product (PStr "2.0"))] [0%nat])
     = Raised (Exn AttributeError "'NoneType' object has no attribute 'get'").
Proof.
  assert (Hrun :
    Sample.convert_products [PDict Sample.product] [0%nat]
    = ([PDict (extracted Sample.product (PStr "2.0"))],
       Ok [Sample.valid_product]))
    by (vm_compute; reflexivity).
  split; [exact Hrun|].
  apply (X13_second_run_raises
           Sample.get_token_decimals Sample.Decimal_from_sequence
           _ _ _ _ Hrun).
  discriminate.
Defined.

Lemma X14_witness :
  Pydantic.get_aliased "totalBalances" "total_balances"
    [("data", PDict [("debt", PBool true)]); ("totalBalances", PNone)]
  = Some PNone
  /\ Sample.convert_total_balances PNone
     = Raised (Exn AttributeError "'NoneType' object has no attribute 'items'")
  /\ Sample.validate_Position
       (PDict [("data", PDict [("debt", PBool true)]); ("totalBalances", PNone)])
     = Raised (Exn AttributeError "'NoneType' object has no attribute 'items'").
Proof.
  split; [reflexivity|]. split; [reflexivity|].
  apply (X14_conversion_exception_escapes_Position
           Sample.get_token_decimals Sample.Decimal_from_sequence
           [("data", PDict [("debt", PBool true)]); ("totalBalances", PNone)]
           PNone);
    [reflexivity|reflexivity|discriminate|discriminate].
Defined.

Lemma X15_witness :
  Dict.get "zklend_position"
    [("multipliers", PInt 1);
     ("zklend_position", PDict [("products", PList [PStr "P1"])])]
  = Some (PDict [("products", PList [PStr "P1"])])
  /\ validate_ZkLendPositionResponse
       Sample.get_token_decimals Sample.Decimal_from_sequence
       (PDict [("products", PList [PStr "P1"])])
     = Raised (Exn AttributeError "'str' object has no attribute 'pop'")
  /\ Sample.validate
       (PDict [("multipliers", PInt 1);
               ("zklend_position", PDict [("products", PList [PStr "P1"])])])
     = Raised (Exn AttributeError "'str' object has no attribute 'pop'").
Proof.
  split; [reflexivity|]. split; [reflexivity|].
  apply (X15_zklend_exception_escapes_validate
           Sample.get_token_decimals Sample.Decimal_from_sequence
           Sample.int_from_str Sample.datetime_from
           [("multipliers", PInt 1);
            ("zklend_position", PDict [("products", PList [PStr "P1"])])]
           (PDict [("products", PList [PStr "P1"])]));
    reflexivity.
Defined.

Lemma X16_witness :
  Dict.get "zklend_position"
    [("balances", PDict []);
     ("zklend_position",
      PDict [("products",
              PList [PDict Sample.product_without_groups;
                     PDict Sample.product])])]
  = Some (PDict [("products",
                  PList [PDict Sample.product_without_groups;
                         PDict Sample.product])])
  /\ Dict.get "groups" Sample.product_without_groups = None
  /\ Sample.validate
       (PDict [("balances", PDict []);
               ("zklend_position",
                PDict [("products",
                        PList [PDict Sample.product_without_groups;
                               PDict Sample.product])])])
     = Raised (Exn AttributeError "'NoneType' object has no attribute 'get'").
Proof.
  split; [reflexivity|]. split; [reflexivity|].
  apply (X16_product_without_groups_aborts_validation
           Sample.get_token_decimals Sample.Decimal_from_sequence
           Sample.int_from_str Sample.datetime_from
           [("balances", PDict []);
            ("zklend_position",
             PDict [("products",
                     PList [PDict Sample.product_without_groups;
                            PDict Sample.product])])]
           [("products",
             PList [PDict Sample.product_without_groups; PDict Sample.product])]
           Sample.product_without_groups [PDict Sample.product]);
    reflexivity.
Defined.

Lemma X17_witness :
  Dict.get "zklend_position"
    [("balances", PDict []); ("zklend_position", PDict [("products", PNone)])]
  = Some (PDict [("products", PNone)])
  /\ py_iter PNone
     = Raised (Exn TypeError "'NoneType' object is not iterable")
  /\ Sample.validate
       (PDict [("balances", PDict []);
               ("zklend_position", PDict [("products", PNone)])])
     = Raised (Exn TypeError "'NoneType' object is not iterable").
Proof.
  split; [reflexivity|]. split; [reflexivity|].
  apply (X17_products_not_iterable
           Sample.get_token_decimals Sample.Decimal_from_sequence
           Sample.int_from_str Sample.datetime_from
           [("balances", PDict []);
            ("zklend_position", PDict [("products", PNone)])]
           [("products", PNone)] PNone
           (Exn TypeError "'NoneType' object is not iterable"));
    reflexivity.
Defined.

Lemma X18_witness :
  Sample.validate (PDict Sample.payload)
  = Ok (mk_DashboardResponse
          [("ETH", PFloat (FFinite false 5 0))]
          [("ETH", Some 2)]
          [("ETH", Some Sample.new_year_2024)]
          (mk_ZkLendPositionResponse [Sample.valid_product]))
  /\ Dict.get "balances" Sample.payload
     = Some (PDict [("ETH", PFloat (FFinite false 5 0))]).
Proof.
  assert (Hrun :
    Sample.validate (PDict Sample.payload)
    = Ok (mk_DashboardResponse
            [("ETH", PFloat (FFinite false 5 0))]
            [("ETH", Some 2)]
            [("ETH", Some Sample.new_year_2024)]
            (mk_ZkLendPositionResponse [Sample.valid_product])))
    by (vm_compute; reflexivity).
  split; [exact Hrun|].
  exact (X18_balances_pass_through
           Sample.get_token_decimals Sample.Decimal_from_sequence
           Sample.int_from_str Sample.datetime_from _ _ Hrun).
Defined.

Lemma X19_witness :
  Dict.get "multipliers"
    [("balances", PDict [("ETH", PFloat (FFinite false 5 0))]);
     ("multipliers", PDict [("ETH", PFloat (FFinite false 3 (-1)))]);
     ("start_dates", PDict [("ETH", PStr "2024-01-01T00:00:00")]);
     ("zklend_position", Sample.zklend)]
  = Some (PDict [("ETH", PFloat (FFinite false 3 (-1)))])
  /\ Z.pos 3 mod 2 ^ (- -1) <> 0
  /\ forall r,
       Sample.validate
         (PDict
            [("balances", PDict [("ETH", PFloat (FFinite false 5 0))]);
             ("multipliers", PDict [("ETH", PFloat (FFinite false 3 (-1)))]);
             ("start_dates", PDict [("ETH", PStr "2024-01-01T00:00:00")]);
             ("zklend_position", Sample.zklend)])
       <> Ok r.
Proof.
  split; [reflexivity|]. split; [discriminate|].
  apply (X19_fractional_multiplier_refused
           Sample.get_token_decimals Sample.Decimal_from_sequence
           Sample.int_from_str Sample.datetime_from
           [("balances", PDict [("ETH", PFloat (FFinite false 5 0))]);
            ("multipliers", PDict [("ETH", PFloat (FFinite false 3 (-1)))]);
            ("start_dates", PDict [("ETH", PStr "2024-01-01T00:00:00")]);
            ("zklend_position", Sample.zklend)]
           [("ETH", PFloat (FFinite false 3 (-1)))] "ETH" false 3%positive (-1));
    [reflexivity|now left|reflexivity|discriminate].
Defined.

Lemma X20_witness :
  Sample.get_token_decimals "0xETH" = inr 18%N
  /\ convert_balance Sample.get_token_decimals Sample.Decimal_from_sequence
       "0xETH" (PInt 0) = Ok "0"
  /\ convert_balance Sample.get_token_decimals Sample.Decimal_from_sequence
       "0xETH" (PStr "0") = Ok "0".
Proof.
  split; [reflexivity|].
  exact (X20_zero_balance
           Sample.get_token_decimals Sample.Decimal_from_sequence
           "0xETH" 18%N eq_refl).
Defined.
